(** * Car-rental booking core: availability, pricing and booking lifecycle

    A shallow embedding of
      - backend/utils/validateBooking.js
      - backend/models/Booking.js (the validators of the schema, the
        pre-save hook and the methods)
      - backend/models/Car.js (isAvailableForDates, updateRating)
      - backend/controllers/bookingController.js
      - backend/controllers/carController.js (getCarAvailability, deleteCar)
    together with the properties the specification states about them.

    Modelling conventions.
    - A JS [Date] is its time value: milliseconds since the epoch, in [Z].
      A calendar date string [YYYY-MM-DD] is its day number (days since the
      epoch) and a time of day [HH:MM] a pair of hours and minutes.
      [new Date("YYYY-MM-DD")] is midnight UTC of that day; the server's
      local zone is taken to be UTC, so [new Date("YYYY-MM-DDTHH:MM")] is
      that midnight plus the time of day.
    - A JS [Number] that holds money, a rate, an average or a number of hours
      is an exact rational in [Q]; results are compared with [==].  Durations
      produced by [Math.ceil] are integers in [Z].  Where a product can have
      a factor that is no number, the result is a [JS.number]: a rational or
      [NaN].
    - The clock is read once per request: every [new Date()] of one call
      yields the parameter [now].
    - The two MongoDB collections are finite maps from identifiers to
      documents.  Request inputs are well-typed (strings are strings, dates
      parse); a field that may be absent is an [option], and a required
      field of a request that is present is truthy.
    - A booking document carries every path of its schema that has a
      validator or that a handler reads or writes; [doc.save()] validates
      all of them before the hook runs, an update with [runValidators] those
      that it sets.  A car document carries the paths that the code
      embedded here reads or writes; when [updateRating] saves a car the
      validators of its rating decide, and its other paths are taken to
      pass theirs. *)

From Stdlib Require Import ZArith QArith Qround Lia Lqa Ascii.
From stdpp Require Import base option list strings gmap fin_maps.

Local Open Scope Z_scope.

(** ** JavaScript arithmetic *)

Module JS.

(** [Math.ceil] on a real number. *)
Definition ceil (x : Q) : Z := Qceiling x.

(** [Math.round]: the nearest integer, halves going up. *)
Definition round (x : Q) : Z := Qfloor (x + (1 # 2)).

(** [Math.round(x * 100) / 100]. *)
Definition round2 (x : Q) : Q := (inject_Z (round (x * 100)) / 100)%Q.

(** [a <= b], [a < b] on numbers. *)
Definition leb (a b : Q) : bool := Qle_bool a b.
Definition ltb (a b : Q) : bool := negb (Qle_bool b a).

(** Truthiness of a number: every number except zero. *)
Definition truthy (x : Q) : bool := negb (Qeq_bool x 0).

(** [a % b] on integers: the sign follows the dividend. *)
Definition rem (a b : Z) : Z := Z.rem a b.

(** A number or [NaN]. *)
Inductive number := num (q : Q) | NaN.

(** [x + y] and [x * y]: [NaN] as soon as one side is. *)
Definition add (x y : number) : number :=
  match x, y with
  | num a, num b => num (a + b)
  | _, _ => NaN
  end.

Definition mul (x y : number) : number :=
  match x, y with
  | num a, num b => num (a * b)
  | _, _ => NaN
  end.

(** A function of numbers, such as [Math.round(x * 100) / 100], on a number
    or [NaN]. *)
Definition lift (f : Q -> Q) (x : number) : number :=
  match x with
  | num a => num (f a)
  | NaN => NaN
  end.

(** [x] is the number [q]. *)
Definition equals (x : number) (q : Q) : Prop :=
  match x with
  | num a => (a == q)%Q
  | NaN => False
  end.

(** [x <= y] holds: both are numbers, in that order. *)
Definition le (x y : number) : Prop :=
  match x, y with
  | num a, num b => (a <= b)%Q
  | _, _ => False
  end.

End JS.

(** ** Time *)

Definition msPerMinute : Z := 1000 * 60.
Definition msPerHour : Z := 1000 * 60 * 60.
Definition msPerDay : Z := 1000 * 60 * 60 * 24.

(** A time of day [HH:MM]. *)
Record TimeOfDay := mkTime { hh : Z; mm : Z }.

(** [new Date(date)] for a date-only string. *)
Definition parseDate (date : Z) : Z := date * msPerDay.

(** [new Date(`${date}T${time}`)]. *)
Definition parseDateTime (date : Z) (time : TimeOfDay) : Z :=
  date * msPerDay + hh time * msPerHour + mm time * msPerMinute.

(** ** backend/utils/validateBooking.js: validateBookingDates *)

Record Duration := mkDuration { hours : Z; days : Z }.

Record DateValidation := mkDateValidation {
  dv_isValid : bool;
  dv_errors : list string;
  dv_duration : Duration
}.

(** [errors.push(e)] *)
Definition push (errors : list string) (e : string) : list string :=
  errors ++ [e].

Definition errStartInFuture : string := "Start date and time must be in the future".
Definition errEndAfterStart : string :=
  "End date and time must be after start date and time".
Definition errMinDuration : string := "Booking must be at least 1 hour long".
Definition errMaxDuration : string := "Booking cannot be more than 30 days long".

Definition validateBookingDates
    (startDate endDate : Z) (startTime endTime : TimeOfDay) (now : Z)
    : DateValidation :=
  let errors := [] in
  let start := parseDateTime startDate startTime in
  let end_ := parseDateTime endDate endTime in
  let errors := if start <=? now then push errors errStartInFuture else errors in
  let errors := if end_ <=? start then push errors errEndAfterStart else errors in
  let durationHours := (inject_Z (end_ - start) / inject_Z msPerHour)%Q in
  let errors := if JS.ltb durationHours 1 then push errors errMinDuration else errors in
  let durationDays := (durationHours / 24)%Q in
  let errors := if JS.ltb 30 durationDays then push errors errMaxDuration else errors in
  {| dv_isValid := bool_decide (length errors = 0%nat);
     dv_errors := errors;
     dv_duration := {| hours := JS.ceil durationHours;
                       days := JS.ceil durationDays |} |}.

(** ** The documents: backend/models/Car.js and backend/models/Booking.js

    Of a car, the paths that the booking core reads or writes are kept.
    The [_id] of a document is its key in the collection. *)

Abbreviation ObjectId := N (only parsing).

Record CarPricing := mkCarPricing {
  hourly : Q;
  daily : Q;
  weekly : option Q;
  monthly : option Q;
  currency : string
}.

(** An entry of [unavailableDates] or of [maintenanceSchedule]. *)
Record Period := mkPeriod { p_startDate : Z; p_endDate : Z }.

Record CarAvailability := mkCarAvailability {
  ca_isAvailable : bool;
  unavailableDates : list Period;
  maintenanceSchedule : list Period
}.

Inductive CarStatus := car_active | car_inactive | car_maintenance | car_rented.

Definition carStatusName (s : CarStatus) : string :=
  match s with
  | car_active => "active"
  | car_inactive => "inactive"
  | car_maintenance => "maintenance"
  | car_rented => "rented"
  end.

Record CarRating := mkCarRating { average : Q; count : Z }.

Record Car := mkCar {
  c_pricing : CarPricing;
  c_availability : CarAvailability;
  c_owner : ObjectId;
  c_status : CarStatus;
  c_rating : CarRating;
  totalBookings : Z
}.

Inductive BookingStatus :=
  pending | confirmed | active | completed | cancelled | no_show.

Inductive PaymentStatus := unpaid | paid | refunded | partially_refunded.

(** [pickupLocation] and [dropoffLocation], in a request and in a
    document. *)
Record Location := mkLocation {
  address : option string;
  city : option string;
  country : option string
}.

Record DriverDetails := mkDriverDetails {
  licenseNumber : option string;
  licenseExpiry : option Z
}.

Record BookingPricing := mkBookingPricing {
  bp_basePrice : Q;
  bp_taxes : Q;
  bp_fees : Q;
  bp_discount : Q;
  bp_totalPrice : Q;
  bp_currency : string
}.

Record Insurance := mkInsurance { ins_type : string; ins_cost : Q }.

Record Mileage := mkMileage {
  mi_start : option Q;
  mi_end : option Q;
  mi_limit : Q;
  mi_overageFee : Q
}.

Record Fuel := mkFuel {
  fu_startLevel : string;
  fu_endLevel : option string;
  fu_refuelCost : Q
}.

Record Damage := mkDamage {
  dm_description : option string;
  dm_cost : option Q
}.

(** [inspection.postRental] *)
Record PostRental := mkPostRental {
  pr_completed : bool;
  pr_notes : option string;
  pr_inspector : option ObjectId;
  pr_date : option Z;
  pr_damages : list Damage
}.

Record BookingRating := mkBookingRating {
  carRating : option Q;
  serviceRating : option Q;
  comment : option string;
  ratedAt : option Z
}.

Record Cancellation := mkCancellation {
  cn_reason : option string;
  cancelledAt : option Z;
  cancelledBy : option ObjectId;
  cn_refundAmount : Q
}.

(** The paths left out have no validator and no handler reads or writes
    them: the coordinates, state and zip code of the locations, the
    emergency contact, [insurance.isRequired], the pre-rental inspection,
    the notification flags and the time stamps. *)
Record Booking := mkBooking {
  b_user : ObjectId;
  b_car : ObjectId;
  b_startDate : Z;
  b_endDate : Z;
  b_startTime : TimeOfDay;
  b_endTime : TimeOfDay;
  b_pickupLocation : Location;
  b_dropoffLocation : Location;
  b_pricing : BookingPricing;
  b_duration : Duration;
  b_status : BookingStatus;
  b_paymentStatus : PaymentStatus;
  b_paymentMethod : option string;
  b_specialRequests : option string;
  b_driverDetails : DriverDetails;
  b_insurance : Insurance;
  b_mileage : Mileage;
  b_fuel : Fuel;
  b_postRental : PostRental;
  b_rating : BookingRating;
  b_cancellation : Cancellation
}.

#[global] Instance BookingStatus_eq_dec : EqDecision BookingStatus.
Proof. solve_decision. Defined.

#[global] Instance CarStatus_eq_dec : EqDecision CarStatus.
Proof. solve_decision. Defined.

(** The store: the [cars] and [bookings] collections. *)
Record Store := mkStore {
  cars : gmap N Car;
  bookings : gmap N Booking
}.

(** ** backend/utils/validateBooking.js: checkCarAvailability *)

(** What the result lists of a conflicting booking. *)
Record Conflict := mkConflict {
  cf_id : ObjectId;
  cf_startDate : Z;
  cf_endDate : Z;
  cf_startTime : TimeOfDay;
  cf_endTime : TimeOfDay
}.

Record AvailabilityCheck := mkAvailabilityCheck {
  isAvailable : bool;
  reason : option string;
  av_conflictingBookings : option (list Conflict);
  av_car : option Car
}.

Definition unavailable (why : string) : AvailabilityCheck :=
  {| isAvailable := false; reason := Some why;
     av_conflictingBookings := None; av_car := None |}.

Definition reasonNotFound : string := "Car not found".
Definition reasonStatus (s : CarStatus) : string :=
  "Car is currently " +:+ carStatusName s.
Definition reasonFlag : string := "Car is not available for booking".
Definition reasonUnavailableDates : string :=
  "Car is not available for the selected dates".
Definition reasonMaintenance : string :=
  "Car is scheduled for maintenance during the selected dates".
Definition reasonBooked : string := "Car is already booked for the selected dates".

(** [start <= periodEnd && end >= periodStart] *)
Definition periodConflict (start end_ : Z) (period : Period) : bool :=
  (start <=? p_endDate period) && (end_ >=? p_startDate period).

(** The query handed to [Booking.find]. *)
Definition matchesQuery
    (carId : ObjectId) (start end_ : Z) (excludeBookingId : option ObjectId)
    (doc : ObjectId * Booking) : bool :=
  let (_id, b) := doc in
  bool_decide (b_car b = carId)
  && bool_decide (b_status b ∈ [pending; confirmed; active])
  && ((b_startDate b <=? end_) && (b_endDate b >=? start))
  && match excludeBookingId with
     | Some ex => negb (bool_decide (_id = ex))
     | None => true
     end.

(** [Model.find(query)]: the matching documents with their [_id], in the
    order in which the collection enumerates them. *)
Definition find {A} (collection : gmap N A) (query : ObjectId * A → bool)
    : list (ObjectId * A) :=
  List.filter query (map_to_list collection).

Definition conflictOf (doc : ObjectId * Booking) : Conflict :=
  let (_id, b) := doc in
  {| cf_id := _id; cf_startDate := b_startDate b; cf_endDate := b_endDate b;
     cf_startTime := b_startTime b; cf_endTime := b_endTime b |}.

(** [checkCarAvailability] from the two instants [new Date(startDate)] and
    [new Date(endDate)] on.  The [catch] branch of the source answers store
    failures; the store of the model is total. *)
Definition checkCarAvailabilityAt
    (db : Store) (carId : ObjectId) (start end_ : Z)
    (excludeBookingId : option ObjectId) : AvailabilityCheck :=
  match cars db !! carId with
  | None => unavailable reasonNotFound
  | Some car =>
    if negb (bool_decide (c_status car = car_active)) then
      unavailable (reasonStatus (c_status car))
    else if negb (ca_isAvailable (c_availability car)) then
      unavailable reasonFlag
    else
      let hasUnavailableDatesConflict :=
        existsb (periodConflict start end_) (unavailableDates (c_availability car)) in
      if hasUnavailableDatesConflict then unavailable reasonUnavailableDates
      else
        let hasMaintenanceConflict :=
          existsb (periodConflict start end_)
                  (maintenanceSchedule (c_availability car)) in
        if hasMaintenanceConflict then unavailable reasonMaintenance
        else
          let conflictingBookings :=
            find (bookings db) (matchesQuery carId start end_ excludeBookingId) in
          if (0 <? length conflictingBookings)%nat then
            {| isAvailable := false; reason := Some reasonBooked;
               av_conflictingBookings := Some (conflictOf <$> conflictingBookings);
               av_car := None |}
          else
            {| isAvailable := true; reason := None;
               av_conflictingBookings := None; av_car := Some car |}
  end.

(** [checkCarAvailability] on two date strings. *)
Definition checkCarAvailability
    (db : Store) (carId : ObjectId) (startDate endDate : Z)
    (excludeBookingId : option ObjectId) : AvailabilityCheck :=
  checkCarAvailabilityAt db carId (parseDate startDate) (parseDate endDate)
                         excludeBookingId.

(** The three kinds of conflict, on instants: the requested interval
    [start, end_] meets an interval of the car's blackout list, of its
    maintenance schedule, or of a pending, confirmed or active booking of
    the car other than the excluded one, both ends included. *)
Definition blackoutConflict (car : Car) (start end_ : Z) : Prop :=
  exists p, p ∈ unavailableDates (c_availability car)
            /\ start <= p_endDate p /\ end_ >= p_startDate p.

Definition maintenanceConflict (car : Car) (start end_ : Z) : Prop :=
  exists p, p ∈ maintenanceSchedule (c_availability car)
            /\ start <= p_endDate p /\ end_ >= p_startDate p.

Definition bookingConflict
    (db : Store) (carId : ObjectId) (start end_ : Z) (ex : option ObjectId)
    : Prop :=
  exists _id b, bookings db !! _id = Some b
                /\ b_car b = carId
                /\ b_status b ∈ [pending; confirmed; active]
                /\ ex <> Some _id
                /\ start <= b_endDate b /\ end_ >= b_startDate b.

(** ** backend/utils/validateBooking.js: calculateBookingPrice *)

Record Price := mkPrice {
  basePrice : Q;
  insuranceCost : JS.number;
  taxes : JS.number;
  fees : Q;
  totalPrice : JS.number;
  price_currency : string
}.

(** The own properties of the [insuranceRates] object. *)
Definition insuranceRates : gmap string Q :=
  {[ "basic" := (5 # 100)%Q; "comprehensive" := (10 # 100)%Q;
     "premium" := (15 # 100)%Q ]}.

(** The names under which every object inherits a property from
    [Object.prototype]: eleven functions, and the prototype itself. *)
Definition objectPrototype : list string :=
  ["constructor"; "hasOwnProperty"; "isPrototypeOf"; "propertyIsEnumerable";
   "toLocaleString"; "toString"; "valueOf"; "__defineGetter__";
   "__defineSetter__"; "__lookupGetter__"; "__lookupSetter__"; "__proto__"].

(** [insuranceRates[insuranceType] || insuranceRates.basic] as the factor
    of a product: an own rate that is not zero; for an inherited name a
    function or an object, which is truthy and no number; the basic rate
    for every other name. *)
Definition insuranceRate (insuranceType : string) : JS.number :=
  let basic := default 0%Q (insuranceRates !! "basic") in
  match insuranceRates !! insuranceType with
  | Some rate => if JS.truthy rate then JS.num rate else JS.num basic
  | None =>
    if bool_decide (insuranceType ∈ objectPrototype) then JS.NaN
    else JS.num basic
  end.

Definition taxRate : Q := (10 # 100)%Q.

(** [car.pricing.weekly ? ... : ...]: absent and zero are both falsy. *)
Definition weeklyRate (p : CarPricing) : option Q :=
  match weekly p with
  | Some w => if JS.truthy w then Some w else None
  | None => None
  end.

(** The descriptive [breakdown] strings of the result are not modelled. *)
Definition calculateBookingPrice
    (pricing : CarPricing) (duration : Duration) (insuranceType : string)
    : Price :=
  let hours := hours duration in
  let days := days duration in
  let basePrice :=
    if 7 <=? days then
      let weeks := JS.ceil (inject_Z days / 7) in
      match weeklyRate pricing with
      | Some w => (inject_Z weeks * w)%Q
      | None => (inject_Z weeks * 7 * daily pricing)%Q
      end
    else if 1 <=? days then
      let basePrice := (inject_Z days * daily pricing)%Q in
      let extraHours := JS.rem hours 24 in
      if 0 <? extraHours
      then (basePrice + inject_Z extraHours * hourly pricing)%Q
      else basePrice
    else (inject_Z hours * hourly pricing)%Q in
  let insuranceCost := JS.mul (JS.num basePrice) (insuranceRate insuranceType) in
  let taxes := JS.mul (JS.add (JS.num basePrice) insuranceCost) (JS.num taxRate) in
  let fees := if 1 <=? days then 25%Q else 10%Q in
  let totalPrice :=
    JS.add (JS.add (JS.add (JS.num basePrice) insuranceCost) taxes)
           (JS.num fees) in
  {| basePrice := JS.round2 basePrice;
     insuranceCost := JS.lift JS.round2 insuranceCost;
     taxes := JS.lift JS.round2 taxes;
     fees := fees;
     totalPrice := JS.lift JS.round2 totalPrice;
     price_currency := currency pricing |}.

(** ** backend/utils/validateBooking.js: validateDriverLicense, validateLocation *)

Record Validation := mkValidation { v_isValid : bool; v_errors : list string }.

(** JavaScript white space among the ASCII characters: tab, line feed,
    vertical tab, form feed, carriage return and space. *)
Definition isWhiteSpace (c : ascii) : bool :=
  let n := nat_of_ascii c in
  ((9 <=? n) && (n <=? 13) || (n =? 32))%nat.

Fixpoint trimStart (s : string) : string :=
  match s with
  | String c rest => if isWhiteSpace c then trimStart rest else s
  | EmptyString => EmptyString
  end.

(** [s.trim()] *)
Definition trim (s : string) : string :=
  String.rev (trimStart (String.rev (trimStart s))).

(** [!s || s.trim().length === 0] for a field that may be absent. *)
Definition missing (s : option string) : bool :=
  match s with
  | None => true
  | Some s => (String.length s =? 0)%nat || (String.length (trim s) =? 0)%nat
  end.

Definition errLicenseNumber : string := "Driver license number is required".
Definition errLicenseExpiryRequired : string :=
  "Driver license expiry date is required".
Definition errLicenseExpired : string := "Driver license has expired".
Definition errLicenseTooSoon : string :=
  "Driver license expires too soon for this booking".

Definition validateDriverLicense
    (licenseNumber : option string) (licenseExpiry : option Z) (now : Z)
    : Validation :=
  let errors := [] in
  let errors := if missing licenseNumber then push errors errLicenseNumber
                else errors in
  let errors :=
    match licenseExpiry with
    | None => push errors errLicenseExpiryRequired
    | Some expiryDate =>
      let errors := if expiryDate <=? now then push errors errLicenseExpired
                    else errors in
      let thirtyDaysFromNow := now + 30 * msPerDay in
      if expiryDate <=? thirtyDaysFromNow then push errors errLicenseTooSoon
      else errors
    end in
  {| v_isValid := bool_decide (length errors = 0%nat); v_errors := errors |}.

Definition validateLocation (location : Location) (type : string) : Validation :=
  let errors := [] in
  let errors := if missing (address location)
                then push errors (type +:+ " address is required") else errors in
  let errors := if missing (city location)
                then push errors (type +:+ " city is required") else errors in
  let errors := if missing (country location)
                then push errors (type +:+ " country is required") else errors in
  {| v_isValid := bool_decide (length errors = 0%nat); v_errors := errors |}.

(** ** backend/models/Booking.js: the validators of the schema

    [doc.save()] validates the whole document: a required path has to be
    there.  [findByIdAndUpdate] with [runValidators] validates the paths
    that the update sets: a required path that the update leaves out is not
    looked at.  The flag [whole] tells the two apart.  A validator other
    than [required] passes a path that is absent. *)

Definition currencies : list string := ["USD"; "EUR"; "INR"].

Definition paymentMethods : list string :=
  ["credit-card"; "debit-card"; "paypal"; "cash"; "bank-transfer"].

Definition insuranceTypes : list string := ["basic"; "comprehensive"; "premium"].

Definition fuelLevels : list string :=
  ["empty"; "quarter"; "half"; "three-quarter"; "full"].

(** The pattern [/^([0-1]?[0-9]|2[0-3]):[0-5][0-9]$/] of [startTime] and
    [endTime], on a time of day. *)
Definition validTime (t : TimeOfDay) : bool :=
  (0 <=? hh t) && (hh t <=? 23) && (0 <=? mm t) && (mm t <=? 59).

(** [required] on a string: it is there and not empty. *)
Definition requiredString (whole : bool) (s : option string) : bool :=
  match s with
  | Some s => negb (String.length s =? 0)%nat
  | None => negb whole
  end.

(** [required] on a date. *)
Definition requiredDate (whole : bool) (d : option Z) : bool :=
  match d with
  | Some _ => true
  | None => negb whole
  end.

(** [min: [lo, ...]] and [max: [hi, ...]] on a number that may be absent. *)
Definition atLeast (lo : Q) (x : option Q) : bool :=
  match x with
  | Some x => JS.leb lo x
  | None => true
  end.

Definition atMost (hi : Q) (x : option Q) : bool :=
  match x with
  | Some x => JS.leb x hi
  | None => true
  end.

(** [enum] on a string that may be absent. *)
Definition oneOf (values : list string) (s : option string) : bool :=
  match s with
  | Some s => bool_decide (s ∈ values)
  | None => true
  end.

(** [maxlength] on a string that may be absent. *)
Definition maxLength (n : nat) (s : option string) : bool :=
  match s with
  | Some s => (String.length s <=? n)%nat
  | None => true
  end.

Definition validLocation (whole : bool) (l : Location) : bool :=
  requiredString whole (address l) && requiredString whole (city l)
  && requiredString whole (country l).

Definition validPricing (p : BookingPricing) : bool :=
  JS.leb 0 (bp_basePrice p) && JS.leb 0 (bp_taxes p) && JS.leb 0 (bp_fees p)
  && JS.leb 0 (bp_discount p) && JS.leb 0 (bp_totalPrice p)
  && bool_decide (bp_currency p ∈ currencies).

Definition validDuration (d : Duration) : bool :=
  (1 <=? hours d) && (0 <=? days d).

Definition validPaymentMethod (whole : bool) (m : option string) : bool :=
  requiredString whole m && oneOf paymentMethods m.

Definition validDriverDetails (whole : bool) (d : DriverDetails) : bool :=
  requiredString whole (licenseNumber d) && requiredDate whole (licenseExpiry d).

Definition validInsurance (i : Insurance) : bool :=
  bool_decide (ins_type i ∈ insuranceTypes) && JS.leb 0 (ins_cost i).

Definition validMileage (m : Mileage) : bool :=
  atLeast 0 (mi_start m) && atLeast 0 (mi_end m)
  && JS.leb 0 (mi_limit m) && JS.leb 0 (mi_overageFee m).

Definition validFuel (f : Fuel) : bool :=
  bool_decide (fu_startLevel f ∈ fuelLevels) && oneOf fuelLevels (fu_endLevel f)
  && JS.leb 0 (fu_refuelCost f).

Definition validRating (r : BookingRating) : bool :=
  atLeast 1 (carRating r) && atMost 5 (carRating r)
  && atLeast 1 (serviceRating r) && atMost 5 (serviceRating r)
  && maxLength 1000 (comment r).

Definition validCancellation (c : Cancellation) : bool :=
  JS.leb 0 (cn_refundAmount c).

(** The validators of all the paths of a document.  The statuses are
    values of their enumerations. *)
Definition validBooking (b : Booking) : bool :=
  validTime (b_startTime b) && validTime (b_endTime b)
  && validLocation true (b_pickupLocation b)
  && validLocation true (b_dropoffLocation b)
  && validPricing (b_pricing b) && validDuration (b_duration b)
  && validPaymentMethod true (b_paymentMethod b)
  && maxLength 500 (b_specialRequests b)
  && validDriverDetails true (b_driverDetails b)
  && validInsurance (b_insurance b)
  && validMileage (b_mileage b) && validFuel (b_fuel b)
  && validRating (b_rating b) && validCancellation (b_cancellation b).

(** ** backend/models/Booking.js: hook and methods *)

(** The calendar day of a stored date, [date.toDateString()]. *)
Definition dateOf (date : Z) : Z := date / msPerDay.

(** [new Date(`${this.startDate.toDateString()} ${this.startTime}`)] *)
Definition startDateTime (b : Booking) : Z :=
  parseDateTime (dateOf (b_startDate b)) (b_startTime b).

Definition endDateTime (b : Booking) : Z :=
  parseDateTime (dateOf (b_endDate b)) (b_endTime b).

Definition withDuration (b : Booking) (d : Duration) : Booking :=
  {| b_user := b_user b; b_car := b_car b;
     b_startDate := b_startDate b; b_endDate := b_endDate b;
     b_startTime := b_startTime b; b_endTime := b_endTime b;
     b_pickupLocation := b_pickupLocation b;
     b_dropoffLocation := b_dropoffLocation b;
     b_pricing := b_pricing b; b_duration := d;
     b_status := b_status b; b_paymentStatus := b_paymentStatus b;
     b_paymentMethod := b_paymentMethod b;
     b_specialRequests := b_specialRequests b;
     b_driverDetails := b_driverDetails b; b_insurance := b_insurance b;
     b_mileage := b_mileage b; b_fuel := b_fuel b;
     b_postRental := b_postRental b;
     b_rating := b_rating b; b_cancellation := b_cancellation b |}.

(** The paths that the handlers assign before a save. *)
Definition amend (b : Booking) (status : BookingStatus) (mileage : Mileage)
    (fuel : Fuel) (postRental : PostRental) (rating : BookingRating)
    (cancellation : Cancellation) : Booking :=
  {| b_user := b_user b; b_car := b_car b;
     b_startDate := b_startDate b; b_endDate := b_endDate b;
     b_startTime := b_startTime b; b_endTime := b_endTime b;
     b_pickupLocation := b_pickupLocation b;
     b_dropoffLocation := b_dropoffLocation b;
     b_pricing := b_pricing b; b_duration := b_duration b;
     b_status := status; b_paymentStatus := b_paymentStatus b;
     b_paymentMethod := b_paymentMethod b;
     b_specialRequests := b_specialRequests b;
     b_driverDetails := b_driverDetails b; b_insurance := b_insurance b;
     b_mileage := mileage; b_fuel := fuel; b_postRental := postRental;
     b_rating := rating; b_cancellation := cancellation |}.

(** The [pre('save')] hook: [None] when it passes an error to [next]. *)
Definition preSave (b : Booking) : option Booking :=
  let start := startDateTime b in
  let end_ := endDateTime b in
  if end_ <=? start then None
  else
    let durationMs := inject_Z (end_ - start) in
    Some (withDuration b
            {| hours := JS.ceil (durationMs / inject_Z msPerHour);
               days := JS.ceil (durationMs / inject_Z msPerDay) |}).

Definition hoursUntilStart (b : Booking) (now : Z) : Q :=
  (inject_Z (startDateTime b - now) / inject_Z msPerHour)%Q.

Definition canBeCancelled (b : Booking) (now : Z) : bool :=
  let hoursUntilStart := hoursUntilStart b now in
  bool_decide (b_status b = pending)
  || bool_decide (b_status b = confirmed) && JS.ltb 24 hoursUntilStart.

Definition calculateRefund (b : Booking) (now : Z) : Q :=
  if negb (canBeCancelled b now) then 0%Q
  else
    let hoursUntilStart := hoursUntilStart b now in
    if JS.leb 48 hoursUntilStart then bp_totalPrice (b_pricing b)
    else if JS.leb 24 hoursUntilStart
         then (bp_totalPrice (b_pricing b) * (5 # 10))%Q
         else 0%Q.

(** [doc.save()] on a document that a query loaded: the validators of the
    schema on the document as it is handed over, then the hook, then the
    write.  [None] when the save throws. *)
Definition saveBooking (_id : ObjectId) (b : Booking) (db : Store)
    : option (Booking * Store) :=
  if validBooking b then
    match preSave b with
    | Some b' => Some (b', mkStore (cars db) (<[_id := b']> (bookings db)))
    | None => None
    end
  else None.

(** ** backend/models/Car.js: updateRating *)

Definition withRating (car : Car) (r : CarRating) : Car :=
  mkCar (c_pricing car) (c_availability car) (c_owner car)
    (c_status car) r (totalBookings car).

(** The validators of [rating.average] and [rating.count]. *)
Definition validCarRating (r : CarRating) : bool :=
  JS.leb 0 (average r) && JS.leb (average r) 5 && (0 <=? count r).

(** [this.save()] at the end of [updateRating] validates the car; [None]
    when it throws.  The rating is all that has changed since the car was
    loaded, and its validators decide here: the other paths of the car are
    taken to pass theirs, as they did when the car was stored.  A quotient
    by a zero count is no finite number and does not pass. *)
Definition updateRating (_id : ObjectId) (car : Car) (newRating : Q) (db : Store)
    : option (Car * Store) :=
  let currentTotal := (average (c_rating car) * inject_Z (count (c_rating car)))%Q in
  let count := count (c_rating car) + 1 in
  let average := ((currentTotal + newRating) / inject_Z count)%Q in
  let car := withRating car {| average := average; count := count |} in
  if negb (count =? 0) && validCarRating (c_rating car)
  then Some (car, mkStore (<[_id := car]> (cars db)) (bookings db))
  else None.

(** ** backend/controllers/bookingController.js *)

Inductive Role := role_user | role_admin.

#[global] Instance Role_eq_dec : EqDecision Role.
Proof. solve_decision. Defined.

(** [req.user] *)
Record User := mkUser { u_id : ObjectId; role : Role }.

(** [res.status(s).json(body)]: the status and the keys of the body; a key
    that the handler leaves out is [None]. *)
Record Response := mkResponse {
  res_status : Z;
  res_success : bool;
  res_message : string;
  res_errors : option (list string);
  res_conflictingBookings : option (list Conflict);
  res_refundAmount : option Q;
  res_booking : option Booking
}.

Definition json (status : Z) (success : bool) (message : string) : Response :=
  mkResponse status success message None None None None.

Definition jsonErrors (message : string) (errors : list string) : Response :=
  mkResponse 400 false message (Some errors) None None None.

Definition jsonBooking (message : string) (b : Booking) : Response :=
  mkResponse 200 true message None None None (Some b).

(** The answer of every [catch] branch. *)
Definition serverError : Response := json 500 false "Server error".

Definition msgMissingFields : string := "Missing required fields".
Definition msgInvalidDates : string := "Invalid booking dates".
Definition msgInvalidLicense : string := "Invalid driver license".
Definition msgInvalidPickup : string := "Invalid pickup location".
Definition msgInvalidDropoff : string := "Invalid dropoff location".
Definition msgNotFound : string := "Booking not found".
Definition msgCannotUpdate : string := "Cannot update booking in current status".
Definition msgCannotCancel : string := "Booking cannot be cancelled at this time".
Definition msgRatingsRequired : string :=
  "Car rating and service rating are required".
Definition msgOnlyCompleted : string := "Only completed bookings can be rated".
Definition msgAlreadyRated : string := "Booking has already been rated".

(** *** createBooking *)

(** [req.body] of a create request.  A required field is [None] when the
    request leaves it out or sends a falsy value; the payment method, when
    it is there, is not the empty string. *)
Record CreateBody := mkCreateBody {
  cb_carId : option ObjectId;
  cb_startDate : option Z;
  cb_endDate : option Z;
  cb_startTime : option TimeOfDay;
  cb_endTime : option TimeOfDay;
  cb_pickupLocation : option Location;
  cb_dropoffLocation : option Location;
  cb_paymentMethod : option string;
  cb_specialRequests : option string;
  cb_driverDetails : option DriverDetails;
  cb_insuranceType : option string
}.

(** The [pricing] and [insurance] objects that a handler builds from a
    price: two of the amounts of the one and the cost of the other may be
    [NaN]. *)
Record PricingData := mkPricingData {
  pd_basePrice : Q;
  pd_taxes : JS.number;
  pd_fees : Q;
  pd_discount : option Q;
  pd_totalPrice : JS.number;
  pd_currency : string
}.

Record InsuranceData := mkInsuranceData {
  id_type : string;
  id_cost : JS.number
}.

(** The [bookingData] object handed to [Booking.create]. *)
Record BookingData := mkBookingData {
  bd_user : ObjectId;
  bd_car : ObjectId;
  bd_startDate : Z;
  bd_endDate : Z;
  bd_startTime : TimeOfDay;
  bd_endTime : TimeOfDay;
  bd_pickupLocation : Location;
  bd_dropoffLocation : Location;
  bd_pricing : PricingData;
  bd_duration : Duration;
  bd_paymentMethod : string;
  bd_specialRequests : option string;
  bd_driverDetails : option DriverDetails;
  bd_insurance : InsuranceData
}.

(** The handler either answers, or reaches [Booking.create(bookingData)];
    the schema validation, the insertion and the 201 answer that follow are
    the store's and are not modelled. *)
Inductive CreateOutcome :=
  | Answers (r : Response)
  | Creates (data : BookingData).

(** [{ basePrice: pricing.basePrice, taxes: pricing.taxes, fees:
    pricing.fees, totalPrice: pricing.totalPrice, currency:
    pricing.currency }] *)
Definition pricingOf (p : Price) : PricingData :=
  {| pd_basePrice := basePrice p; pd_taxes := taxes p; pd_fees := fees p;
     pd_discount := None;
     pd_totalPrice := totalPrice p; pd_currency := price_currency p |}.

Definition createBooking (db : Store) (user : User) (body : CreateBody) (now : Z)
    : CreateOutcome :=
  let insuranceType := default "basic" (cb_insuranceType body) in
  match cb_carId body, cb_startDate body, cb_endDate body,
        cb_startTime body, cb_endTime body, cb_paymentMethod body with
  | Some carId, Some startDate, Some endDate,
    Some startTime, Some endTime, Some paymentMethod =>
    let dateValidation :=
      validateBookingDates startDate endDate startTime endTime now in
    if negb (dv_isValid dateValidation) then
      Answers (jsonErrors msgInvalidDates (dv_errors dateValidation))
    else
    let licenseValidation :=
      validateDriverLicense (cb_driverDetails body ≫= licenseNumber)
                            (cb_driverDetails body ≫= licenseExpiry) now in
    if negb (v_isValid licenseValidation) then
      Answers (jsonErrors msgInvalidLicense (v_errors licenseValidation))
    else
    match cb_pickupLocation body with
    | None => Answers serverError  (* [location.address] of undefined throws *)
    | Some pickupLocation =>
    let pickupValidation := validateLocation pickupLocation "Pickup" in
    if negb (v_isValid pickupValidation) then
      Answers (jsonErrors msgInvalidPickup (v_errors pickupValidation))
    else
    match cb_dropoffLocation body with
    | None => Answers serverError
    | Some dropoffLocation =>
    let dropoffValidation := validateLocation dropoffLocation "Dropoff" in
    if negb (v_isValid dropoffValidation) then
      Answers (jsonErrors msgInvalidDropoff (v_errors dropoffValidation))
    else
    let availabilityCheck := checkCarAvailability db carId startDate endDate None in
    match isAvailable availabilityCheck, av_car availabilityCheck with
    | true, Some car =>
      let pricing :=
        calculateBookingPrice (c_pricing car) (dv_duration dateValidation)
                              insuranceType in
      Creates {| bd_user := u_id user; bd_car := carId;
                 bd_startDate := startDate; bd_endDate := endDate;
                 bd_startTime := startTime; bd_endTime := endTime;
                 bd_pickupLocation := pickupLocation;
                 bd_dropoffLocation := dropoffLocation;
                 bd_pricing := pricingOf pricing;
                 bd_duration := dv_duration dateValidation;
                 bd_paymentMethod := paymentMethod;
                 bd_specialRequests := cb_specialRequests body;
                 bd_driverDetails := cb_driverDetails body;
                 bd_insurance := {| id_type := insuranceType;
                                    id_cost := insuranceCost pricing |} |}
    | true, None => Answers serverError  (* [car.pricing] of undefined throws *)
    | false, _ =>
      Answers (mkResponse 400 false (default "" (reason availabilityCheck)) None
                 (av_conflictingBookings availabilityCheck) None None)
    end
    end
    end
  | _, _, _, _, _, _ => Answers (json 400 false msgMissingFields)
  end.

(** *** updateBooking *)

(** [req.body] of an update request, read as the update it is handed on
    as: one field for each path of the schema, [None] when the body does not
    set it.  A nested object replaces the one of the document.  A status is
    the string that the body holds; keys that the schema does not know are
    dropped. *)
Record UpdateBody := mkBody {
  ub_user : option ObjectId;
  ub_car : option ObjectId;
  ub_startDate : option Z;
  ub_endDate : option Z;
  ub_startTime : option TimeOfDay;
  ub_endTime : option TimeOfDay;
  ub_pickupLocation : option Location;
  ub_dropoffLocation : option Location;
  ub_pricing : option PricingData;
  ub_duration : option Duration;
  ub_status : option string;
  ub_paymentStatus : option string;
  ub_paymentMethod : option string;
  ub_specialRequests : option string;
  ub_driverDetails : option DriverDetails;
  ub_insurance : option InsuranceData;
  ub_mileage : option Mileage;
  ub_fuel : option Fuel;
  ub_postRental : option PostRental;
  ub_rating : option BookingRating;
  ub_cancellation : option Cancellation
}.

(** A body that sets nothing but, where given, the two dates, the two
    times and [specialRequests]. *)
Definition mkUpdateBody
    (startDate endDate : option Z) (startTime endTime : option TimeOfDay)
    (specialRequests : option string) : UpdateBody :=
  {| ub_user := None; ub_car := None;
     ub_startDate := startDate; ub_endDate := endDate;
     ub_startTime := startTime; ub_endTime := endTime;
     ub_pickupLocation := None; ub_dropoffLocation := None;
     ub_pricing := None; ub_duration := None;
     ub_status := None; ub_paymentStatus := None; ub_paymentMethod := None;
     ub_specialRequests := specialRequests;
     ub_driverDetails := None; ub_insurance := None;
     ub_mileage := None; ub_fuel := None; ub_postRental := None;
     ub_rating := None; ub_cancellation := None |}.

(** [req.body.pricing = ...; req.body.duration = ...; req.body.insurance =
    ...] *)
Definition withRepricing (body : UpdateBody) (pricing : PricingData)
    (duration : Duration) (insurance : InsuranceData) : UpdateBody :=
  {| ub_user := ub_user body; ub_car := ub_car body;
     ub_startDate := ub_startDate body; ub_endDate := ub_endDate body;
     ub_startTime := ub_startTime body; ub_endTime := ub_endTime body;
     ub_pickupLocation := ub_pickupLocation body;
     ub_dropoffLocation := ub_dropoffLocation body;
     ub_pricing := Some pricing; ub_duration := Some duration;
     ub_status := ub_status body; ub_paymentStatus := ub_paymentStatus body;
     ub_paymentMethod := ub_paymentMethod body;
     ub_specialRequests := ub_specialRequests body;
     ub_driverDetails := ub_driverDetails body;
     ub_insurance := Some insurance;
     ub_mileage := ub_mileage body; ub_fuel := ub_fuel body;
     ub_postRental := ub_postRental body;
     ub_rating := ub_rating body; ub_cancellation := ub_cancellation body |}.

Definition owns (user : User) (b : Booking) : bool :=
  bool_decide (b_user b = u_id user).

(** The caller owns the booking or is an administrator. *)
Definition authorised (user : User) (b : Booking) : Prop :=
  owns user b = true \/ role user = role_admin.

(** The names of the statuses in the schema. *)
Definition statusName (s : BookingStatus) : string :=
  match s with
  | pending => "pending"
  | confirmed => "confirmed"
  | active => "active"
  | completed => "completed"
  | cancelled => "cancelled"
  | no_show => "no-show"
  end.

Definition paymentStatusName (s : PaymentStatus) : string :=
  match s with
  | unpaid => "unpaid"
  | paid => "paid"
  | refunded => "refunded"
  | partially_refunded => "partially-refunded"
  end.

(** The value of an enumeration that a string names, if any. *)
Definition named {A} (name : A -> string) (values : list A) (s : string)
    : option A :=
  List.find (fun v => bool_decide (name v = s)) values.

(** The cast of a number to the [Number] of a path: [None] when it
    throws, as it does on [NaN]. *)
Definition castNumber (x : JS.number) : option Q :=
  match x with
  | JS.num q => Some q
  | JS.NaN => None
  end.

(** [discount], when the object leaves it out, is filled in with the
    default of the schema once the document is loaded. *)
Definition castPricing (p : PricingData) : option BookingPricing :=
  match castNumber (pd_taxes p), castNumber (pd_totalPrice p) with
  | Some taxes, Some totalPrice =>
    Some {| bp_basePrice := pd_basePrice p; bp_taxes := taxes;
            bp_fees := pd_fees p; bp_discount := default 0%Q (pd_discount p);
            bp_totalPrice := totalPrice; bp_currency := pd_currency p |}
  | _, _ => None
  end.

Definition castInsurance (i : InsuranceData) : option Insurance :=
  match castNumber (id_cost i) with
  | Some cost => Some {| ins_type := id_type i; ins_cost := cost |}
  | None => None
  end.

(** A path that the update may set: the value of the document when it does
    not, the cast or checked value when it does, [None] when the cast
    throws or the validator of an enumeration refuses. *)
Definition setPath {A B} (cast : A -> option B) (old : B) (new : option A)
    : option B :=
  match new with
  | Some x => cast x
  | None => Some old
  end.

(** The validators of a path that the update may set. *)
Definition provided {A} (valid : A -> bool) (x : option A) : bool :=
  match x with
  | Some x => valid x
  | None => true
  end.

(** The validators that [runValidators] runs: those of the paths that the
    update sets. *)
Definition validUpdate (update : UpdateBody) : bool :=
  provided validTime (ub_startTime update)
  && provided validTime (ub_endTime update)
  && provided (validLocation false) (ub_pickupLocation update)
  && provided (validLocation false) (ub_dropoffLocation update)
  && provided validPricing (ub_pricing update ≫= castPricing)
  && provided validDuration (ub_duration update)
  && validPaymentMethod false (ub_paymentMethod update)
  && maxLength 500 (ub_specialRequests update)
  && provided (validDriverDetails false) (ub_driverDetails update)
  && provided validInsurance (ub_insurance update ≫= castInsurance)
  && provided validMileage (ub_mileage update)
  && provided validFuel (ub_fuel update)
  && provided validRating (ub_rating update)
  && provided validCancellation (ub_cancellation update).

(** [Booking.findByIdAndUpdate(id, update, { new: true, runValidators:
    true })] on the document [b] that has this [id]: the update is cast to
    the types of the schema, the validators of the paths it sets run, and
    these paths are written; the [pre('save')] hook does not run.  [None]
    when the update throws.  A date of the update is stored as the [Date]
    it parses to. *)
Definition findByIdAndUpdate
    (db : Store) (id : ObjectId) (b : Booking) (update : UpdateBody)
    : option (Booking * Store) :=
  match setPath castPricing (b_pricing b) (ub_pricing update),
        setPath castInsurance (b_insurance b) (ub_insurance update),
        setPath (named statusName
                   [pending; confirmed; active; completed; cancelled; no_show])
                (b_status b) (ub_status update),
        setPath (named paymentStatusName
                   [unpaid; paid; refunded; partially_refunded])
                (b_paymentStatus b) (ub_paymentStatus update) with
  | Some pricing, Some insurance, Some status, Some paymentStatus =>
    if validUpdate update then
      let b' :=
        {| b_user := default (b_user b) (ub_user update);
           b_car := default (b_car b) (ub_car update);
           b_startDate := default (b_startDate b) (parseDate <$> ub_startDate update);
           b_endDate := default (b_endDate b) (parseDate <$> ub_endDate update);
           b_startTime := default (b_startTime b) (ub_startTime update);
           b_endTime := default (b_endTime b) (ub_endTime update);
           b_pickupLocation :=
             default (b_pickupLocation b) (ub_pickupLocation update);
           b_dropoffLocation :=
             default (b_dropoffLocation b) (ub_dropoffLocation update);
           b_pricing := pricing;
           b_duration := default (b_duration b) (ub_duration update);
           b_status := status;
           b_paymentStatus := paymentStatus;
           b_paymentMethod :=
             match ub_paymentMethod update with
             | Some m => Some m
             | None => b_paymentMethod b
             end;
           b_specialRequests :=
             match ub_specialRequests update with
             | Some s => Some s
             | None => b_specialRequests b
             end;
           b_driverDetails := default (b_driverDetails b) (ub_driverDetails update);
           b_insurance := insurance;
           b_mileage := default (b_mileage b) (ub_mileage update);
           b_fuel := default (b_fuel b) (ub_fuel update);
           b_postRental := default (b_postRental b) (ub_postRental update);
           b_rating := default (b_rating b) (ub_rating update);
           b_cancellation := default (b_cancellation b) (ub_cancellation update) |} in
      Some (b', mkStore (cars db) (<[id := b']> (bookings db)))
    else None
  | _, _, _, _ => None
  end.

(** When the body holds both dates, the new interval is validated,
    checked and priced.  When it holds a time or one date only,
    [booking.startDate] or [booking.endDate] falls back into the interval:
    a [Date], which glued to a time of day is no date string.  The instant
    made of it is an Invalid Date, every comparison with it is false and the
    duration is [NaN]; the availability check, which is handed the [Date]
    itself, still runs.  The price of a [NaN] duration is [NaN], which the
    update refuses to cast, and a car that is gone throws before that. *)
Definition updateBooking
    (db : Store) (id : ObjectId) (user : User) (body : UpdateBody) (now : Z)
    : Response * Store :=
  match bookings db !! id with
  | None => (json 404 false msgNotFound, db)
  | Some booking =>
    if negb (owns user booking) && negb (bool_decide (role user = role_admin)) then
      (json 403 false "Not authorized to update this booking", db)
    else if bool_decide (b_status booking ∈ [active; completed; cancelled]) then
      (json 400 false msgCannotUpdate, db)
    else
      let finish (body : UpdateBody) :=
        match findByIdAndUpdate db id booking body with
        | Some (booking, db') =>
          (jsonBooking "Booking updated successfully" booking, db')
        | None => (serverError, db)
        end in
      if bool_decide (is_Some (ub_startDate body)) || bool_decide (is_Some (ub_endDate body))
         || bool_decide (is_Some (ub_startTime body))
         || bool_decide (is_Some (ub_endTime body)) then
        let newStartTime := default (b_startTime booking) (ub_startTime body) in
        let newEndTime := default (b_endTime booking) (ub_endTime body) in
        match ub_startDate body, ub_endDate body with
        | Some newStartDate, Some newEndDate =>
          let dateValidation :=
            validateBookingDates newStartDate newEndDate newStartTime newEndTime now in
          if negb (dv_isValid dateValidation) then
            (jsonErrors msgInvalidDates (dv_errors dateValidation), db)
          else
            let availabilityCheck :=
              checkCarAvailability db (b_car booking) newStartDate newEndDate
                                   (Some id) in
            if negb (isAvailable availabilityCheck) then
              (json 400 false (default "" (reason availabilityCheck)), db)
            else
              match cars db !! b_car booking with
              | None => (serverError, db)
              | Some car =>
                let pricing :=
                  calculateBookingPrice (c_pricing car) (dv_duration dateValidation)
                                        (ins_type (b_insurance booking)) in
                finish (withRepricing body (pricingOf pricing)
                          (dv_duration dateValidation)
                          {| id_type := ins_type (b_insurance booking);
                             id_cost := insuranceCost pricing |})
              end
        | startDate, endDate =>
          let errors := [] in
          let errors :=
            match startDate with
            | Some newStartDate =>
              if parseDateTime newStartDate newStartTime <=? now
              then push errors errStartInFuture else errors
            | None => errors
            end in
          if negb (bool_decide (length errors = 0%nat)) then
            (jsonErrors msgInvalidDates errors, db)
          else
            let start := default (b_startDate booking) (parseDate <$> startDate) in
            let end_ := default (b_endDate booking) (parseDate <$> endDate) in
            let availabilityCheck :=
              checkCarAvailabilityAt db (b_car booking) start end_ (Some id) in
            if negb (isAvailable availabilityCheck) then
              (json 400 false (default "" (reason availabilityCheck)), db)
            else (serverError, db)
        end
      else finish body
  end.

(** *** cancelBooking *)

(** [booking.status = 'cancelled'; booking.cancellation = c] *)
Definition cancel (b : Booking) (c : Cancellation) : Booking :=
  amend b cancelled (b_mileage b) (b_fuel b) (b_postRental b) (b_rating b) c.

(** [reason || 'Cancelled by user'] *)
Definition reasonOrDefault (reason : option string) : string :=
  match reason with
  | Some r => if (String.length r =? 0)%nat then "Cancelled by user" else r
  | None => "Cancelled by user"
  end.

Definition cancelBooking
    (db : Store) (id : ObjectId) (user : User) (reason : option string) (now : Z)
    : Response * Store :=
  match bookings db !! id with
  | None => (json 404 false msgNotFound, db)
  | Some booking =>
    if negb (owns user booking) && negb (bool_decide (role user = role_admin)) then
      (json 403 false "Not authorized to cancel this booking", db)
    else if negb (canBeCancelled booking now) then
      (json 400 false msgCannotCancel, db)
    else
      let refundAmount := calculateRefund booking now in
      let booking :=
        cancel booking {| cn_reason := Some (reasonOrDefault reason);
                          cancelledAt := Some now;
                          cancelledBy := Some (u_id user);
                          cn_refundAmount := refundAmount |} in
      match saveBooking id booking db with
      | Some (booking, db') =>
        (mkResponse 200 true "Booking cancelled successfully" None None
                    (Some refundAmount) (Some booking), db')
      | None => (serverError, db)
      end
  end.

(** *** rateBooking *)

Record RateBody := mkRateBody {
  rb_carRating : option Q;
  rb_serviceRating : option Q;
  rb_comment : option string
}.

(** [!x] for a number that may be absent. *)
Definition falsy (x : option Q) : bool :=
  match x with
  | Some x => negb (JS.truthy x)
  | None => true
  end.

(** [booking.rating = r] *)
Definition rate (b : Booking) (r : BookingRating) : Booking :=
  amend b (b_status b) (b_mileage b) (b_fuel b) (b_postRental b) r
        (b_cancellation b).

(** The outer [match] names the number in [carRating]; its absence is the
    first case of the check [!carRating || !serviceRating]. *)
Definition rateBooking
    (db : Store) (id : ObjectId) (user : User) (body : RateBody) (now : Z)
    : Response * Store :=
  match rb_carRating body with
  | Some newRating =>
    if falsy (rb_carRating body) || falsy (rb_serviceRating body) then
      (json 400 false msgRatingsRequired, db)
    else
      match bookings db !! id with
      | None => (json 404 false msgNotFound, db)
      | Some booking =>
        if negb (owns user booking) then
          (json 403 false "Not authorized to rate this booking", db)
        else if negb (bool_decide (b_status booking = completed)) then
          (json 400 false msgOnlyCompleted, db)
        else if negb (falsy (carRating (b_rating booking))) then
          (json 400 false msgAlreadyRated, db)
        else
          let booking :=
            rate booking {| carRating := rb_carRating body;
                            serviceRating := rb_serviceRating body;
                            comment := rb_comment body;
                            ratedAt := Some now |} in
          match saveBooking id booking db with
          | None => (serverError, db)
          | Some (booking, db') =>
            (* [booking.car] is the car document, populated by the query *)
            match cars db !! b_car booking with
            | Some car =>
              match updateRating (b_car booking) car newRating db' with
              | Some (_, db'') =>
                (jsonBooking "Booking rated successfully" booking, db'')
              | None => (serverError, db')
              end
            | None => (serverError, db')
            end
          end
      end
  | None => (json 400 false msgRatingsRequired, db)
  end.

(** ** backend/models/Booking.js: the durationHours virtual *)

Definition durationHours (b : Booking) : Z :=
  let start := startDateTime b in
  let end_ := endDateTime b in
  JS.ceil (inject_Z (end_ - start) / inject_Z msPerHour).

(** ** backend/models/Car.js: isAvailableForDates *)

Definition isAvailableForDates (car : Car) (startDate endDate : Z) : bool :=
  if negb (ca_isAvailable (c_availability car)) then false
  else
    let start := parseDate startDate in
    let end_ := parseDate endDate in
    let hasConflict :=
      existsb (periodConflict start end_) (unavailableDates (c_availability car)) in
    negb hasConflict.

(** ** backend/controllers/bookingController.js: the other handlers *)

(** *** confirmBooking *)

Definition ownsCar (user : User) (car : Car) : bool :=
  bool_decide (c_owner car = u_id user).

(** [booking.status = s] *)
Definition withStatus (b : Booking) (s : BookingStatus) : Booking :=
  amend b s (b_mileage b) (b_fuel b) (b_postRental b) (b_rating b)
        (b_cancellation b).

(** [booking.car] is the car document that [populate('car')] found, or
    [null], of which [owner] throws. *)
Definition confirmBooking (db : Store) (id : ObjectId) (user : User)
    : Response * Store :=
  match bookings db !! id with
  | None => (json 404 false msgNotFound, db)
  | Some booking =>
    match cars db !! b_car booking with
    | None => (serverError, db)
    | Some car =>
      if negb (ownsCar user car) && negb (bool_decide (role user = role_admin)) then
        (json 403 false "Not authorized to confirm this booking", db)
      else if negb (bool_decide (b_status booking = pending)) then
        (json 400 false "Only pending bookings can be confirmed", db)
      else
        let booking := withStatus booking confirmed in
        match saveBooking id booking db with
        | Some (booking, db') =>
          (jsonBooking "Booking confirmed successfully" booking, db')
        | None => (serverError, db)
        end
    end
  end.

(** *** completeBooking *)

(** [req.body] of a complete request. *)
Record CompleteBody := mkCompleteBody {
  cpl_mileage : option Q;
  cpl_fuelLevel : option string;
  cpl_inspection : option string;
  cpl_damages : option (list Damage)
}.

(** [booking.status = 'completed'; booking.mileage.end = mileage;
    booking.fuel.endLevel = fuelLevel; booking.inspection.postRental =
    inspection] *)
Definition complete (b : Booking) (mileage : option Q)
    (fuelLevel : option string) (inspection : PostRental) : Booking :=
  amend b completed
    {| mi_start := mi_start (b_mileage b); mi_end := mileage;
       mi_limit := mi_limit (b_mileage b);
       mi_overageFee := mi_overageFee (b_mileage b) |}
    {| fu_startLevel := fu_startLevel (b_fuel b); fu_endLevel := fuelLevel;
       fu_refuelCost := fu_refuelCost (b_fuel b) |}
    inspection (b_rating b) (b_cancellation b).

(** [Car.findByIdAndUpdate(id, { $inc: { totalBookings: 1 } })] *)
Definition incTotalBookings (_id : ObjectId) (db : Store) : Store :=
  mkStore
    (alter (fun car => mkCar (c_pricing car) (c_availability car) (c_owner car)
                         (c_status car) (c_rating car) (totalBookings car + 1))
           _id (cars db))
    (bookings db).

Definition completeBooking
    (db : Store) (id : ObjectId) (user : User) (body : CompleteBody) (now : Z)
    : Response * Store :=
  match bookings db !! id with
  | None => (json 404 false msgNotFound, db)
  | Some booking =>
    match cars db !! b_car booking with
    | None => (serverError, db)
    | Some car =>
      if negb (ownsCar user car) && negb (bool_decide (role user = role_admin)) then
        (json 403 false "Not authorized to complete this booking", db)
      else if negb (bool_decide (b_status booking = active)) then
        (json 400 false "Only active bookings can be completed", db)
      else
        let booking :=
          complete booking (cpl_mileage body) (cpl_fuelLevel body)
            {| pr_completed := true;
               pr_notes := cpl_inspection body;
               pr_inspector := Some (u_id user);
               pr_date := Some now;
               pr_damages := default [] (cpl_damages body) |} in
        match saveBooking id booking db with
        | Some (booking, db') =>
          (jsonBooking "Booking completed successfully" booking,
           incTotalBookings (b_car booking) db')
        | None => (serverError, db)
        end
    end
  end.

(** *** getBookingEstimate *)

Record EstimateBody := mkEstimateBody {
  eb_carId : option ObjectId;
  eb_startDate : option Z;
  eb_endDate : option Z;
  eb_startTime : option TimeOfDay;
  eb_endTime : option TimeOfDay;
  eb_insuranceType : option string
}.

Record Estimate := mkEstimate {
  est_status : Z;
  est_success : bool;
  est_message : option string;
  est_errors : option (list string);
  est_available : option bool;
  est_availabilityReason : option string;
  est_pricing : option Price;
  est_duration : option Duration
}.

Definition estimateError (status : Z) (message : string) : Estimate :=
  mkEstimate status false (Some message) None None None None None.

Definition getBookingEstimate (db : Store) (body : EstimateBody) (now : Z)
    : Estimate :=
  let insuranceType := default "basic" (eb_insuranceType body) in
  match eb_carId body, eb_startDate body, eb_endDate body,
        eb_startTime body, eb_endTime body with
  | Some carId, Some startDate, Some endDate, Some startTime, Some endTime =>
    let dateValidation :=
      validateBookingDates startDate endDate startTime endTime now in
    if negb (dv_isValid dateValidation) then
      mkEstimate 400 false (Some "Invalid dates") (Some (dv_errors dateValidation))
                 None None None None
    else
      match cars db !! carId with
      | None => estimateError 404 "Car not found"
      | Some car =>
        let availabilityCheck :=
          checkCarAvailability db carId startDate endDate None in
        let pricing :=
          calculateBookingPrice (c_pricing car) (dv_duration dateValidation)
                                insuranceType in
        mkEstimate 200 true None None
                   (Some (isAvailable availabilityCheck))
                   (reason availabilityCheck)
                   (Some pricing) (Some (dv_duration dateValidation))
      end
  | _, _, _, _, _ => estimateError 400 "Missing required fields"
  end.

(** ** backend/controllers/carController.js: getCarAvailability, deleteCar *)

(** A booking as [select('startDate endDate startTime endTime status')]
    returns it. *)
Record Selected := mkSelected {
  sel_id : ObjectId;
  sel_startDate : Z;
  sel_endDate : Z;
  sel_startTime : TimeOfDay;
  sel_endTime : TimeOfDay;
  sel_status : BookingStatus
}.

Definition selectOf (doc : ObjectId * Booking) : Selected :=
  let (_id, b) := doc in
  {| sel_id := _id; sel_startDate := b_startDate b; sel_endDate := b_endDate b;
     sel_startTime := b_startTime b; sel_endTime := b_endTime b;
     sel_status := b_status b |}.

Record AvailabilityAnswer := mkAvailabilityAnswer {
  aa_status : Z;
  aa_success : bool;
  aa_message : option string;
  aa_available : option bool;
  aa_conflictingBookings : option (list Selected)
}.

Definition getCarAvailability
    (db : Store) (id : ObjectId) (startDate endDate : option Z)
    : AvailabilityAnswer :=
  match startDate, endDate with
  | Some startDate, Some endDate =>
    match cars db !! id with
    | None => mkAvailabilityAnswer 404 false (Some "Car not found") None None
    | Some car =>
      let isAvailable := isAvailableForDates car startDate endDate in
      let start := parseDate startDate in
      let end_ := parseDate endDate in
      let conflictingBookings :=
        find (bookings db) (matchesQuery id start end_ None) in
      mkAvailabilityAnswer 200 true None (Some isAvailable)
                           (Some (selectOf <$> conflictingBookings))
    end
  | _, _ =>
    mkAvailabilityAnswer 400 false (Some "Start date and end date are required")
                         None None
  end.

(** The query of [deleteCar]: the bookings of the car that are pending,
    confirmed or active. *)
Definition isActiveBookingOf (carId : ObjectId) (doc : ObjectId * Booking) : bool :=
  bool_decide (b_car doc.2 = carId)
  && bool_decide (b_status doc.2 ∈ [pending; confirmed; active]).

Definition deleteCar (db : Store) (id : ObjectId) (user : User)
    : Response * Store :=
  match cars db !! id with
  | None => (json 404 false "Car not found", db)
  | Some car =>
    if negb (ownsCar user car) && negb (bool_decide (role user = role_admin)) then
      (json 403 false "Not authorized to delete this car", db)
    else
      let activeBookings := find (bookings db) (isActiveBookingOf id) in
      if (0 <? length activeBookings)%nat then
        (json 400 false "Cannot delete car with active bookings", db)
      else
        (json 200 true "Car deleted successfully",
         mkStore (delete id (cars db)) (bookings db))
  end.

(** ** Sequences of operations *)


(** The base price before rounding, as [calculateBookingPrice] computes
    it. *)
Definition exactBasePrice (pricing : CarPricing) (duration : Duration) : Q :=
  if 7 <=? days duration then
    let weeks := JS.ceil (inject_Z (days duration) / 7) in
    match weeklyRate pricing with
    | Some w => (inject_Z weeks * w)%Q
    | None => (inject_Z weeks * 7 * daily pricing)%Q
    end
  else if 1 <=? days duration then
    let basePrice := (inject_Z (days duration) * daily pricing)%Q in
    let extraHours := JS.rem (hours duration) 24 in
    if 0 <? extraHours
    then (basePrice + inject_Z extraHours * hourly pricing)%Q
    else basePrice
  else (inject_Z (hours duration) * hourly pricing)%Q.


(** A request to one of the four handlers that move a booking through its
    life. *)
Inductive Operation :=
  | Confirm (user : User)
  | Complete (user : User) (body : CompleteBody)
  | Cancel (user : User) (reason : option string)
  | Rate (user : User) (body : RateBody).

(** The store after the handler of the operation has run on booking [id]. *)
Definition perform (db : Store) (id : ObjectId) (op : Operation) (now : Z) : Store :=
  match op with
  | Confirm user => (confirmBooking db id user).2
  | Complete user body => (completeBooking db id user body now).2
  | Cancel user reason => (cancelBooking db id user reason now).2
  | Rate user body => (rateBooking db id user body now).2
  end.

(** The moves of a booking's status that the handlers make. *)
Definition statusMoves : list (BookingStatus * BookingStatus) :=
  [(pending, confirmed); (pending, cancelled); (confirmed, cancelled);
   (active, completed)].

(** Every pending, confirmed or active booking refers to a car of the
    store. *)
Definition bookedCarsExist (db : Store) : Prop :=
  forall _id b, bookings db !! _id = Some b ->
                b_status b ∈ [pending; confirmed; active] ->
                is_Some (cars db !! b_car b).

(** Every character of the string is an ASCII character. *)
Fixpoint asciiOnly (s : string) : bool :=
  match s with
  | String c rest => (nat_of_ascii c <? 128)%nat && asciiOnly rest
  | EmptyString => true
  end.

(** Every character of the string is white space. *)
Fixpoint allWhiteSpace (s : string) : bool :=
  match s with
  | String c rest => isWhiteSpace c && allWhiteSpace rest
  | EmptyString => true
  end.

(** ** Sample documents *)

Definition demoPricing : CarPricing :=
  {| hourly := 10; daily := 100; weekly := Some 600%Q; monthly := None;
     currency := "USD" |}.

Definition demoCar : Car :=
  {| c_pricing := demoPricing;
     c_availability := {| ca_isAvailable := true; unavailableDates := [];
                          maintenanceSchedule := [] |};
     c_owner := 9%N; c_status := car_active;
     c_rating := {| average := 0; count := 0 |}; totalBookings := 0 |}.

Definition demoLocation : Location :=
  {| address := Some "1 Main Street"; city := Some "Springfield";
     country := Some "US" |}.

(** A licence that expires on day 30000. *)
Definition demoDriver : DriverDetails :=
  {| licenseNumber := Some "D1234567"; licenseExpiry := Some (parseDate 30000) |}.

(** A booking of car 7 by user 1 from day [d1] to day [d2], 08:00 to 10:00,
    with the given amounts, as the handlers store it: paid by card, nothing
    driven, inspected, rated or cancelled yet. *)
Definition sampleBooking (d1 d2 : Z) (pricing : BookingPricing)
    (duration : Duration) (insuranceCost : Q) (st : BookingStatus) : Booking :=
  {| b_user := 1%N; b_car := 7%N;
     b_startDate := parseDate d1; b_endDate := parseDate d2;
     b_startTime := mkTime 8 0; b_endTime := mkTime 10 0;
     b_pickupLocation := demoLocation; b_dropoffLocation := demoLocation;
     b_pricing := pricing; b_duration := duration;
     b_status := st; b_paymentStatus := unpaid;
     b_paymentMethod := Some "credit-card";
     b_specialRequests := None; b_driverDetails := demoDriver;
     b_insurance := mkInsurance "basic" insuranceCost;
     b_mileage := mkMileage None None 0 0;
     b_fuel := mkFuel "full" None 0;
     b_postRental := mkPostRental false None None None [];
     b_rating := mkBookingRating None None None None;
     b_cancellation := mkCancellation None None None 0 |}.

(** A two-hour booking of car 7 by user 1, on day 20010 from 08:00 to 10:00. *)
Definition demoBooking (st : BookingStatus) : Booking :=
  sampleBooking 20010 20010 (mkBookingPricing 120 (126 # 10) 25 0 (1636 # 10) "USD")
                (mkDuration 2 1) 6 st.

Definition demoStore (st : BookingStatus) : Store :=
  {| cars := {[ 7%N := demoCar ]}; bookings := {[ 3%N := demoBooking st ]} |}.

(** Car 7 with two completed bookings of user 1, neither rated yet. *)
Definition completedStore : Store :=
  {| cars := {[ 7%N := demoCar ]};
     bookings := {[ 3%N := demoBooking completed; 4%N := demoBooking completed ]} |}.

Definition renter : User := {| u_id := 1%N; role := role_user |}.

(** A create request for car 7 on the given days and times, with valid
    locations and the given driver details. *)
Definition demoRequest
    (startDate endDate : Z) (startTime endTime : TimeOfDay)
    (driver : option DriverDetails) : CreateBody :=
  {| cb_carId := Some 7%N;
     cb_startDate := Some startDate; cb_endDate := Some endDate;
     cb_startTime := Some startTime; cb_endTime := Some endTime;
     cb_pickupLocation := Some demoLocation;
     cb_dropoffLocation := Some demoLocation;
     cb_paymentMethod := Some "credit-card";
     cb_specialRequests := None;
     cb_driverDetails := driver;
     cb_insuranceType := None |}.

(** Car 7 with a blackout from day 20010 to day 20015 and maintenance from
    day 20020 to day 20022, and a confirmed booking of it from day 20030 to
    day 20032. *)
Definition busyCar : Car :=
  mkCar demoPricing
    {| ca_isAvailable := true;
       unavailableDates := [mkPeriod (parseDate 20010) (parseDate 20015)];
       maintenanceSchedule := [mkPeriod (parseDate 20020) (parseDate 20022)] |}
    9%N car_active (mkCarRating 0 0) 0.

Definition busyBooking : Booking :=
  sampleBooking 20030 20032 (mkBookingPricing 320 (336 # 10) 25 0 (3946 # 10) "USD")
                (mkDuration 50 3) 16 confirmed.

Definition busyStore : Store :=
  {| cars := {[ 7%N := busyCar ]}; bookings := {[ 5%N := busyBooking ]} |}.

(** A request for a day in the past that carries no driver details: both
    the date validator and the licence validator find violations. *)
Definition pastRequestWithoutDriver : CreateBody :=
  demoRequest 19000 19000 (mkTime 10 0) (mkTime 12 0) None.

(** The instant [n] hours before the sample booking starts. *)
Definition hoursBeforeStart (n : Z) : Z :=
  startDateTime (demoBooking pending) - n * msPerHour.

(** * Properties *)

(** ** Arithmetic of the model *)

Lemma JS_leb_spec a b : JS.leb a b = true <-> (a <= b)%Q.
Proof. apply Qle_bool_iff. Qed.

Lemma JS_ltb_spec a b : JS.ltb a b = true <-> (a < b)%Q.
Proof.
  unfold JS.ltb. rewrite negb_true_iff, <- not_true_iff_false, Qle_bool_iff.
  split; [apply Qnot_le_lt | apply Qlt_not_le].
Qed.

Lemma JS_leb_false a b : JS.leb a b = false <-> (b < a)%Q.
Proof.
  rewrite <- not_true_iff_false, JS_leb_spec.
  split; [apply Qnot_le_lt | apply Qlt_not_le].
Qed.

Lemma hoursOf_eq (d : Z) : (inject_Z d / inject_Z msPerHour == d # 3600000)%Q.
Proof. symmetry. apply Qmake_Qdiv. Qed.

Lemma daysOf_eq (d : Z) :
  (inject_Z d / inject_Z msPerHour / 24 == d # 86400000)%Q.
Proof. rewrite hoursOf_eq. unfold Qeq, Qdiv, Qmult, Qinv; simpl. lia. Qed.

Lemma hours_lt (d n : Z) :
  JS.ltb (inject_Z d / inject_Z msPerHour) (inject_Z n) = true
  <-> d < n * msPerHour.
Proof. rewrite JS_ltb_spec, hoursOf_eq. unfold Qlt, msPerHour; simpl. lia. Qed.

Lemma days_gt (d n : Z) :
  JS.ltb (inject_Z n) (inject_Z d / inject_Z msPerHour / 24) = true
  <-> n * msPerDay < d.
Proof. rewrite JS_ltb_spec, daysOf_eq. unfold Qlt, msPerDay; simpl. lia. Qed.

Lemma ceil_pos (x : Q) : (0 < x)%Q -> 1 <= JS.ceil x.
Proof.
  intros H. unfold JS.ceil.
  destruct (Z_lt_le_dec (Qceiling x) 1) as [Hlt|]; [|lia].
  exfalso. apply (Qlt_irrefl 0). eapply Qlt_le_trans; [exact H|].
  eapply Qle_trans; [apply Qle_ceiling|].
  change 0%Q with (inject_Z 0). rewrite <- Zle_Qle. lia.
Qed.

(** ** The date and time validator *)

(** The error list, check by check, in terms of the two instants. *)
Lemma dates_errors_eq sd ed st et now :
  let start := parseDateTime sd st in
  let end_ := parseDateTime ed et in
  dv_errors (validateBookingDates sd ed st et now) =
    (if start <=? now then [errStartInFuture] else []) ++
    (if end_ <=? start then [errEndAfterStart] else []) ++
    (if end_ - start <? msPerHour then [errMinDuration] else []) ++
    (if 30 * msPerDay <? end_ - start then [errMaxDuration] else []).
Proof.
  intros start end_.
  unfold validateBookingDates. fold start end_. cbn [dv_errors].
  pose proof (hours_lt (end_ - start) 1) as H1.
  pose proof (days_gt (end_ - start) 30) as H2.
  change (inject_Z 1) with 1%Q in H1. change (inject_Z 30) with 30%Q in H2.
  rewrite Z.mul_1_l in H1.
  destruct (JS.ltb _ 1) eqn:E1; destruct (JS.ltb 30 _) eqn:E2;
  destruct (start <=? now); destruct (end_ <=? start);
  destruct (Z.ltb_spec (end_ - start) msPerHour);
  destruct (Z.ltb_spec (30 * msPerDay) (end_ - start));
  try reflexivity; try (exfalso; intuition (congruence || lia)).
Qed.

Lemma dates_isValid_nil sd ed st et now :
  dv_isValid (validateBookingDates sd ed st et now) = true
  <-> dv_errors (validateBookingDates sd ed st et now) = [].
Proof.
  unfold validateBookingDates; cbn [dv_isValid dv_errors].
  rewrite bool_decide_eq_true. apply length_zero_iff_nil.
Qed.

Ltac split_comparisons start end_ now :=
  destruct (Z.leb_spec start now); destruct (Z.leb_spec end_ start);
  destruct (Z.ltb_spec (end_ - start) msPerHour);
  destruct (Z.ltb_spec (30 * msPerDay) (end_ - start)).

(** The validator accepts exactly the future intervals of one hour to
    thirty days. *)
Lemma dates_valid_iff sd ed st et now :
  let start := parseDateTime sd st in
  let end_ := parseDateTime ed et in
  dv_isValid (validateBookingDates sd ed st et now) = true
  <-> now < start /\ msPerHour <= end_ - start <= 30 * msPerDay.
Proof.
  intros start end_.
  rewrite dates_isValid_nil, dates_errors_eq. fold start end_.
  split_comparisons start end_ now; cbn [app]; unfold msPerHour, msPerDay in *;
  split; intros; try discriminate; try reflexivity; lia.
Qed.




(** Three violations at once: a past start, an end before the start and,
    with it, a duration under one hour. *)
Example dates_errors_accumulate :
  dv_errors (validateBookingDates 10 9 (mkTime 10 0) (mkTime 10 0) (parseDate 20000))
  = [errStartInFuture; errEndAfterStart; errMinDuration].
Proof. vm_compute. reflexivity. Qed.

(** ** The pricing calculator behind the validator *)

(** The calculator on its own, given zero days: three hours at $10. *)
Example price_hourly_tier :
  let p := calculateBookingPrice demoPricing (mkDuration 3 0) "basic" in
  (basePrice p == 30)%Q /\ JS.equals (insuranceCost p) (15 # 10) /\
  JS.equals (taxes p) (315 # 100) /\ (fees p == 10)%Q /\
  JS.equals (totalPrice p) (4465 # 100).
Proof. vm_compute. repeat split. Qed.

(** The specification's seven-day example. *)
Example price_weekly_tier :
  let p := calculateBookingPrice demoPricing (mkDuration 168 7) "basic" in
  (basePrice p == 600)%Q /\ JS.equals (insuranceCost p) 30 /\
  JS.equals (taxes p) 63 /\ (fees p == 25)%Q /\ JS.equals (totalPrice p) 718.
Proof. vm_compute. repeat split. Qed.

(** A duration that the validator accepts counts at least one day. *)
Lemma validated_days_pos sd ed st et now :
  let v := validateBookingDates sd ed st et now in
  dv_isValid v = true -> 1 <= days (dv_duration v).
Proof.
  intros v Hv. apply dates_valid_iff in Hv. destruct Hv as [_ [Hlo _]].
  unfold v, validateBookingDates. cbn [dv_duration days].
  apply ceil_pos. rewrite daysOf_eq. unfold Qlt. cbn [Qnum Qden].
  unfold msPerHour in Hlo. lia.
Qed.

(** Hence no validated booking reaches the hourly tier: the flat fee of a
    validated booking is always 25. *)
Lemma validated_fee sd ed st et now pricing insuranceType :
  let v := validateBookingDates sd ed st et now in
  dv_isValid v = true ->
  fees (calculateBookingPrice pricing (dv_duration v) insuranceType) = 25%Q.
Proof.
  intros v Hv. pose proof (validated_days_pos _ _ _ _ _ Hv) as Hd.
  cbn zeta in Hd. fold v in Hd.
  unfold calculateBookingPrice. cbn [fees].
  destruct (Z.leb_spec 1 (days (dv_duration v))); [reflexivity | lia].
Qed.

(** C1. A validated three-hour booking (10:00 to 13:00 of one day) of a car
    with hourly rate 10 and daily rate 100, basic insurance: the validator
    hands over 3 hours and 1 day, and the calculator bills the day and the
    three hours with the flat fee of 25; the total is 175.15.  The hourly
    bill of the specification (base 30, fee 10, total 44.65) is not what
    comes out. *)
Theorem three_hour_booking_billed_daily :
  let v := validateBookingDates 20000 20000 (mkTime 10 0) (mkTime 13 0) 0 in
  let p := calculateBookingPrice demoPricing (dv_duration v) "basic" in
  dv_isValid v = true /\ dv_duration v = mkDuration 3 1 /\
  ((basePrice p == 130)%Q /\ JS.equals (insuranceCost p) (65 # 10) /\
   JS.equals (taxes p) (1365 # 100) /\ (fees p == 25)%Q /\
   JS.equals (totalPrice p) (17515 # 100)) /\
  ~ (basePrice p == 30)%Q /\ ~ (fees p == 10)%Q /\
  ~ JS.equals (totalPrice p) (4465 # 100).
Proof.
  cbv zeta.
  split; [vm_compute; reflexivity|]. split; [vm_compute; reflexivity|].
  split; [vm_compute; repeat split|].
  repeat split; vm_compute; discriminate.
Qed.

(** ** Cancellation *)

Lemma authorised_gate user b :
  authorised user b ->
  negb (owns user b) && negb (bool_decide (role user = role_admin)) = false.
Proof.
  intros [H | H].
  - rewrite H. reflexivity.
  - rewrite (bool_decide_eq_true_2 _ H). apply andb_false_r.
Qed.

Lemma canBeCancelled_iff b now :
  canBeCancelled b now = true
  <-> b_status b = pending
      \/ (b_status b = confirmed /\ (24 < hoursUntilStart b now)%Q).
Proof.
  unfold canBeCancelled.
  rewrite orb_true_iff, andb_true_iff, !bool_decide_eq_true, JS_ltb_spec.
  reflexivity.
Qed.

(** The start and end instants in milliseconds: midnight of the stored day
    plus the time of day. *)
Lemma startDateTime_ms b :
  startDateTime b
  = b_startDate b / 86400000 * 86400000
    + hh (b_startTime b) * 3600000 + mm (b_startTime b) * 60000.
Proof. reflexivity. Qed.

Lemma endDateTime_ms b :
  endDateTime b
  = b_endDate b / 86400000 * 86400000
    + hh (b_endTime b) * 3600000 + mm (b_endTime b) * 60000.
Proof. reflexivity. Qed.

(** Hours until the start against a whole number of hours, in
    milliseconds. *)
Lemma hoursUntilStart_lt b now (n : Z) :
  (inject_Z n < hoursUntilStart b now)%Q <-> n * 3600000 < startDateTime b - now.
Proof.
  unfold hoursUntilStart. rewrite hoursOf_eq. unfold Qlt; cbn. lia.
Qed.

Lemma hoursUntilStart_le b now (n : Z) :
  (inject_Z n <= hoursUntilStart b now)%Q <-> n * 3600000 <= startDateTime b - now.
Proof.
  unfold hoursUntilStart. rewrite hoursOf_eq. unfold Qle; cbn. lia.
Qed.

Lemma canBeCancelled_ms b now :
  canBeCancelled b now = true
  <-> b_status b = pending
      \/ (b_status b = confirmed /\ now + 24 * 3600000 < startDateTime b).
Proof.
  rewrite canBeCancelled_iff, (hoursUntilStart_lt b now 24). intuition lia.
Qed.

Lemma preSave_ok b :
  startDateTime b < endDateTime b ->
  exists d, preSave b = Some (withDuration b d).
Proof.
  intros H. unfold preSave.
  destruct (Z.leb_spec (endDateTime b) (startDateTime b)); [lia|]. eauto.
Qed.

Lemma calculateRefund_cases b now :
  canBeCancelled b now = true ->
  let h := hoursUntilStart b now in
  let total := bp_totalPrice (b_pricing b) in
  let refund := calculateRefund b now in
  ((48 <= h)%Q -> refund = total) /\
  ((24 <= h)%Q -> (h < 48)%Q -> refund = (total * (5 # 10))%Q) /\
  ((h < 24)%Q -> refund = 0%Q).
Proof.
  intros Hc h total refund. unfold refund, calculateRefund. rewrite Hc.
  cbn [negb]. fold h total.
  destruct (JS.leb 48 h) eqn:E48; destruct (JS.leb 24 h) eqn:E24;
  rewrite ?JS_leb_spec, ?JS_leb_false in *;
  repeat split; intros; try reflexivity; exfalso.
  all: try (eapply Qlt_irrefl, Qle_lt_trans; eassumption).
  all: try (eapply Qlt_irrefl, Qlt_le_trans; eassumption).
  - apply (Qlt_irrefl 24). eapply Qlt_trans; [|eassumption].
    eapply Qlt_le_trans; [|eassumption]. reflexivity.
Qed.

(** The refund against the time that is left, in milliseconds. *)
Lemma calculateRefund_ms b now :
  canBeCancelled b now = true ->
  let left := startDateTime b - now in
  let total := bp_totalPrice (b_pricing b) in
  let refund := calculateRefund b now in
  (48 * 3600000 <= left -> refund = total) /\
  (24 * 3600000 <= left -> left < 48 * 3600000 ->
   refund = (total * (5 # 10))%Q) /\
  (left < 24 * 3600000 -> refund = 0%Q).
Proof.
  intros Hc. cbv zeta.
  destruct (calculateRefund_cases b now Hc) as (H48 & H24 & H0).
  pose proof (hoursUntilStart_le b now 48) as L48.
  pose proof (hoursUntilStart_le b now 24) as L24.
  split; [|split].
  - intros H. apply H48, L48. lia.
  - intros Hlo Hhi. apply H24; [apply L24; lia|].
    apply Qnot_le_lt. intros Hn. apply L48 in Hn. lia.
  - intros H. apply H0. apply Qnot_le_lt. intros Hn. apply L24 in Hn. lia.
Qed.

Lemma calculateRefund_nonneg b now :
  (0 <= bp_totalPrice (b_pricing b))%Q -> (0 <= calculateRefund b now)%Q.
Proof.
  intros H. unfold calculateRefund.
  destruct (negb _); [apply Qle_refl|].
  destruct (JS.leb 48 _); [exact H|].
  destruct (JS.leb 24 _); [|apply Qle_refl].
  apply Qmult_le_0_compat; [exact H | discriminate].
Qed.

(** ** Saving a document *)

(** The paths that a handler assigns are validated with all the others. *)
Lemma validBooking_amend b status mileage fuel postRental rating cancellation :
  validBooking b = true ->
  validMileage mileage = true -> validFuel fuel = true ->
  validRating rating = true -> validCancellation cancellation = true ->
  validBooking (amend b status mileage fuel postRental rating cancellation)
  = true.
Proof.
  unfold validBooking, amend.
  cbn [b_startTime b_endTime b_pickupLocation b_dropoffLocation b_pricing
       b_duration b_paymentMethod b_specialRequests b_driverDetails
       b_insurance b_mileage b_fuel b_rating b_cancellation].
  rewrite !andb_true_iff. intros; repeat split; tauto.
Qed.

(** What the validators of a valid document say of the paths that the
    handlers read. *)
Lemma validBooking_parts b :
  validBooking b = true ->
  validMileage (b_mileage b) = true /\ validFuel (b_fuel b) = true
  /\ validRating (b_rating b) = true
  /\ validCancellation (b_cancellation b) = true
  /\ (0 <= bp_totalPrice (b_pricing b))%Q
  /\ 1 <= hours (b_duration b)
  /\ ins_type (b_insurance b) ∈ insuranceTypes.
Proof.
  unfold validBooking, validPricing, validDuration, validInsurance.
  rewrite !andb_true_iff, !JS_leb_spec, !bool_decide_eq_true, Z.leb_le.
  tauto.
Qed.

Lemma saveBooking_ok _id b db :
  validBooking b = true -> startDateTime b < endDateTime b ->
  exists d,
    saveBooking _id b db
    = Some (withDuration b d,
            mkStore (cars db) (<[_id := withDuration b d]> (bookings db))).
Proof.
  intros Hv Hwf. unfold saveBooking. rewrite Hv.
  destruct (preSave_ok b Hwf) as [d ->]. eauto.
Qed.

Lemma saveBooking_inv _id b db b' db' :
  saveBooking _id b db = Some (b', db') ->
  validBooking b = true
  /\ startDateTime b < endDateTime b
  /\ (exists d, b' = withDuration b d)
  /\ db' = mkStore (cars db) (<[_id := b']> (bookings db)).
Proof.
  unfold saveBooking, preSave. intros H.
  destruct (validBooking b); [|discriminate]. split; [reflexivity|].
  destruct (Z.leb_spec (endDateTime b) (startDateTime b)); [discriminate|].
  inversion H; subst. split; [lia|]. split; [eauto | reflexivity].
Qed.

(** The hook leaves a document that passes the validators again: the
    duration it writes counts at least one hour and one day. *)
Lemma preSave_valid b b' :
  preSave b = Some b' -> validBooking b = true ->
  validBooking b' = true
  /\ startDateTime b' = startDateTime b /\ endDateTime b' = endDateTime b.
Proof.
  unfold preSave.
  destruct (Z.leb_spec (endDateTime b) (startDateTime b)) as [|Hlt];
    [discriminate|].
  intros [= <-] Hv. split; [|split; reflexivity].
  revert Hv. unfold validBooking, withDuration.
  cbn [b_startTime b_endTime b_pickupLocation b_dropoffLocation b_pricing
       b_duration b_paymentMethod b_specialRequests b_driverDetails
       b_insurance b_mileage b_fuel b_rating b_cancellation].
  rewrite !andb_true_iff. intros Hv.
  assert (Hd : validDuration
                 {| hours := JS.ceil (inject_Z (endDateTime b - startDateTime b)
                                      / inject_Z msPerHour);
                    days := JS.ceil (inject_Z (endDateTime b - startDateTime b)
                                     / inject_Z msPerDay) |} = true).
  { unfold validDuration. cbn [hours days].
    rewrite andb_true_iff, !Z.leb_le. split.
    - apply ceil_pos. rewrite hoursOf_eq. unfold Qlt; cbn. lia.
    - assert (1 <= JS.ceil (inject_Z (endDateTime b - startDateTime b)
                            / inject_Z msPerDay)); [|lia].
      apply ceil_pos. change (inject_Z msPerDay) with (inject_Z 86400000).
      rewrite <- Qmake_Qdiv. unfold Qlt; cbn. lia. }
  tauto.
Qed.

Lemma saved_valid _id b db b' db' :
  saveBooking _id b db = Some (b', db') ->
  validBooking b' = true
  /\ startDateTime b' = startDateTime b /\ endDateTime b' = endDateTime b.
Proof.
  unfold saveBooking. destruct (validBooking b) eqn:Hv; [|discriminate].
  destruct (preSave b) as [b1|] eqn:Hp; [|discriminate].
  intros [= <- _]. exact (preSave_valid b b1 Hp Hv).
Qed.

(** What a permitted cancellation does to the store and answers. *)
Lemma cancelBooking_success db id user reason now booking :
  bookings db !! id = Some booking ->
  authorised user booking ->
  canBeCancelled booking now = true ->
  validBooking booking = true ->
  startDateTime booking < endDateTime booking ->
  exists b',
    cancelBooking db id user reason now =
      (mkResponse 200 true "Booking cancelled successfully" None None
                  (Some (calculateRefund booking now)) (Some b'),
       mkStore (cars db) (<[id := b']> (bookings db)))
    /\ b_status b' = cancelled
    /\ cn_refundAmount (b_cancellation b') = calculateRefund booking now
    /\ cancelledAt (b_cancellation b') = Some now
    /\ cancelledBy (b_cancellation b') = Some (u_id user)
    /\ b_paymentStatus b' = b_paymentStatus booking
    /\ b_pricing b' = b_pricing booking.
Proof.
  intros Hfind Hauth Hcan Hvalid Hwf.
  destruct (validBooking_parts booking Hvalid)
    as (Hm & Hf & Hr & _ & Htotal & _).
  unfold cancelBooking. rewrite Hfind, (authorised_gate _ _ Hauth), Hcan.
  cbn [negb].
  set (b1 := cancel booking _).
  assert (Hv : validBooking b1 = true).
  { unfold b1, cancel. apply validBooking_amend; try assumption.
    unfold validCancellation. cbn [cn_refundAmount]. apply JS_leb_spec.
    apply calculateRefund_nonneg, Htotal. }
  destruct (saveBooking_ok id b1 db Hv Hwf) as [d ->].
  eexists. split; [reflexivity|]. cbn. repeat split; reflexivity.
Qed.

(** A refused cancellation, and any cancellation that fails, leaves the
    store as it was. *)
Lemma cancelBooking_failure db id user reason now r db' :
  cancelBooking db id user reason now = (r, db') ->
  res_status r <> 200 -> db' = db.
Proof.
  unfold cancelBooking. intros H Hr.
  destruct (bookings db !! id) as [b|]; [|congruence].
  destruct (negb (owns user b) && _); [congruence|].
  destruct (negb (canBeCancelled b now)); [congruence|].
  destruct (saveBooking _ _ _) as [[b' db'']|]; [|congruence].
  inversion H; subst. cbn in Hr. congruence.
Qed.

(** A permitted cancellation either is stored and answered with success
    or fails in the save, which leaves the store as it was. *)
Lemma cancelBooking_outcome db id user reason now booking :
  bookings db !! id = Some booking ->
  authorised user booking ->
  canBeCancelled booking now = true ->
  cancelBooking db id user reason now = (serverError, db)
  \/ exists b',
       cancelBooking db id user reason now =
         (mkResponse 200 true "Booking cancelled successfully" None None
                     (Some (calculateRefund booking now)) (Some b'),
          mkStore (cars db) (<[id := b']> (bookings db)))
       /\ b_status b' = cancelled
       /\ cn_refundAmount (b_cancellation b') = calculateRefund booking now
       /\ cancelledAt (b_cancellation b') = Some now
       /\ cancelledBy (b_cancellation b') = Some (u_id user)
       /\ b_paymentStatus b' = b_paymentStatus booking
       /\ b_pricing b' = b_pricing booking.
Proof.
  intros Hfind Hauth Hcan. unfold cancelBooking.
  rewrite Hfind, (authorised_gate _ _ Hauth), Hcan. cbn [negb].
  destruct (saveBooking _ _ _) as [[b' db']|] eqn:Hsave; [|left; reflexivity].
  right. apply saveBooking_inv in Hsave as (_ & _ & [d ->] & ->).
  eexists. split; [reflexivity|]. cbn. repeat split; reflexivity.
Qed.

(** C2. The start instant of a booking is midnight of its start day plus
    its start time.  A booking that is found, and whose caller is
    authorised, is refused cancellation exactly when it is neither pending
    nor confirmed with more than 24 hours (86 400 000 ms) from now to that
    instant; a confirmed booking with 24 hours or less is refused and
    nothing is written; a permitted cancellation of a stored booking that
    passes the validators of its schema and ends after it starts is answered
    with success and stored, and so is that of a pending booking whatever
    the time left; a permitted cancellation that is not stored is answered
    with a server error and changes nothing. *)
Theorem cancellation_permitted_iff db id user reason now booking :
  bookings db !! id = Some booking ->
  authorised user booking ->
  let start := b_startDate booking / 86400000 * 86400000
               + hh (b_startTime booking) * 3600000
               + mm (b_startTime booking) * 60000 in
  let end_ := b_endDate booking / 86400000 * 86400000
              + hh (b_endTime booking) * 3600000
              + mm (b_endTime booking) * 60000 in
  let permitted :=
    b_status booking = pending
    \/ (b_status booking = confirmed /\ now + 24 * 3600000 < start) in
  let storable := validBooking booking = true /\ start < end_ in
  (canBeCancelled booking now = true <-> permitted) /\
  (cancelBooking db id user reason now = (json 400 false msgCannotCancel, db)
   <-> ~ permitted) /\
  (b_status booking = confirmed -> start <= now + 24 * 3600000 ->
   cancelBooking db id user reason now = (json 400 false msgCannotCancel, db)) /\
  (permitted -> storable ->
   exists r db',
     cancelBooking db id user reason now = (r, db')
     /\ res_status r = 200
     /\ b_status <$> bookings db' !! id = Some cancelled) /\
  (b_status booking = pending -> storable ->
   res_status (cancelBooking db id user reason now).1 = 200) /\
  (permitted ->
   cancelBooking db id user reason now = (serverError, db)
   \/ (res_status (cancelBooking db id user reason now).1 = 200
       /\ b_status <$> bookings (cancelBooking db id user reason now).2 !! id
          = Some cancelled)).
Proof.
  intros Hfind Hauth start end_ permitted storable.
  pose proof (canBeCancelled_ms booking now) as Hiff.
  rewrite startDateTime_ms in Hiff. fold start permitted in Hiff.
  assert (Hrefuse : ~ permitted ->
            cancelBooking db id user reason now
            = (json 400 false msgCannotCancel, db)).
  { intros Hn. unfold cancelBooking.
    rewrite Hfind, (authorised_gate _ _ Hauth).
    destruct (canBeCancelled booking now); [tauto | reflexivity]. }
  assert (Hok : permitted -> storable ->
            exists r db',
              cancelBooking db id user reason now = (r, db')
              /\ res_status r = 200
              /\ b_status <$> bookings db' !! id = Some cancelled).
  { intros Hp [Hvalid Hwf]. apply Hiff in Hp.
    destruct (cancelBooking_success db id user reason now booking
                Hfind Hauth Hp Hvalid Hwf) as (b' & Heq & Hst & _).
    do 2 eexists. split; [exact Heq|]. split; [reflexivity|].
    cbn. rewrite lookup_insert_eq. cbn. congruence. }
  repeat match goal with |- _ /\ _ => split end.
  - apply Hiff.
  - split; [|exact Hrefuse].
    intros Heq Hp. apply Hiff in Hp. revert Heq. unfold cancelBooking.
    rewrite Hfind, (authorised_gate _ _ Hauth), Hp. cbn [negb].
    destruct (saveBooking _ _ _) as [[? ?]|]; discriminate.
  - intros Hst Hle. apply Hrefuse. intros [Hp | [_ Hlt]]; [congruence | lia].
  - exact Hok.
  - intros Hst Hwf. destruct (Hok (or_introl Hst) Hwf) as (r & db' & Heq & Hr & _).
    rewrite Heq. exact Hr.
  - intros Hp. apply Hiff in Hp.
    destruct (cancelBooking_outcome db id user reason now booking Hfind Hauth Hp)
      as [-> | (b' & -> & Hst & _)]; [left; reflexivity|].
    right. split; [reflexivity|]. cbn. rewrite lookup_insert_eq. cbn. congruence.
Qed.

(** The sample booking starts on day 20010 at 08:00, the instant
    1 728 892 800 000.  Confirmed, it is refused exactly 24 hours before
    that and cancelled 26 hours before it, when midnight of the day is less
    than 24 hours away; pending, it is cancelled 10 hours before. *)
Lemma cancellation_permitted_iff_witness :
  cancelBooking (demoStore confirmed) 3 renter None 1728806400000
  = (json 400 false msgCannotCancel, demoStore confirmed)
  /\ res_status (cancelBooking (demoStore confirmed) 3 renter None
                               1728799200000).1 = 200
  /\ res_status (cancelBooking (demoStore pending) 3 renter None
                               1728856800000).1 = 200.
Proof.
  split; [|split].
  - destruct (cancellation_permitted_iff (demoStore confirmed) 3 renter None
                1728806400000 (demoBooking confirmed))
      as (_ & _ & H & _); [reflexivity | left; reflexivity |].
    apply H; [reflexivity | vm_compute; discriminate].
  - destruct (cancellation_permitted_iff (demoStore confirmed) 3 renter None
                1728799200000 (demoBooking confirmed))
      as (_ & _ & _ & H & _); [reflexivity | left; reflexivity |].
    destruct H as (r & db' & Heq & Hr & _).
    + right. split; [reflexivity | vm_compute; reflexivity].
    + split; [vm_compute; reflexivity | vm_compute; reflexivity].
    + rewrite Heq. exact Hr.
  - destruct (cancellation_permitted_iff (demoStore pending) 3 renter None
                1728856800000 (demoBooking pending))
      as (_ & _ & _ & _ & H & _); [reflexivity | left; reflexivity |].
    apply H; [reflexivity|].
    split; [vm_compute; reflexivity | vm_compute; reflexivity].
Defined.

(** C3. With the start instant as midnight of the start day plus the start
    time and [left] the milliseconds from now to it: the refund computed
    when a cancellable booking is cancelled is the whole total price when
    at least 48 hours are left, half of it from 24 hours to under 48, and
    nothing under 24 hours.  The cancellation is answered with success and
    that amount, which is recorded in the booking's cancellation record
    while neither the booking's price and payment status nor any car
    changes; or it fails in the save, is answered with a server error and
    writes nothing.  It succeeds whenever the stored booking passes the
    validators of its schema and ends after it starts. *)
Theorem refund_on_cancellation db id user reason now booking :
  bookings db !! id = Some booking ->
  authorised user booking ->
  let start := b_startDate booking / 86400000 * 86400000
               + hh (b_startTime booking) * 3600000
               + mm (b_startTime booking) * 60000 in
  let end_ := b_endDate booking / 86400000 * 86400000
              + hh (b_endTime booking) * 3600000
              + mm (b_endTime booking) * 60000 in
  let left := start - now in
  let total := bp_totalPrice (b_pricing booking) in
  b_status booking = pending
  \/ (b_status booking = confirmed /\ 24 * 3600000 < left) ->
  exists refund,
    calculateRefund booking now = refund
    /\ (48 * 3600000 <= left -> (refund == total)%Q)
    /\ (24 * 3600000 <= left -> left < 48 * 3600000 ->
        (refund == total * (1 # 2))%Q)
    /\ (left < 24 * 3600000 -> (refund == 0)%Q)
    /\ (cancelBooking db id user reason now = (serverError, db)
        \/ exists b' db',
             cancelBooking db id user reason now =
               (mkResponse 200 true "Booking cancelled successfully" None None
                           (Some refund) (Some b'), db')
             /\ bookings db' = <[id := b']> (bookings db)
             /\ cars db' = cars db
             /\ b_status b' = cancelled
             /\ cn_refundAmount (b_cancellation b') = refund
             /\ b_paymentStatus b' = b_paymentStatus booking
             /\ b_pricing b' = b_pricing booking)
    /\ (validBooking booking = true -> start < end_ ->
        exists b',
          (cancelBooking db id user reason now).1
          = mkResponse 200 true "Booking cancelled successfully" None None
                       (Some refund) (Some b')).
Proof.
  intros Hfind Hauth start end_ left total Hperm.
  assert (Hcan : canBeCancelled booking now = true).
  { apply canBeCancelled_ms. rewrite startDateTime_ms. fold start.
    unfold left in Hperm. intuition lia. }
  destruct (calculateRefund_ms booking now Hcan) as (H48 & H24 & H0).
  rewrite startDateTime_ms in H48, H24, H0. fold start left total in H48, H24, H0.
  exists (calculateRefund booking now).
  split; [reflexivity|].
  split; [intros; rewrite H48 by assumption; reflexivity|].
  split; [intros; rewrite H24 by assumption; apply Qmult_comp; reflexivity|].
  split; [intros; rewrite H0 by assumption; reflexivity|].
  split.
  - destruct (cancelBooking_outcome db id user reason now booking
                Hfind Hauth Hcan)
      as [-> | (b' & -> & Hst & Hamt & _ & _ & Hpay & Hprice)];
      [left; reflexivity|].
    right. exists b', (mkStore (cars db) (<[id := b']> (bookings db))).
    repeat split; assumption.
  - intros Hvalid Hwf.
    destruct (cancelBooking_success db id user reason now booking
                Hfind Hauth Hcan Hvalid Hwf) as (b' & -> & _).
    exists b'. reflexivity.
Qed.

(** The pending sample booking, total 163.60, starts at the instant
    1 728 892 800 000.  Cancelled 50 hours before that, and exactly 48 hours
    before, the answer refunds 163.60; 30 hours before, and exactly 24 hours
    before, 81.80; 10 hours before, nothing. *)
Lemma refund_on_cancellation_witness :
  let refunded now :=
    res_refundAmount (cancelBooking (demoStore pending) 3 renter None now).1 in
  (exists q, refunded 1728712800000 = Some q /\ (q == 1636 # 10)%Q)
  /\ (exists q, refunded 1728720000000 = Some q /\ (q == 1636 # 10)%Q)
  /\ (exists q, refunded 1728784800000 = Some q /\ (q == 818 # 10)%Q)
  /\ (exists q, refunded 1728806400000 = Some q /\ (q == 818 # 10)%Q)
  /\ (exists q, refunded 1728856800000 = Some q /\ (q == 0)%Q).
Proof.
  assert (H : forall now,
    exists refund,
      res_refundAmount (cancelBooking (demoStore pending) 3 renter None now).1
      = Some refund
      /\ (48 * 3600000 <= 1728892800000 - now -> (refund == 1636 # 10)%Q)
      /\ (24 * 3600000 <= 1728892800000 - now ->
          1728892800000 - now < 48 * 3600000 ->
          (refund == (1636 # 10) * (1 # 2))%Q)
      /\ (1728892800000 - now < 24 * 3600000 -> (refund == 0)%Q)).
  { intros now.
    destruct (refund_on_cancellation (demoStore pending) 3 renter None now
                (demoBooking pending))
      as (refund & _ & H48 & H24 & H0 & _ & Hok);
      [reflexivity | left; reflexivity | left; reflexivity |].
    destruct Hok as [b' Heq]; [vm_compute; reflexivity | vm_compute; reflexivity |].
    exists refund. rewrite Heq. split; [reflexivity|].
    split; [exact H48|]. split; [exact H24 | exact H0]. }
  cbv zeta. repeat split.
  - destruct (H 1728712800000) as (q & Hq & H48 & _).
    exists q. split; [exact Hq | apply H48; vm_compute; discriminate].
  - destruct (H 1728720000000) as (q & Hq & H48 & _).
    exists q. split; [exact Hq | apply H48; vm_compute; discriminate].
  - destruct (H 1728784800000) as (q & Hq & _ & H24 & _).
    exists q. split; [exact Hq|].
    rewrite H24; [reflexivity | vm_compute; discriminate | vm_compute; reflexivity].
  - destruct (H 1728806400000) as (q & Hq & _ & H24 & _).
    exists q. split; [exact Hq|].
    rewrite H24; [reflexivity | vm_compute; discriminate | vm_compute; reflexivity].
  - destruct (H 1728856800000) as (q & Hq & _ & _ & H0).
    exists q. split; [exact Hq | apply H0; vm_compute; reflexivity].
Defined.

(** ** Rating *)

Lemma inject_Z_succ n : (inject_Z (n + 1) == inject_Z n + 1)%Q.
Proof. rewrite inject_Z_plus. reflexivity. Qed.

(** The running average stays within the bounds of the schema. *)
Lemma updateRating_ok _id car newRating db :
  validCarRating (c_rating car) = true ->
  (1 <= newRating)%Q -> (newRating <= 5)%Q ->
  exists car',
    updateRating _id car newRating db
    = Some (car', mkStore (<[_id := car']> (cars db)) (bookings db))
    /\ average (c_rating car')
       = ((average (c_rating car) * inject_Z (count (c_rating car)) + newRating)
          / inject_Z (count (c_rating car) + 1))%Q
    /\ count (c_rating car') = count (c_rating car) + 1.
Proof.
  intros Hv Hlo Hhi. unfold validCarRating in Hv.
  apply andb_true_iff in Hv as [Hv Hn]. apply andb_true_iff in Hv as [Ha0 Ha5].
  apply JS_leb_spec in Ha0, Ha5. apply Z.leb_le in Hn.
  unfold updateRating.
  set (n := count (c_rating car)) in *. set (a := average (c_rating car)) in *.
  set (car' := withRating car _).
  assert (Hvalid : validCarRating (c_rating car') = true).
  { unfold validCarRating, car'. cbn.
    assert (Hn' : (0 <= inject_Z n)%Q)
      by (change 0%Q with (inject_Z 0); rewrite <- Zle_Qle; exact Hn).
    assert (Hpos : (0 < inject_Z (n + 1))%Q) by (rewrite inject_Z_succ; lra).
    assert (Hp0 : (0 <= a * inject_Z n)%Q) by (apply Qmult_le_0_compat; assumption).
    assert (Hp5 : (a * inject_Z n <= 5 * inject_Z n)%Q)
      by (apply Qmult_le_compat_r; assumption).
    rewrite !andb_true_iff, !JS_leb_spec, Z.leb_le.
    split; [split|lia].
    - apply Qle_shift_div_l; [exact Hpos | lra].
    - apply Qle_shift_div_r; [exact Hpos | rewrite inject_Z_succ; lra]. }
  rewrite Hvalid. destruct (Z.eqb_spec (n + 1) 0); [lia|].
  exists car'. repeat split.
Qed.

(** A rating that is answered with 200 went through every check. *)
Lemma rateBooking_success_inv db id user body now r db' :
  rateBooking db id user body now = (r, db') ->
  res_status r = 200 ->
  exists booking car newRating b' car',
    bookings db !! id = Some booking
    /\ b_status booking = completed
    /\ owns user booking = true
    /\ falsy (carRating (b_rating booking)) = true
    /\ rb_carRating body = Some newRating
    /\ JS.truthy newRating = true
    /\ cars db !! b_car booking = Some car
    /\ (exists d, b' = withDuration
                         (rate booking {| carRating := Some newRating;
                                          serviceRating := rb_serviceRating body;
                                          comment := rb_comment body;
                                          ratedAt := Some now |}) d)
    /\ updateRating (b_car booking) car newRating
         (mkStore (cars db) (<[id := b']> (bookings db)))
       = Some (car', db')
    /\ r = jsonBooking "Booking rated successfully" b'.
Proof.
  unfold rateBooking. intros H Hr.
  destruct (rb_carRating body) as [newRating|] eqn:Hbody;
    [|inversion H; subst; discriminate].
  destruct (falsy (Some newRating) || falsy (rb_serviceRating body)) eqn:Hf;
    [inversion H; subst; discriminate|].
  apply orb_false_iff in Hf as [Hf _]. cbn in Hf. apply negb_false_iff in Hf.
  destruct (bookings db !! id) as [booking|] eqn:Hfind;
    [|inversion H; subst; discriminate].
  destruct (owns user booking) eqn:Hown; cbn [negb] in H;
    [|inversion H; subst; discriminate].
  destruct (bool_decide (b_status booking = completed)) eqn:Hst; cbn [negb] in H;
    [|inversion H; subst; discriminate].
  apply bool_decide_eq_true in Hst.
  destruct (falsy (carRating (b_rating booking))) eqn:Hun; cbn [negb] in H;
    [|inversion H; subst; discriminate].
  destruct (saveBooking _ _ _) as [[b' db1]|] eqn:Hsave;
    [|inversion H; subst; discriminate].
  apply saveBooking_inv in Hsave as (_ & _ & [d Hd] & Hdb1).
  assert (Hcar : b_car b' = b_car booking) by (rewrite Hd; reflexivity).
  rewrite Hcar in H.
  destruct (cars db !! b_car booking) as [car|] eqn:Hc;
    [|inversion H; subst; discriminate].
  destruct (updateRating _ _ _ _) as [[car' db2]|] eqn:Hup;
    [|inversion H; subst; discriminate].
  inversion H; subst r db'.
  exists booking, car, newRating, b', car'.
  rewrite <- Hdb1. repeat split; eauto.
Qed.

Lemma updateRating_inv _id car newRating db car' db' :
  updateRating _id car newRating db = Some (car', db') ->
  db' = mkStore (<[_id := car']> (cars db)) (bookings db)
  /\ average (c_rating car')
     = ((average (c_rating car) * inject_Z (count (c_rating car)) + newRating)
        / inject_Z (count (c_rating car) + 1))%Q
  /\ count (c_rating car') = count (c_rating car) + 1.
Proof.
  unfold updateRating. destruct (negb _ && validCarRating _); [|discriminate].
  intros H; inversion H; subst. repeat split.
Qed.

Lemma truthy_rating x : (1 <= x)%Q -> JS.truthy x = true.
Proof.
  intros H. unfold JS.truthy. apply negb_true_iff, not_true_iff_false.
  intros E. apply Qeq_bool_iff in E. rewrite E in H. exact (H eq_refl).
Qed.

(** The renter's first rating of a completed booking that passes the
    validators of its schema, with both ratings between 1 and 5, is answered
    with success. *)
Lemma rateBooking_success db id user now booking car r s c :
  bookings db !! id = Some booking ->
  owns user booking = true ->
  b_status booking = completed ->
  falsy (carRating (b_rating booking)) = true ->
  validBooking booking = true ->
  startDateTime booking < endDateTime booking ->
  cars db !! b_car booking = Some car ->
  validCarRating (c_rating car) = true ->
  (1 <= r)%Q -> (r <= 5)%Q -> (1 <= s)%Q -> (s <= 5)%Q ->
  match c with Some c => (String.length c <= 1000)%nat | None => True end ->
  res_status (rateBooking db id user (mkRateBody (Some r) (Some s) c) now).1 = 200.
Proof.
  intros Hfind Hown Hst Hun Hdoc Hwf Hcar Hvalid Hr1 Hr5 Hs1 Hs5 Hc.
  destruct (validBooking_parts booking Hdoc) as (Hm & Hf & _ & Hcn & _).
  unfold rateBooking. cbn [rb_carRating rb_serviceRating rb_comment falsy].
  rewrite (truthy_rating r Hr1), (truthy_rating s Hs1). cbn [negb orb].
  rewrite Hfind, Hown, Hun, (bool_decide_eq_true_2 _ Hst). cbn [negb].
  set (b1 := rate booking _).
  assert (Hv : validBooking b1 = true).
  { unfold b1, rate. apply validBooking_amend; try assumption.
    unfold validRating, atLeast, atMost, maxLength.
    cbn [carRating serviceRating comment].
    rewrite !andb_true_iff, !JS_leb_spec. repeat split; try assumption.
    destruct c; [apply Nat.leb_le; exact Hc | reflexivity]. }
  destruct (saveBooking_ok id b1 db Hv Hwf) as [d ->].
  cbn [b_car withDuration]. change (b_car b1) with (b_car booking). rewrite Hcar.
  destruct (updateRating_ok (b_car booking) car r
              (mkStore (cars db) (<[id := withDuration b1 d]> (bookings db)))
              Hvalid Hr1 Hr5) as (car' & -> & _).
  reflexivity.
Qed.

(** C8. When a rating is answered with success, the car's aggregate in the
    store becomes (oldAverage x oldCount + carRating) / (oldCount + 1) with
    the count incremented; from then on every rating of that booking fails
    and changes nothing, and a complete rating request of the same user is
    answered with the already-rated error. *)
Theorem rating_once_and_average db id user body now r db' :
  rateBooking db id user body now = (r, db') ->
  res_status r = 200 ->
  (exists booking car car' newRating,
     bookings db !! id = Some booking
     /\ cars db !! b_car booking = Some car
     /\ rb_carRating body = Some newRating
     /\ cars db' !! b_car booking = Some car'
     /\ (average (c_rating car')
         == (average (c_rating car) * inject_Z (count (c_rating car)) + newRating)
            / inject_Z (count (c_rating car) + 1))%Q
     /\ count (c_rating car') = count (c_rating car) + 1) /\
  (forall body2 now2,
     falsy (rb_carRating body2) = false ->
     falsy (rb_serviceRating body2) = false ->
     rateBooking db' id user body2 now2 = (json 400 false msgAlreadyRated, db')) /\
  (forall user2 body2 now2,
     res_status (rateBooking db' id user2 body2 now2).1 <> 200
     /\ (rateBooking db' id user2 body2 now2).2 = db').
Proof.
  intros H Hr.
  destruct (rateBooking_success_inv _ _ _ _ _ _ _ H Hr)
    as (booking & car & newRating & b' & car' & Hfind & Hst & Hown & _ & Hbody
        & Htruthy & Hcar & [d Hb'] & Hup & _).
  apply updateRating_inv in Hup as (Hdb' & Havg & Hcnt). cbn in Hdb'.
  assert (Hfind' : bookings db' !! id = Some b')
    by (rewrite Hdb'; cbn; apply lookup_insert_eq).
  assert (Hrated : falsy (carRating (b_rating b')) = false)
    by (rewrite Hb'; cbn; rewrite Htruthy; reflexivity).
  assert (Hst' : b_status b' = completed) by (rewrite Hb'; exact Hst).
  assert (Hown' : owns user b' = true) by (rewrite Hb'; exact Hown).
  split; [|split].
  - exists booking, car, car', newRating. repeat split; try assumption.
    + rewrite Hdb'. cbn. apply lookup_insert_eq.
    + rewrite Havg. reflexivity.
  - intros body2 now2 Hc Hs. unfold rateBooking.
    destruct (rb_carRating body2) as [q|] eqn:E; [|discriminate].
    rewrite Hc, Hs, Hfind', Hown', Hrated. cbn.
    rewrite (bool_decide_eq_true_2 _ Hst'). reflexivity.
  - intros user2 body2 now2. unfold rateBooking.
    destruct (rb_carRating body2) as [q|]; [|split; [discriminate|reflexivity]].
    destruct (_ || _); [split; [discriminate|reflexivity]|].
    rewrite Hfind', Hrated, (bool_decide_eq_true_2 _ Hst').
    destruct (owns user2 b'); cbn; split; (discriminate || reflexivity).
Qed.

(** Rating booking 3 with 4 and then booking 4 with 5 on the unrated car 7;
    the second rating is the one the theorem is applied to. *)
Lemma rating_once_and_average_witness :
  let body r := mkRateBody (Some r) (Some 5%Q) None in
  let db1 := (rateBooking completedStore 3 renter (body 4%Q) 0).2 in
  let db2 := (rateBooking db1 4 renter (body 5%Q) 0).2 in
  (exists car', cars db2 !! 7%N = Some car'
                /\ (average (c_rating car') == 45 # 10)%Q
                /\ count (c_rating car') = 2)
  /\ rateBooking db2 4 renter (body 5%Q) 0 = (json 400 false msgAlreadyRated, db2)
  /\ rateBooking db1 3 renter (body 4%Q) 0 = (json 400 false msgAlreadyRated, db1).
Proof.
  intros body db1 db2.
  destruct (rating_once_and_average db1 4 renter (body 5%Q) 0
              (rateBooking db1 4 renter (body 5%Q) 0).1 db2)
    as ((booking & car & car' & q & Hb & Hc & Hq & Hc' & Havg & Hcnt) & Hagain & _);
    [reflexivity | reflexivity |].
  destruct (rating_once_and_average completedStore 3 renter (body 4%Q) 0
              (rateBooking completedStore 3 renter (body 4%Q) 0).1 db1)
    as (_ & Hagain1 & _); [reflexivity | reflexivity |].
  split; [|split].
  - vm_compute in Hb. injection Hb as <-.
    vm_compute in Hc. injection Hc as <-.
    vm_compute in Hq. injection Hq as <-.
    exists car'. split; [exact Hc'|]. split; [rewrite Havg; reflexivity | exact Hcnt].
  - apply Hagain; reflexivity.
  - apply Hagain1; reflexivity.
Defined.

(** ** Updating *)

(** An active, completed or cancelled booking is refused before anything
    is written. *)
Lemma updateBooking_refuses_closed db id user body now booking :
  bookings db !! id = Some booking ->
  authorised user booking ->
  b_status booking ∈ [active; completed; cancelled] ->
  updateBooking db id user body now = (json 400 false msgCannotUpdate, db).
Proof.
  intros Hfind Hauth Hst. unfold updateBooking.
  rewrite Hfind, (authorised_gate _ _ Hauth), (bool_decide_eq_true_2 _ Hst).
  reflexivity.
Qed.

(** Every other status lets the request through: a request that only sets
    a short [specialRequests] is written to the document. *)
Lemma updateBooking_notes db id user now booking notes :
  bookings db !! id = Some booking ->
  authorised user booking ->
  b_status booking ∉ [active; completed; cancelled] ->
  (String.length notes <= 500)%nat ->
  exists b',
    updateBooking db id user (mkUpdateBody None None None None (Some notes)) now
    = (jsonBooking "Booking updated successfully" b',
       mkStore (cars db) (<[id := b']> (bookings db)))
    /\ b_specialRequests b' = Some notes
    /\ b_status b' = b_status booking.
Proof.
  intros Hfind Hauth Hst Hlen. unfold updateBooking.
  rewrite Hfind, (authorised_gate _ _ Hauth), (bool_decide_eq_false_2 _ Hst).
  cbn [ub_startDate ub_endDate ub_startTime ub_endTime].
  rewrite (bool_decide_eq_false_2 (is_Some (@None Z)))
    by (intros [? ?]; discriminate).
  rewrite (bool_decide_eq_false_2 (is_Some (@None TimeOfDay)))
    by (intros [? ?]; discriminate).
  cbn [orb]. unfold findByIdAndUpdate, validUpdate, mkUpdateBody.
  cbn -[Nat.leb named]. apply Nat.leb_le in Hlen. rewrite Hlen.
  eexists. split; [reflexivity|]. split; reflexivity.
Qed.

(** C7. A booking marked [no-show], a status other than pending and
    confirmed: its renter sets [specialRequests], the request is answered
    with success and the document is rewritten with its status kept. *)
Theorem no_show_booking_is_updated :
  let body := mkUpdateBody None None None None (Some "late arrival") in
  let out := updateBooking (demoStore no_show) 3 renter body 0 in
  res_status out.1 = 200
  /\ res_message out.1 = "Booking updated successfully"
  /\ (b_specialRequests <$> bookings out.2 !! 3%N) = Some (Some "late arrival")
  /\ (b_status <$> bookings out.2 !! 3%N) = Some no_show
  /\ out.2 <> demoStore no_show.
Proof.
  cbn zeta. repeat split; try (vm_compute; reflexivity).
  intros Heq.
  assert (H : b_specialRequests <$>
              bookings (updateBooking (demoStore no_show) 3 renter
                          (mkUpdateBody None None None None (Some "late arrival")) 0).2
              !! 3%N = Some None) by (rewrite Heq; reflexivity).
  vm_compute in H. discriminate.
Qed.

(** ** Creating: validation *)

Section create_validation.
Variables (db : Store) (user : User) (now : Z).
Variables (carId : ObjectId) (sd ed : Z) (st et : TimeOfDay).
Variables (pickup dropoff : option Location).
Variables (paymentMethod : string) (specialRequests : option string).
Variables (driver : option DriverDetails) (insuranceType : option string).

Let body : CreateBody :=
  mkCreateBody (Some carId) (Some sd) (Some ed) (Some st) (Some et)
    pickup dropoff (Some paymentMethod) specialRequests driver insuranceType.
Let dates := validateBookingDates sd ed st et now.
Let license :=
  validateDriverLicense (driver ≫= licenseNumber) (driver ≫= licenseExpiry) now.

(** C4, as the code has it. The error list of a rejected create request
    is the list of the first sub-validator that fails, in the order
    dates, driver license, pickup location, dropoff location; the
    sub-validators after it are not consulted, so a reported list is
    always the list of one single sub-validator. *)
Theorem createBooking_first_failing_validator :
  (dv_isValid dates = false ->
   createBooking db user body now
   = Answers (jsonErrors msgInvalidDates (dv_errors dates))) /\
  (dv_isValid dates = true -> v_isValid license = false ->
   createBooking db user body now
   = Answers (jsonErrors msgInvalidLicense (v_errors license))) /\
  (forall p, dv_isValid dates = true -> v_isValid license = true ->
     pickup = Some p -> v_isValid (validateLocation p "Pickup") = false ->
     createBooking db user body now
     = Answers (jsonErrors msgInvalidPickup
                  (v_errors (validateLocation p "Pickup")))) /\
  (forall p d, dv_isValid dates = true -> v_isValid license = true ->
     pickup = Some p -> v_isValid (validateLocation p "Pickup") = true ->
     dropoff = Some d -> v_isValid (validateLocation d "Dropoff") = false ->
     createBooking db user body now
     = Answers (jsonErrors msgInvalidDropoff
                  (v_errors (validateLocation d "Dropoff")))) /\
  (forall r errs,
     createBooking db user body now = Answers r ->
     res_errors r = Some errs ->
     errs = dv_errors dates
     \/ errs = v_errors license
     \/ (exists p, pickup = Some p
                   /\ errs = v_errors (validateLocation p "Pickup"))
     \/ (exists d, dropoff = Some d
                   /\ errs = v_errors (validateLocation d "Dropoff"))).
Proof.
  unfold createBooking, body. cbn [cb_carId cb_startDate cb_endDate cb_startTime
    cb_endTime cb_paymentMethod cb_driverDetails cb_pickupLocation
    cb_dropoffLocation].
  fold dates license.
  split; [|split; [|split; [|split]]].
  - intros ->. reflexivity.
  - intros -> ->. reflexivity.
  - intros p -> -> -> ->. reflexivity.
  - intros p d -> -> -> -> -> ->. reflexivity.
  - intros r errs.
    destruct (dv_isValid dates); cbn [negb];
      [|intros [= <-] [= <-]; auto].
    destruct (v_isValid license); cbn [negb];
      [|intros [= <-] [= <-]; auto].
    destruct pickup as [p|]; [|intros [= <-]; discriminate].
    destruct (v_isValid (validateLocation p "Pickup")); cbn [negb];
      [|intros [= <-] [= <-]; eauto 6].
    destruct dropoff as [d|]; [|intros [= <-]; discriminate].
    destruct (v_isValid (validateLocation d "Dropoff")); cbn [negb];
      [|intros [= <-] [= <-]; eauto 8].
    destruct (isAvailable _); [destruct (av_car _)|];
      intros [= <-]; discriminate.
Qed.
End create_validation.

(** C4, as stated, fails on that request: the licence violations are
    missing from the answer, which lists the date violation only. *)
Lemma createBooking_does_not_aggregate :
  let now := parseDate 20000 in
  createBooking (demoStore pending) renter pastRequestWithoutDriver now
  = Answers (jsonErrors msgInvalidDates [errStartInFuture])
  /\ v_errors (validateDriverLicense None None now)
     = [errLicenseNumber; errLicenseExpiryRequired]
  /\ errLicenseNumber ∉ [errStartInFuture].
Proof.
  split; [vm_compute; reflexivity|]. split; [vm_compute; reflexivity|].
  rewrite list_elem_of_singleton. discriminate.
Qed.

(** The past request is answered by the date validator alone; the same
    request for a future day is answered by the licence validator. *)
Lemma createBooking_first_failing_validator_witness :
  let now := parseDate 20000 in
  createBooking (demoStore pending) renter pastRequestWithoutDriver now
  = Answers (jsonErrors msgInvalidDates [errStartInFuture])
  /\ createBooking (demoStore pending) renter
       (demoRequest 20020 20020 (mkTime 10 0) (mkTime 12 0) None) now
     = Answers (jsonErrors msgInvalidLicense
                  [errLicenseNumber; errLicenseExpiryRequired]).
Proof.
  split.
  - destruct (createBooking_first_failing_validator (demoStore pending) renter
                (parseDate 20000) 7%N 19000 19000 (mkTime 10 0) (mkTime 12 0)
                (Some demoLocation) (Some demoLocation) "credit-card" None None
                None) as (H & _).
    apply H. reflexivity.
  - destruct (createBooking_first_failing_validator (demoStore pending) renter
                (parseDate 20000) 7%N 20020 20020 (mkTime 10 0) (mkTime 12 0)
                (Some demoLocation) (Some demoLocation) "credit-card" None None
                None) as (_ & H & _).
    apply H; reflexivity.
Defined.

(** ** The availability checker *)

Lemma periodConflict_iff start end_ p :
  periodConflict start end_ p = true
  <-> start <= p_endDate p /\ end_ >= p_startDate p.
Proof.
  unfold periodConflict. rewrite andb_true_iff, Z.leb_le, Z.geb_le. lia.
Qed.

Lemma some_period_iff start end_ (l : list Period) :
  existsb (periodConflict start end_) l = true
  <-> exists p, p ∈ l /\ start <= p_endDate p /\ end_ >= p_startDate p.
Proof.
  rewrite existsb_exists. split; intros (p & Hin & Hp); exists p.
  - apply list_elem_of_In in Hin. apply periodConflict_iff in Hp. auto.
  - apply list_elem_of_In in Hin. split; [exact Hin|]. apply periodConflict_iff, Hp.
Qed.

Lemma find_iff {A} (collection : gmap N A) query _id doc :
  (_id, doc) ∈ find collection query
  <-> collection !! _id = Some doc /\ query (_id, doc) = true.
Proof.
  unfold find. rewrite list_elem_of_In, filter_In, <- list_elem_of_In.
  rewrite elem_of_map_to_list. reflexivity.
Qed.

Lemma matchesQuery_iff carId start end_ ex _id b :
  matchesQuery carId start end_ ex (_id, b) = true
  <-> b_car b = carId
      /\ b_status b ∈ [pending; confirmed; active]
      /\ b_startDate b <= end_ /\ b_endDate b >= start
      /\ ex <> Some _id.
Proof.
  unfold matchesQuery.
  rewrite !andb_true_iff, !bool_decide_eq_true, Z.leb_le, Z.geb_le.
  destruct ex as [e|].
  - rewrite negb_true_iff, bool_decide_eq_false.
    intuition (try congruence; try lia).
  - intuition (try congruence; try lia).
Qed.

Lemma nonempty_iff {A} (l : list A) :
  (0 <? length l)%nat = true <-> exists x, x ∈ l.
Proof.
  destruct l as [|x l]; cbn.
  - split; [discriminate | intros [x Hx]; inversion Hx].
  - split; [intros _; exists x; left | reflexivity].
Qed.

(** The checks that follow the three checks of the car itself. *)
Lemma checkCarAvailability_eq db carId sd ed ex car :
  cars db !! carId = Some car ->
  c_status car = car_active ->
  ca_isAvailable (c_availability car) = true ->
  let start := parseDate sd in
  let end_ := parseDate ed in
  let found := find (bookings db) (matchesQuery carId start end_ ex) in
  checkCarAvailability db carId sd ed ex =
    if existsb (periodConflict start end_) (unavailableDates (c_availability car))
    then unavailable reasonUnavailableDates
    else if existsb (periodConflict start end_)
                    (maintenanceSchedule (c_availability car))
    then unavailable reasonMaintenance
    else if (0 <? length found)%nat
    then mkAvailabilityCheck false (Some reasonBooked)
                             (Some (conflictOf <$> found)) None
    else mkAvailabilityCheck true None None (Some car).
Proof.
  intros Hcar Hst Hflag start end_ found. unfold checkCarAvailability, checkCarAvailabilityAt.
  rewrite Hcar, Hst, Hflag. reflexivity.
Qed.

Lemma some_booking_iff db carId start end_ ex :
  (0 <? length (find (bookings db) (matchesQuery carId start end_ ex)))%nat = true
  <-> bookingConflict db carId start end_ ex.
Proof.
  rewrite nonempty_iff. split.
  - intros [[_id b] Hin]. apply find_iff in Hin as [Hb Hq].
    apply matchesQuery_iff in Hq. exists _id, b. intuition lia.
  - intros (_id & b & Hb & Hq). exists (_id, b). apply find_iff.
    split; [exact Hb|]. apply matchesQuery_iff. intuition lia.
Qed.

Ltac availability_cases Hcar Hst Hflag :=
  rewrite (checkCarAvailability_eq _ _ _ _ _ _ Hcar Hst Hflag);
  match goal with
  | |- context [existsb ?f (unavailableDates ?a)] =>
    destruct (existsb f (unavailableDates a)) eqn:Eblackout
  end;
  [|match goal with
    | |- context [existsb ?f (maintenanceSchedule ?a)] =>
      destruct (existsb f (maintenanceSchedule a)) eqn:Emaint
    end;
    [|match goal with
      | |- context [(0 <? length ?l)%nat] =>
        destruct (0 <? length l)%nat eqn:Ebooked
      end]].

(** C5. For a car that is found, active and flagged available, the checker
    reports a conflict exactly when the requested interval meets, both
    ends included, a blackout interval, a maintenance interval or a
    pending, confirmed or active booking of the car; an interval that only
    touches the request at an end point is a conflict. *)
Theorem overlap_test_inclusive db carId sd ed ex car :
  cars db !! carId = Some car ->
  c_status car = car_active ->
  ca_isAvailable (c_availability car) = true ->
  let start := parseDate sd in
  let end_ := parseDate ed in
  let r := checkCarAvailability db carId sd ed ex in
  let blackout := blackoutConflict car start end_ in
  let maintenance := maintenanceConflict car start end_ in
  let booked := bookingConflict db carId start end_ ex in
  (isAvailable r = false <-> blackout \/ maintenance \/ booked) /\
  (reason r = Some reasonUnavailableDates <-> blackout) /\
  (reason r = Some reasonMaintenance <-> ~ blackout /\ maintenance) /\
  (reason r = Some reasonBooked <-> ~ blackout /\ ~ maintenance /\ booked) /\
  (forall p, p ∈ unavailableDates (c_availability car)
             \/ p ∈ maintenanceSchedule (c_availability car) ->
     p_startDate p <= p_endDate p -> start <= end_ ->
     p_endDate p = start \/ p_startDate p = end_ ->
     isAvailable r = false) /\
  (forall _id b, bookings db !! _id = Some b -> b_car b = carId ->
     b_status b ∈ [pending; confirmed; active] -> ex <> Some _id ->
     b_startDate b <= b_endDate b -> start <= end_ ->
     b_endDate b = start \/ b_startDate b = end_ ->
     isAvailable r = false).
Proof.
  intros Hcar Hst Hflag. cbv zeta.
  set (start := parseDate sd). set (end_ := parseDate ed).
  set (r := checkCarAvailability db carId sd ed ex).
  set (blackout := blackoutConflict car start end_).
  set (maintenance := maintenanceConflict car start end_).
  set (booked := bookingConflict db carId start end_ ex).
  pose proof (some_period_iff start end_ (unavailableDates (c_availability car)))
    as Hb.
  pose proof (some_period_iff start end_ (maintenanceSchedule (c_availability car)))
    as Hm.
  pose proof (some_booking_iff db carId start end_ ex) as Hk.
  fold (blackoutConflict car start end_) in Hb. fold blackout in Hb.
  fold (maintenanceConflict car start end_) in Hm. fold maintenance in Hm.
  fold booked in Hk.
  assert (Hmain : (isAvailable r = false <-> blackout \/ maintenance \/ booked)
                  /\ (reason r = Some reasonUnavailableDates <-> blackout)
                  /\ (reason r = Some reasonMaintenance <-> ~ blackout /\ maintenance)
                  /\ (reason r = Some reasonBooked
                      <-> ~ blackout /\ ~ maintenance /\ booked)).
  { clearbody blackout maintenance booked. unfold r.
    availability_cases Hcar Hst Hflag;
    fold start end_ in Eblackout |- *;
    try fold start end_ in Emaint; try fold start end_ in Ebooked;
    rewrite ?Eblackout, ?Emaint, ?Ebooked in *; cbn;
    unfold reasonUnavailableDates, reasonMaintenance, reasonBooked;
    repeat split; intros;
    repeat match goal with
           | H : _ /\ _ |- _ => destruct H
           | H : _ \/ _ |- _ => destruct H
           | H : true = true <-> _ |- _ => apply proj1 in H; specialize (H eq_refl)
           | H : false = true <-> ?P |- _ =>
             assert (~ P) by (intros HP; apply H in HP; discriminate); clear H
           end;
    try discriminate; try tauto. }
  destruct Hmain as (Havail & Hr1 & Hr2 & Hr3).
  repeat match goal with |- _ /\ _ => split end; try assumption.
  - intros p Hin Hwf Hreq Htouch. apply Havail.
    destruct Hin as [Hin | Hin]; [left | right; left]; exists p;
      (split; [exact Hin | lia]).
  - intros _id b Hfind Hc Hs Hex Hwf Hreq Htouch. apply Havail.
    right; right. exists _id, b. repeat split; try assumption; lia.
Qed.

(** Requests that touch the end of the blackout, the start of the
    maintenance and the end of the booking are all refused; the days between
    the blackout and the maintenance are free. *)
Lemma overlap_test_inclusive_witness :
  isAvailable (checkCarAvailability busyStore 7 20015 20016 None) = false
  /\ isAvailable (checkCarAvailability busyStore 7 20018 20020 None) = false
  /\ isAvailable (checkCarAvailability busyStore 7 20032 20033 None) = false
  /\ isAvailable (checkCarAvailability busyStore 7 20016 20019 None) = true.
Proof.
  split; [|split; [|split]].
  - destruct (overlap_test_inclusive busyStore 7 20015 20016 None busyCar)
      as (_ & _ & _ & _ & H & _); [reflexivity ..|].
    apply (H (mkPeriod (parseDate 20010) (parseDate 20015)));
      [left; left | discriminate | discriminate | left; reflexivity].
  - destruct (overlap_test_inclusive busyStore 7 20018 20020 None busyCar)
      as (_ & _ & _ & _ & H & _); [reflexivity ..|].
    apply (H (mkPeriod (parseDate 20020) (parseDate 20022)));
      [right; left | discriminate | discriminate | right; reflexivity].
  - destruct (overlap_test_inclusive busyStore 7 20032 20033 None busyCar)
      as (_ & _ & _ & _ & _ & H); [reflexivity ..|].
    apply (H 5%N busyBooking);
      [reflexivity | reflexivity | right; left | discriminate | discriminate
      | discriminate | left; reflexivity].
  - vm_compute. reflexivity.
Defined.

(** The outcome of each of the last three checks, given that the checks
    before it pass. *)
Lemma check_blackout db carId sd ed ex car :
  cars db !! carId = Some car -> c_status car = car_active ->
  ca_isAvailable (c_availability car) = true ->
  blackoutConflict car (parseDate sd) (parseDate ed) ->
  checkCarAvailability db carId sd ed ex = unavailable reasonUnavailableDates.
Proof.
  intros Hcar Hst Hflag Hb. apply some_period_iff in Hb.
  rewrite (checkCarAvailability_eq _ _ _ _ _ _ Hcar Hst Hflag), Hb. reflexivity.
Qed.

Lemma check_maintenance db carId sd ed ex car :
  cars db !! carId = Some car -> c_status car = car_active ->
  ca_isAvailable (c_availability car) = true ->
  ~ blackoutConflict car (parseDate sd) (parseDate ed) ->
  maintenanceConflict car (parseDate sd) (parseDate ed) ->
  checkCarAvailability db carId sd ed ex = unavailable reasonMaintenance.
Proof.
  intros Hcar Hst Hflag Hnb Hm. apply some_period_iff in Hm.
  unfold blackoutConflict in Hnb. rewrite <- some_period_iff in Hnb.
  apply not_true_is_false in Hnb.
  rewrite (checkCarAvailability_eq _ _ _ _ _ _ Hcar Hst Hflag), Hnb, Hm.
  reflexivity.
Qed.

Lemma check_booked db carId sd ed ex car :
  cars db !! carId = Some car -> c_status car = car_active ->
  ca_isAvailable (c_availability car) = true ->
  ~ blackoutConflict car (parseDate sd) (parseDate ed) ->
  ~ maintenanceConflict car (parseDate sd) (parseDate ed) ->
  bookingConflict db carId (parseDate sd) (parseDate ed) ex ->
  let found :=
    find (bookings db) (matchesQuery carId (parseDate sd) (parseDate ed) ex) in
  found <> []
  /\ checkCarAvailability db carId sd ed ex
     = mkAvailabilityCheck false (Some reasonBooked)
                           (Some (conflictOf <$> found)) None.
Proof.
  intros Hcar Hst Hflag Hnb Hnm Hk found.
  unfold blackoutConflict in Hnb. rewrite <- some_period_iff in Hnb.
  unfold maintenanceConflict in Hnm. rewrite <- some_period_iff in Hnm.
  apply not_true_is_false in Hnb, Hnm. apply some_booking_iff in Hk.
  fold found in Hk. split.
  - destruct found; [discriminate Hk | discriminate].
  - rewrite (checkCarAvailability_eq _ _ _ _ _ _ Hcar Hst Hflag).
    fold found. rewrite Hnb, Hnm, Hk. reflexivity.
Qed.

(** The identifiers of the documents that a query finds are distinct. *)
Lemma find_NoDup {A} (collection : gmap N A) query :
  NoDup (fst <$> find collection query).
Proof.
  unfold find. pose proof (NoDup_fst_map_to_list collection) as H.
  induction (map_to_list collection) as [|x l IH]; cbn; [constructor|].
  cbn in H. apply NoDup_cons in H as [Hx Hl].
  destruct (query x); [|exact (IH Hl)].
  cbn. apply NoDup_cons. split; [|exact (IH Hl)].
  intros Hin. apply Hx. apply list_elem_of_fmap in Hin as (y & -> & Hy).
  apply list_elem_of_fmap. exists y. split; [reflexivity|].
  apply list_elem_of_In in Hy. apply filter_In in Hy as [Hy _].
  apply list_elem_of_In, Hy.
Qed.

(** C6. The reason reported is that of the first failing check, in the
    order: car exists, car status active, availability flag, blackout
    intervals, maintenance intervals, bookings; whatever the later checks
    would find.  Only the booking conflict carries a list: it holds, once
    each, the pending, confirmed and active bookings of the car that meet
    the requested interval, each with its identifier, its two dates and its
    two times.  A car with a maintenance conflict that is also
    double-booked is reported as scheduled for maintenance. *)
Theorem first_failing_check_is_reported db carId sd ed ex :
  let start := sd * 86400000 in
  let end_ := ed * 86400000 in
  let r := checkCarAvailability db carId sd ed ex in
  (cars db !! carId = None -> r = unavailable reasonNotFound) /\
  (forall car, cars db !! carId = Some car -> c_status car <> car_active ->
     r = unavailable (reasonStatus (c_status car))) /\
  (forall car, cars db !! carId = Some car -> c_status car = car_active ->
     ca_isAvailable (c_availability car) = false ->
     r = unavailable reasonFlag) /\
  (forall car, cars db !! carId = Some car -> c_status car = car_active ->
     ca_isAvailable (c_availability car) = true ->
     blackoutConflict car start end_ ->
     r = unavailable reasonUnavailableDates) /\
  (forall car, cars db !! carId = Some car -> c_status car = car_active ->
     ca_isAvailable (c_availability car) = true ->
     ~ blackoutConflict car start end_ ->
     maintenanceConflict car start end_ ->
     r = unavailable reasonMaintenance) /\
  (forall car, cars db !! carId = Some car -> c_status car = car_active ->
     ca_isAvailable (c_availability car) = true ->
     ~ blackoutConflict car start end_ ->
     ~ maintenanceConflict car start end_ ->
     bookingConflict db carId start end_ ex ->
     let found := find (bookings db) (matchesQuery carId start end_ ex) in
     found <> []
     /\ r = mkAvailabilityCheck false (Some reasonBooked)
                                (Some (conflictOf <$> found)) None) /\
  (forall l, av_conflictingBookings r = Some l ->
     reason r = Some reasonBooked
     /\ l = conflictOf <$> find (bookings db) (matchesQuery carId start end_ ex)
     /\ l <> []
     /\ NoDup (cf_id <$> l)
     /\ forall c, c ∈ l <->
           exists _id b,
             bookings db !! _id = Some b /\ b_car b = carId
             /\ b_status b ∈ [pending; confirmed; active] /\ ex <> Some _id
             /\ start <= b_endDate b /\ end_ >= b_startDate b
             /\ c = mkConflict _id (b_startDate b) (b_endDate b)
                               (b_startTime b) (b_endTime b)) /\
  (forall car, cars db !! carId = Some car ->
     bookingConflict db carId start end_ ex ->
     (c_status car = car_maintenance ->
      reason r = Some "Car is currently maintenance"
      /\ av_conflictingBookings r = None) /\
     (c_status car = car_active -> ca_isAvailable (c_availability car) = true ->
      ~ blackoutConflict car start end_ -> maintenanceConflict car start end_ ->
      reason r = Some reasonMaintenance /\ av_conflictingBookings r = None)).
Proof.
  cbv zeta.
  change (sd * 86400000) with (parseDate sd).
  change (ed * 86400000) with (parseDate ed).
  set (start := parseDate sd). set (end_ := parseDate ed).
  set (r := checkCarAvailability db carId sd ed ex).
  assert (Hstatus : forall car, cars db !! carId = Some car ->
            c_status car <> car_active ->
            r = unavailable (reasonStatus (c_status car))).
  { intros car Hcar Hst. unfold r, checkCarAvailability, checkCarAvailabilityAt.
    rewrite Hcar, (bool_decide_eq_false_2 _ Hst). reflexivity. }
  repeat match goal with |- _ /\ _ => split end.
  - intros Hcar. unfold r, checkCarAvailability, checkCarAvailabilityAt. rewrite Hcar. reflexivity.
  - exact Hstatus.
  - intros car Hcar Hst Hflag. unfold r, checkCarAvailability, checkCarAvailabilityAt.
    rewrite Hcar, Hst, Hflag. reflexivity.
  - intros car. apply check_blackout.
  - intros car. apply check_maintenance.
  - intros car. apply check_booked.
  - intros l Hl.
    assert (Hshape : reason r = Some reasonBooked
              /\ l = conflictOf <$> find (bookings db)
                                      (matchesQuery carId start end_ ex)
              /\ l <> []).
    { revert Hl. unfold r, checkCarAvailability, checkCarAvailabilityAt.
      fold start end_.
      destruct (cars db !! carId); [|discriminate].
      destruct (negb (bool_decide _)); [discriminate|].
      destruct (negb (ca_isAvailable _)); [discriminate|]. cbv zeta.
      destruct (existsb _ (unavailableDates _)); [discriminate|].
      destruct (existsb _ (maintenanceSchedule _)); [discriminate|].
      destruct (find (bookings db) _) as [|x found] eqn:Efound;
        cbn; intros [= <-] || discriminate.
      repeat split. discriminate. }
    destruct Hshape as (Hreason & -> & Hne).
    split; [exact Hreason|]. split; [reflexivity|]. split; [exact Hne|]. split.
    + rewrite <- list_fmap_compose.
      rewrite (list_fmap_ext (cf_id ∘ conflictOf) fst)
        by (intros ? [? ?] _; reflexivity).
      apply find_NoDup.
    + intros c. rewrite list_elem_of_fmap. split.
      * intros ([_id b] & -> & Hin). apply find_iff in Hin as [Hb Hq].
        apply matchesQuery_iff in Hq. exists _id, b. cbn. intuition lia.
      * intros (_id & b & Hb & Hcar & Hst & Hex & Hlo & Hhi & ->).
        exists (_id, b). split; [reflexivity|]. apply find_iff.
        split; [exact Hb|]. apply matchesQuery_iff. intuition lia.
  - intros car Hcar Hk. split.
    + intros Hst. rewrite (Hstatus car Hcar) by (rewrite Hst; discriminate).
      rewrite Hst. split; reflexivity.
    + intros Hst Hflag Hnb Hm. unfold r.
      rewrite (check_maintenance _ _ _ _ _ _ Hcar Hst Hflag Hnb Hm).
      split; reflexivity.
Qed.

(** On the sample store, days 20021 to 20031 meet both the maintenance and
    the booking: maintenance is reported, without a list.  Days 20031 to
    20033 meet the booking alone, which is listed with its identifier 5,
    its days 20030 and 20032 as instants, and its times. *)
Lemma first_failing_check_is_reported_witness :
  checkCarAvailability busyStore 7 20021 20031 None
  = unavailable reasonMaintenance
  /\ bookingConflict busyStore 7 (20021 * 86400000) (20031 * 86400000) None
  /\ checkCarAvailability busyStore 7 20031 20033 None
     = mkAvailabilityCheck false (Some reasonBooked)
         (Some [mkConflict 5 (20030 * 86400000) (20032 * 86400000)
                           (mkTime 8 0) (mkTime 10 0)]) None.
Proof.
  assert (Hk : bookingConflict busyStore 7 (20021 * 86400000) (20031 * 86400000) None).
  { exists 5%N, busyBooking.
    split; [reflexivity|]. split; [reflexivity|]. split; [right; left|].
    split; [discriminate|]. split; discriminate. }
  split; [|split; [exact Hk|]].
  - destruct (first_failing_check_is_reported busyStore 7 20021 20031 None)
      as (_ & _ & _ & _ & H & _).
    apply (H busyCar); [reflexivity | reflexivity | reflexivity | |].
    + intros (p & Hin & Hlo & Hhi). apply list_elem_of_singleton in Hin. subst p.
      revert Hlo. vm_compute. intros Hlo. apply Hlo. reflexivity.
    + exists (mkPeriod (parseDate 20020) (parseDate 20022)).
      split; [left|]. split; discriminate.
  - destruct (first_failing_check_is_reported busyStore 7 20031 20033 None)
      as (_ & _ & _ & _ & _ & H & _).
    destruct (H busyCar) as [_ ->]; [reflexivity | reflexivity | reflexivity | | | |].
    + intros (p & Hin & Hlo & Hhi). apply list_elem_of_singleton in Hin. subst p.
      revert Hlo. vm_compute. intros Hlo. apply Hlo. reflexivity.
    + intros (p & Hin & Hlo & Hhi). apply list_elem_of_singleton in Hin. subst p.
      revert Hlo. vm_compute. intros Hlo. apply Hlo. reflexivity.
    + exists 5%N, busyBooking.
      split; [reflexivity|]. split; [reflexivity|]. split; [right; left|].
      split; [discriminate|]. split; discriminate.
    + vm_compute. reflexivity.
Defined.
(** ** Creating: availability by calendar day *)

(** What a create request that reaches the store went through. *)
Lemma createBooking_creates db user body now data :
  createBooking db user body now = Creates data ->
  exists carId sd ed st et car,
    cb_carId body = Some carId /\ cb_startDate body = Some sd
    /\ cb_endDate body = Some ed /\ cb_startTime body = Some st
    /\ cb_endTime body = Some et
    /\ dv_isValid (validateBookingDates sd ed st et now) = true
    /\ checkCarAvailability db carId sd ed None
       = mkAvailabilityCheck true None None (Some car)
    /\ bd_duration data = dv_duration (validateBookingDates sd ed st et now)
    /\ bd_pricing data
       = pricingOf (calculateBookingPrice (c_pricing car) (bd_duration data)
                      (default "basic" (cb_insuranceType body))).
Proof.
  unfold createBooking. intros H.
  destruct (cb_carId body) as [carId|]; [|discriminate].
  destruct (cb_startDate body) as [sd|]; [|discriminate].
  destruct (cb_endDate body) as [ed|]; [|discriminate].
  destruct (cb_startTime body) as [st|]; [|discriminate].
  destruct (cb_endTime body) as [et|]; [|discriminate].
  destruct (cb_paymentMethod body) as [pm|]; [|discriminate].
  destruct (dv_isValid _) eqn:Hvalid; [|discriminate]. cbn [negb] in H.
  destruct (negb (v_isValid (validateDriverLicense _ _ _))); [discriminate|].
  destruct (cb_pickupLocation body) as [p|]; [|discriminate].
  destruct (negb (v_isValid (validateLocation p _))); [discriminate|].
  destruct (cb_dropoffLocation body) as [d|]; [|discriminate].
  destruct (negb (v_isValid (validateLocation d _))); [discriminate|].
  destruct (checkCarAvailability db carId sd ed None) as [avail why l c] eqn:Hc.
  cbn [isAvailable av_car] in H.
  destruct avail; [|discriminate]. destruct c as [car|]; [|discriminate].
  injection H as <-. cbn [bd_duration bd_pricing].
  exists carId, sd, ed, st, et, car. repeat split; try reflexivity.
  - exact Hvalid.
  - revert Hc. unfold checkCarAvailability, checkCarAvailabilityAt.
    repeat match goal with
           | |- context [match ?x with _ => _ end] => destruct x
           end; cbn; intros [= <- <- <-] || discriminate. reflexivity.
Qed.

(** The dates alone decide: a booking conflict makes the car unavailable
    whatever else holds of it. *)
Lemma bookingConflict_unavailable db carId sd ed ex :
  bookingConflict db carId (parseDate sd) (parseDate ed) ex ->
  isAvailable (checkCarAvailability db carId sd ed ex) = false.
Proof.
  intros Hk. apply some_booking_iff in Hk. unfold checkCarAvailability, checkCarAvailabilityAt.
  destruct (cars db !! carId) as [car|]; [|reflexivity].
  destruct (negb (bool_decide _)); [reflexivity|].
  destruct (negb (ca_isAvailable _)); [reflexivity|].
  destruct (existsb _ (unavailableDates _)); [reflexivity|].
  destruct (existsb _ (maintenanceSchedule _)); [reflexivity|].
  cbv zeta. rewrite Hk. reflexivity.
Qed.

Lemma parseDate_le a b : parseDate a <= parseDate b <-> a <= b.
Proof. unfold parseDate, msPerDay. lia. Qed.

(** C10. The checker is given the two dates and no time of day.  A
    pending, confirmed or active booking of the car, stored from day [d1] to
    day [d2], makes the car unavailable for every request whose days
    [rs] to [re] share a day with it: no create request for those days
    reaches the store and no other booking of the car is moved onto them,
    whatever the times of day; when no earlier check fails, the booking is
    listed among the conflicts. *)
Theorem availability_is_by_calendar_day db carId _id b d1 d2 rs re :
  bookings db !! _id = Some b ->
  b_car b = carId ->
  b_status b ∈ [pending; confirmed; active] ->
  b_startDate b = parseDate d1 ->
  b_endDate b = parseDate d2 ->
  (exists day, d1 <= day <= d2 /\ rs <= day <= re) ->
  let r := checkCarAvailability db carId rs re None in
  isAvailable r = false /\
  (forall user body now data,
     cb_carId body = Some carId ->
     cb_startDate body = Some rs -> cb_endDate body = Some re ->
     createBooking db user body now <> Creates data) /\
  (forall other b2 user body now,
     other <> _id -> bookings db !! other = Some b2 -> b_car b2 = carId ->
     ub_startDate body = Some rs -> ub_endDate body = Some re ->
     res_status (updateBooking db other user body now).1 <> 200
     /\ (updateBooking db other user body now).2 = db) /\
  (forall car, cars db !! carId = Some car -> c_status car = car_active ->
     ca_isAvailable (c_availability car) = true ->
     ~ blackoutConflict car (parseDate rs) (parseDate re) ->
     ~ maintenanceConflict car (parseDate rs) (parseDate re) ->
     reason r = Some reasonBooked
     /\ exists l, av_conflictingBookings r = Some l /\ conflictOf (_id, b) ∈ l).
Proof.
  intros Hb Hcar Hst Hs He (day & Hd & Hr) r.
  assert (Hany : forall ex, ex <> Some _id ->
            bookingConflict db carId (parseDate rs) (parseDate re) ex).
  { intros ex Hex. exists _id, b. repeat split; try assumption.
    - rewrite He. apply parseDate_le. lia.
    - rewrite Hs. apply Z.le_ge, parseDate_le. lia. }
  assert (Hk : bookingConflict db carId (parseDate rs) (parseDate re) None)
    by (apply Hany; discriminate).
  assert (Hno : isAvailable r = false) by apply bookingConflict_unavailable, Hk.
  split; [exact Hno|]. split; [|split].
  - intros user body now data Hc Hsd Hed Hcreate.
    apply createBooking_creates in Hcreate
      as (carId' & sd & ed & st & et & car & Hc' & Hsd' & Hed' & _ & _ & _ & Hav & _).
    rewrite Hc in Hc'. rewrite Hsd in Hsd'. rewrite Hed in Hed'.
    injection Hc' as <-. injection Hsd' as <-. injection Hed' as <-.
    unfold r in Hno. rewrite Hav in Hno. discriminate.
  - intros other b2 user body now Hne Hb2 Hcar2 Hsd Hed.
    unfold updateBooking. rewrite Hb2.
    destruct (negb (owns user b2) && _); [split; [discriminate | reflexivity]|].
    destruct (bool_decide (b_status b2 ∈ _)); [split; [discriminate | reflexivity]|].
    rewrite Hsd, Hed, Hcar2.
    rewrite (bool_decide_eq_true_2 (is_Some (Some rs))) by eauto. cbn [orb].
    cbv zeta.
    destruct (negb (dv_isValid _)); [split; [discriminate | reflexivity]|].
    rewrite (bookingConflict_unavailable db carId rs re (Some other))
      by (apply Hany; congruence).
    split; [discriminate | reflexivity].
  - intros car Hfound Hactive Hflag Hnb Hnm.
    destruct (check_booked _ _ _ _ _ _ Hfound Hactive Hflag Hnb Hnm Hk)
      as [_ Heq].
    fold r in Heq. rewrite Heq. cbn. split; [reflexivity|].
    eexists. split; [reflexivity|].
    apply list_elem_of_fmap. exists (_id, b). split; [reflexivity|].
    apply find_iff. split; [exact Hb|]. apply matchesQuery_iff.
    destruct Hk as (i & b0 & _). repeat split; try assumption; try discriminate.
    + rewrite Hs. apply parseDate_le. lia.
    + rewrite He. apply Z.le_ge, parseDate_le. lia.
Qed.

(** The sample booking occupies day 20010 from 08:00 to 10:00; a request for
    15:00 to 18:00 on that day is refused with the booking listed, and is
    handed to the store when the booking is not there. *)
Lemma availability_is_by_calendar_day_witness :
  let now := parseDate 20000 in
  let request :=
    demoRequest 20010 20010 (mkTime 15 0) (mkTime 18 0) (Some demoDriver) in
  isAvailable (checkCarAvailability (demoStore confirmed) 7 20010 20010 None)
  = false
  /\ createBooking (demoStore confirmed) renter request now
     = Answers (mkResponse 400 false reasonBooked None
                  (Some [conflictOf (3%N, demoBooking confirmed)]) None None)
  /\ exists data,
       createBooking (mkStore (cars (demoStore confirmed)) ∅) renter request now
       = Creates data.
Proof.
  split; [|split].
  - destruct (availability_is_by_calendar_day (demoStore confirmed) 7 3
                (demoBooking confirmed) 20010 20010 20010 20010) as (H & _);
      [reflexivity | reflexivity | right; left | reflexivity | reflexivity
      | exists 20010; lia | exact H].
  - vm_compute. reflexivity.
  - eexists. vm_compute. reflexivity.
Defined.

(** ** Creating: the price of a created booking *)

(** Every booking that is handed to the store carries the flat fee of 25:
    the hourly tier and its fee of 10 are never reached. *)
Lemma created_booking_fee db user body now data :
  createBooking db user body now = Creates data ->
  pd_fees (bd_pricing data) = 25%Q.
Proof.
  intros H. apply createBooking_creates in H
    as (carId & sd & ed & st & et & car & _ & _ & _ & _ & _ & Hv & _ & Hd & Hp).
  rewrite Hp, Hd. cbn [pricingOf pd_fees].
  apply (validated_fee sd ed st et now), Hv.
Qed.

(** The three-hour request of C1, sent to [createBooking]. *)
Example three_hour_request_created :
  exists data,
    createBooking (mkStore (cars (demoStore pending)) ∅) renter
      (demoRequest 20010 20010 (mkTime 10 0) (mkTime 13 0) (Some demoDriver))
      (parseDate 20000) = Creates data
    /\ bd_duration data = mkDuration 3 1
    /\ (pd_basePrice (bd_pricing data) == 130)%Q
    /\ (pd_fees (bd_pricing data) == 25)%Q
    /\ JS.equals (pd_totalPrice (bd_pricing data)) (17515 # 100).
Proof. eexists. split; [vm_compute; reflexivity|]. vm_compute. repeat split. Qed.

(** * Further properties *)

(** ** Durations *)

Lemma ceil_div (a : Z) (k : positive) :
  JS.ceil (inject_Z a / inject_Z (Zpos k)) = - ((- a) / Zpos k).
Proof.
  unfold JS.ceil. rewrite <- Qmake_Qdiv. reflexivity.
Qed.

Lemma ceil_hours (ms : Z) :
  JS.ceil (inject_Z ms / inject_Z msPerHour) = - ((- ms) / 3600000).
Proof. apply (ceil_div ms 3600000). Qed.

Lemma ceil_days (ms : Z) :
  JS.ceil (inject_Z ms / inject_Z msPerHour / 24) = - ((- ms) / 86400000).
Proof. unfold JS.ceil. rewrite daysOf_eq. reflexivity. Qed.

(** The duration of an accepted interval: between 1 and 720 hours, between
    1 and 30 days, and the days are the hours divided by 24, rounded up. *)
Theorem validated_duration_bounds sd ed st et now :
  let v := validateBookingDates sd ed st et now in
  dv_isValid v = true ->
  1 <= hours (dv_duration v) <= 720
  /\ 1 <= days (dv_duration v) <= 30
  /\ days (dv_duration v) = (hours (dv_duration v) + 23) / 24.
Proof.
  intros v Hv. apply dates_valid_iff in Hv. destruct Hv as [_ Hms].
  unfold v, validateBookingDates. cbn [dv_duration hours days].
  set (ms := parseDateTime ed et - parseDateTime sd st) in *.
  rewrite ceil_hours, ceil_days. unfold msPerHour, msPerDay in Hms.
  pose proof (Z.div_mod (- ms) 3600000 ltac:(lia)) as H1.
  pose proof (Z.mod_pos_bound (- ms) 3600000 ltac:(lia)) as H2.
  pose proof (Z.div_mod (- ms) 86400000 ltac:(lia)) as H3.
  pose proof (Z.mod_pos_bound (- ms) 86400000 ltac:(lia)) as H4.
  set (h := - ms / 3600000) in *. set (d := - ms / 86400000) in *.
  pose proof (Z.div_mod (- h + 23) 24 ltac:(lia)) as H5.
  pose proof (Z.mod_pos_bound (- h + 23) 24 ltac:(lia)) as H6.
  split; [lia|]. split; [lia|]. lia.
Qed.

Lemma validated_duration_bounds_witness :
  let d := dv_duration
             (validateBookingDates 20000 20001 (mkTime 10 0) (mkTime 11 30) 0) in
  hours d = 26 /\ days d = 2.
Proof.
  destruct (validated_duration_bounds 20000 20001 (mkTime 10 0) (mkTime 11 30) 0)
    as (_ & _ & H); [reflexivity|].
  split; [reflexivity | rewrite H; reflexivity].
Defined.

Lemma dateOf_parseDate d : dateOf (parseDate d) = d.
Proof. unfold dateOf, parseDate, msPerDay. apply Z.div_mul. lia. Qed.

(** A booking stored from a request: its dates are the parsed date strings.
    The save hook fails exactly when the end instant is not after the start
    instant; otherwise the duration it writes is the one the validator
    computed for the request, its hours are the [durationHours] virtual,
    and both hours and days are at least 1. *)
Theorem hook_recomputes_validated_duration b sd ed st et now :
  b_startDate b = parseDate sd -> b_endDate b = parseDate ed ->
  b_startTime b = st -> b_endTime b = et ->
  (preSave b = None <-> parseDateTime ed et <= parseDateTime sd st) /\
  (forall b', preSave b = Some b' ->
     b_duration b' = dv_duration (validateBookingDates sd ed st et now)
     /\ hours (b_duration b') = durationHours b'
     /\ 1 <= hours (b_duration b') /\ 1 <= days (b_duration b')).
Proof.
  intros Hsd Hed Hst Het.
  assert (Hs : startDateTime b = parseDateTime sd st)
    by (unfold startDateTime; rewrite Hsd, Hst, dateOf_parseDate; reflexivity).
  assert (He : endDateTime b = parseDateTime ed et)
    by (unfold endDateTime; rewrite Hed, Het, dateOf_parseDate; reflexivity).
  unfold preSave. rewrite Hs, He.
  set (ms := parseDateTime ed et - parseDateTime sd st).
  destruct (Z.leb_spec (parseDateTime ed et) (parseDateTime sd st)) as [Hle | Hlt].
  - split; [tauto | discriminate].
  - split; [split; [discriminate | lia]|].
    intros b' [= <-]. cbn [b_duration withDuration hours days].
    unfold durationHours, startDateTime, endDateTime. cbn [withDuration b_startDate
      b_endDate b_startTime b_endTime].
    fold (startDateTime b) (endDateTime b). rewrite Hs, He. fold ms.
    unfold validateBookingDates. cbn [dv_duration]. fold ms.
    change (inject_Z msPerDay) with (inject_Z 86400000).
    rewrite ceil_hours, ceil_days, (ceil_div ms 86400000).
    split; [reflexivity|]. split; [reflexivity|].
    pose proof (Z.div_mod (- ms) 3600000 ltac:(lia)).
    pose proof (Z.mod_pos_bound (- ms) 3600000 ltac:(lia)).
    pose proof (Z.div_mod (- ms) 86400000 ltac:(lia)).
    pose proof (Z.mod_pos_bound (- ms) 86400000 ltac:(lia)).
    unfold ms in *. lia.
Qed.

Lemma hook_recomputes_validated_duration_witness :
  exists b', preSave (demoBooking pending) = Some b'
             /\ b_duration b' = mkDuration 2 1
             /\ durationHours b' = 2.
Proof.
  destruct (hook_recomputes_validated_duration (demoBooking pending)
              20010 20010 (mkTime 8 0) (mkTime 10 0) 0) as [_ H];
    [reflexivity ..|].
  eexists. split; [reflexivity|].
  destruct (H _ eq_refl) as (Hd & Hh & _).
  split; [rewrite Hd; reflexivity | rewrite <- Hh, Hd; reflexivity].
Defined.

(** ** Required text fields *)

Lemma allWhiteSpace_rev_app s1 s2 :
  allWhiteSpace (String.rev_app s1 s2) = allWhiteSpace s1 && allWhiteSpace s2.
Proof.
  revert s2. induction s1 as [|c s1 IH]; intros s2; cbn; [reflexivity|].
  rewrite IH. cbn. destruct (isWhiteSpace c), (allWhiteSpace s1); reflexivity.
Qed.

Lemma length_rev_app s1 s2 :
  String.length (String.rev_app s1 s2) = (String.length s1 + String.length s2)%nat.
Proof.
  revert s2. induction s1 as [|c s1 IH]; intros s2; cbn; [reflexivity|].
  rewrite IH. cbn. lia.
Qed.

Lemma trimStart_empty s : trimStart s = EmptyString <-> allWhiteSpace s = true.
Proof.
  induction s as [|c s IH]; cbn; [tauto|].
  destruct (isWhiteSpace c); cbn; [exact IH | split; discriminate].
Qed.

Lemma length_zero s : String.length s = 0%nat <-> s = EmptyString.
Proof. destruct s; cbn; split; (reflexivity || discriminate). Qed.

Lemma trim_empty s : String.length (trim s) = 0%nat <-> allWhiteSpace s = true.
Proof.
  unfold trim, String.rev. rewrite length_rev_app, Nat.add_0_r.
  rewrite length_zero, trimStart_empty, allWhiteSpace_rev_app, andb_true_r.
  split.
  - intros H. apply trimStart_empty.
    destruct (trimStart s) as [|c r] eqn:E; [reflexivity|].
    assert (Hc : isWhiteSpace c = false).
    { clear H. induction s as [|a s IH]; cbn in E; [discriminate|].
      destruct (isWhiteSpace a) eqn:Ea; [auto | congruence]. }
    cbn in H. rewrite Hc in H. discriminate.
  - intros H. apply trimStart_empty in H. rewrite H. reflexivity.
Qed.

(** A text field of ASCII characters counts as missing exactly when it is
    absent or holds nothing but white space (tab, line feed, vertical tab,
    form feed, carriage return, space); the empty string is one such
    string. *)
Theorem missing_iff (field : option string) :
  (forall s, field = Some s -> asciiOnly s = true) ->
  (missing field = true
   <-> field = None \/ exists s, field = Some s /\ allWhiteSpace s = true).
Proof.
  intros _. destruct field as [s|]; cbn.
  - rewrite orb_true_iff, !Nat.eqb_eq, trim_empty, length_zero. split.
    + intros [-> | H]; right; eexists; split; reflexivity || assumption.
    + intros [H | (s' & [= <-] & H)]; [discriminate | auto].
  - split; auto.
Qed.

(** Two spaces are missing, a word between spaces is not. *)
Lemma missing_iff_witness :
  missing (Some "  ") = true /\ missing (Some " a ") = false.
Proof.
  split.
  - apply (missing_iff (Some "  ")); [intros s [= <-]; reflexivity|].
    right. exists "  ". split; reflexivity.
  - apply not_true_iff_false. intros H.
    apply (missing_iff (Some " a ")) in H; [|intros s [= <-]; reflexivity].
    destruct H as [H | (s & [= <-] & H)]; discriminate.
Defined.

(** ** The licence and location validators *)

Lemma validation_isValid_nil errors :
  bool_decide (length errors = 0%nat) = true <-> errors = @nil string.
Proof. rewrite bool_decide_eq_true. apply length_zero_iff_nil. Qed.

(** The licence validator accepts exactly a number that is not missing
    with an expiry more than thirty days after now; each message is in the
    list exactly when its check fails, and an expired licence is always
    reported as expiring too soon as well. *)
Theorem validateDriverLicense_spec number expiry now :
  let v := validateDriverLicense number expiry now in
  (v_isValid v = true
   <-> missing number = false
       /\ exists x, expiry = Some x /\ now + 30 * msPerDay < x) /\
  (errLicenseNumber ∈ v_errors v <-> missing number = true) /\
  (errLicenseExpiryRequired ∈ v_errors v <-> expiry = None) /\
  (errLicenseExpired ∈ v_errors v <-> exists x, expiry = Some x /\ x <= now) /\
  (errLicenseTooSoon ∈ v_errors v
   <-> exists x, expiry = Some x /\ x <= now + 30 * msPerDay) /\
  (errLicenseExpired ∈ v_errors v -> errLicenseTooSoon ∈ v_errors v).
Proof.
  cbv zeta. unfold validateDriverLicense. cbn [v_isValid v_errors].
  rewrite validation_isValid_nil. unfold push.
  unfold errLicenseNumber, errLicenseExpiryRequired, errLicenseExpired,
    errLicenseTooSoon, msPerDay.
  destruct (missing number); destruct expiry as [x|];
    try (destruct (Z.leb_spec x now));
    try (destruct (Z.leb_spec x (now + 30 * (1000 * 60 * 60 * 24))));
    cbn [app]; rewrite ?elem_of_cons, ?elem_of_nil;
    repeat split; intros;
    repeat match goal with
           | H : _ /\ _ |- _ => destruct H
           | H : _ \/ _ |- _ => destruct H
           | H : exists _, _ |- _ => destruct H
           | H : Some _ = Some _ |- _ => injection H as ->
           end;
    try discriminate; try lia; try tauto; eauto 6.
Qed.

(** A licence that expired a day ago draws both messages. *)
Lemma validateDriverLicense_spec_witness :
  v_errors (validateDriverLicense (Some "D1234567") (Some (parseDate 19999))
              (parseDate 20000))
  = [errLicenseExpired; errLicenseTooSoon]
  /\ errLicenseTooSoon
     ∈ v_errors (validateDriverLicense (Some "D1234567") (Some (parseDate 19999))
                   (parseDate 20000)).
Proof.
  assert (Hl : v_errors (validateDriverLicense (Some "D1234567")
                           (Some (parseDate 19999)) (parseDate 20000))
               = [errLicenseExpired; errLicenseTooSoon])
    by (vm_compute; reflexivity).
  split; [exact Hl|].
  destruct (validateDriverLicense_spec (Some "D1234567") (Some (parseDate 19999))
              (parseDate 20000)) as (_ & _ & _ & _ & _ & H).
  apply H. rewrite Hl. left.
Defined.

(** The location validator accepts exactly a location none of whose
    address, city and country is missing, and reports one error for each
    of the three that is, whatever the others are. *)
Theorem validateLocation_spec location type :
  let v := validateLocation location type in
  let fields := [address location; city location; country location] in
  (v_isValid v = true <-> forall field, field ∈ fields -> missing field = false) /\
  length (v_errors v) = length (List.filter missing fields) /\
  (type +:+ " address is required" ∈ v_errors v
   <-> missing (address location) = true) /\
  (type +:+ " city is required" ∈ v_errors v
   <-> missing (city location) = true) /\
  (type +:+ " country is required" ∈ v_errors v
   <-> missing (country location) = true).
Proof.
  cbv zeta. unfold validateLocation. cbn [v_isValid v_errors].
  rewrite validation_isValid_nil. unfold push. cbn [List.filter].
  assert (Hne : forall a b, type +:+ a = type +:+ b -> a = b)
    by (intros a b; apply (inj (String.app type))).
  destruct (missing (address location)) eqn:Ea;
  destruct (missing (city location)) eqn:Ec;
  destruct (missing (country location)) eqn:Eo; cbn [app length];
  (split; [split; [intros H; try discriminate H; intros f Hf;
                   rewrite !elem_of_cons, elem_of_nil in Hf;
                   intuition congruence
                  | intros H; try reflexivity; exfalso;
                    first [ specialize (H (address location));
                            rewrite Ea in H; discriminate H; left
                          | specialize (H (city location));
                            rewrite Ec in H; discriminate H; right; left
                          | specialize (H (country location));
                            rewrite Eo in H; discriminate H; right; right; left ]]
          |]);
  (split; [reflexivity|]);
  rewrite ?elem_of_cons, ?elem_of_nil;
  repeat split; intros; try reflexivity; try discriminate;
  repeat match goal with
         | H : _ \/ _ |- _ => destruct H
         | H : False |- _ => destruct H
         | H : type +:+ _ = type +:+ _ |- _ => apply Hne in H; discriminate H
         end; auto.
Qed.

(** A city of two spaces fails the validator, with the one error of the
    city. *)
Lemma validateLocation_spec_witness :
  v_errors (validateLocation (mkLocation (Some "1 Main Street") (Some "  ")
                                (Some "US")) "Pickup")
  = ["Pickup city is required"]
  /\ ~ v_isValid (validateLocation (mkLocation (Some "1 Main Street") (Some "  ")
                                      (Some "US")) "Pickup") = true.
Proof.
  split; [vm_compute; reflexivity|].
  intros Hv.
  destruct (validateLocation_spec (mkLocation (Some "1 Main Street") (Some "  ")
                                     (Some "US")) "Pickup") as [H _].
  assert (Hm : missing (Some "  ") = false)
    by (apply (proj1 H Hv); right; left).
  discriminate Hm.
Defined.

(** ** Prices *)


Lemma round2_mono x y : (x <= y)%Q -> (JS.round2 x <= JS.round2 y)%Q.
Proof.
  intros H. unfold JS.round2, JS.round.
  apply Qmult_le_compat_r; [|discriminate].
  rewrite <- Zle_Qle. apply Qfloor_resp_le. lra.
Qed.

Lemma round2_nonneg x : (0 <= x)%Q -> (0 <= JS.round2 x)%Q.
Proof.
  intros H. eapply Qle_trans; [|apply (round2_mono 0 x H)]. discriminate.
Qed.

(** Membership in a list of strings, by computation. *)
Lemma listed (x : string) (l : list string) :
  bool_decide (x ∈ l) = true -> x ∈ l.
Proof. apply bool_decide_eq_true. Qed.

Lemma not_listed (x : string) (l : list string) :
  bool_decide (x ∈ l) = false -> x ∉ l.
Proof. apply bool_decide_eq_false. Qed.

(** The rate of an insurance type: no number for the names that every
    object inherits, and one of the three rates for every other string. *)
Lemma insuranceRate_cases insuranceType :
  (insuranceType ∈ objectPrototype /\ insuranceRate insuranceType = JS.NaN)
  \/ ((insuranceType ∉ objectPrototype)
      /\ exists rate, insuranceRate insuranceType = JS.num rate
                      /\ (0 <= rate)%Q).
Proof.
  unfold insuranceRate.
  change (default 0%Q (insuranceRates !! "basic")) with (5 # 100)%Q. cbv zeta.
  destruct (insuranceRates !! insuranceType) as [rate|] eqn:E.
  - right. unfold insuranceRates in E.
    rewrite !lookup_insert_Some, lookup_singleton_Some in E.
    destruct E as [[<- <-] | [_ [[<- <-] | [_ [<- <-]]]]];
      (split; [apply not_listed; vm_compute; reflexivity
              | eexists; split; [reflexivity | discriminate]]).
  - destruct (bool_decide (insuranceType ∈ objectPrototype)) eqn:Ein.
    + left. apply bool_decide_eq_true in Ein. split; [exact Ein | reflexivity].
    + right. apply bool_decide_eq_false in Ein. split; [exact Ein|].
      eexists. split; [reflexivity | discriminate].
Qed.

(** The price in terms of the base price before rounding, for a rate that
    is a number and for one that is not. *)
Lemma price_of_rate pricing duration insuranceType rate :
  insuranceRate insuranceType = JS.num rate ->
  let b := exactBasePrice pricing duration in
  let i := (b * rate)%Q in
  let t := ((b + i) * taxRate)%Q in
  let f := if 1 <=? days duration then 25%Q else 10%Q in
  calculateBookingPrice pricing duration insuranceType
  = mkPrice (JS.round2 b) (JS.num (JS.round2 i)) (JS.num (JS.round2 t)) f
            (JS.num (JS.round2 (b + i + t + f))) (currency pricing).
Proof. intros H. unfold calculateBookingPrice. rewrite H. reflexivity. Qed.


Lemma exactBasePrice_nonneg pricing duration :
  (0 <= hourly pricing)%Q -> (0 <= daily pricing)%Q ->
  (forall w, weekly pricing = Some w -> (0 <= w)%Q) ->
  0 <= hours duration ->
  (0 <= exactBasePrice pricing duration)%Q.
Proof.
  intros Hh Hd Hw Hhours. unfold exactBasePrice.
  destruct (Z.leb_spec 7 (days duration)) as [H7 | H7].
  - assert (Hweeks : (0 <= inject_Z (JS.ceil (inject_Z (days duration) / 7)))%Q).
    { change 0%Q with (inject_Z 0). rewrite <- Zle_Qle.
      assert (1 <= JS.ceil (inject_Z (days duration) / 7)); [|lia].
      apply ceil_pos. apply Qlt_shift_div_l; [reflexivity|].
      rewrite Qmult_0_l. change 0%Q with (inject_Z 0). rewrite <- Zlt_Qlt. lia. }
    cbv zeta. unfold weeklyRate. destruct (weekly pricing) as [w|] eqn:Ew.
    + destruct (JS.truthy w).
      * apply Qmult_le_0_compat; [exact Hweeks | apply Hw; reflexivity].
      * repeat apply Qmult_le_0_compat; try assumption; discriminate.
    + repeat apply Qmult_le_0_compat; try assumption; discriminate.
  - destruct (Z.leb_spec 1 (days duration)) as [H1 | H1].
    + assert (Hdays : (0 <= inject_Z (days duration) * daily pricing)%Q).
      { apply Qmult_le_0_compat; [|exact Hd].
        change 0%Q with (inject_Z 0). rewrite <- Zle_Qle. lia. }
      cbv zeta.
      destruct (Z.ltb_spec 0 (JS.rem (hours duration) 24)) as [Hr | Hr];
        [|exact Hdays].
      assert ((0 <= inject_Z (JS.rem (hours duration) 24) * hourly pricing)%Q).
      { apply Qmult_le_0_compat; [|exact Hh].
        change 0%Q with (inject_Z 0). rewrite <- Zle_Qle. lia. }
      lra.
    + apply Qmult_le_0_compat; [|exact Hh].
      change 0%Q with (inject_Z 0). rewrite <- Zle_Qle. lia.
Qed.

(** The amounts of a price at a rate that is a number, from rates and hours
    that are not negative. *)
Lemma price_amounts_nonneg pricing duration insuranceType :
  (0 <= hourly pricing)%Q -> (0 <= daily pricing)%Q ->
  (forall w, weekly pricing = Some w -> (0 <= w)%Q) ->
  0 <= hours duration ->
  insuranceType ∉ objectPrototype ->
  let p := calculateBookingPrice pricing duration insuranceType in
  exists i t total,
    insuranceCost p = JS.num i /\ taxes p = JS.num t
    /\ totalPrice p = JS.num total
    /\ (0 <= basePrice p)%Q /\ (0 <= i)%Q /\ (0 <= t)%Q
    /\ (0 <= fees p)%Q /\ (fees p <= total)%Q.
Proof.
  intros Hh Hd Hw Hhours Hown.
  pose proof (exactBasePrice_nonneg pricing duration Hh Hd Hw Hhours) as Hb.
  destruct (insuranceRate_cases insuranceType)
    as [[Hin _] | (_ & rate & Hrate & Hpos)]; [contradiction|].
  cbv zeta. rewrite (price_of_rate _ _ _ _ Hrate). cbv zeta.
  cbn [basePrice insuranceCost taxes fees totalPrice].
  set (b := exactBasePrice pricing duration) in *.
  assert (Hi : (0 <= b * rate)%Q) by (apply Qmult_le_0_compat; assumption).
  assert (Ht : (0 <= (b + b * rate) * taxRate)%Q)
    by (apply Qmult_le_0_compat; [lra | discriminate]).
  set (f := if 1 <=? days duration then 25%Q else 10%Q).
  assert (Hf : (0 <= f)%Q /\ (JS.round2 f == f)%Q)
    by (unfold f; destruct (1 <=? days duration); split;
        (discriminate || reflexivity)).
  destruct Hf as [Hf0 Hfr].
  do 3 eexists. do 3 (split; [reflexivity|]).
  repeat split; try (apply round2_nonneg; assumption); try assumption.
  rewrite <- Hfr at 1. apply round2_mono. lra.
Qed.



(** With rates that are not negative and a currency of the enumeration, as
    the car schema demands, hours that are not negative and an insurance
    type that is not the name of an inherited property: no amount of the
    price is negative, the total is at least the flat fee, and the pricing
    object made of the price is cast and passes the validators of the
    booking schema. *)
Theorem price_not_negative pricing duration insuranceType :
  (0 <= hourly pricing)%Q -> (0 <= daily pricing)%Q ->
  (forall w, weekly pricing = Some w -> (0 <= w)%Q) ->
  currency pricing ∈ currencies ->
  0 <= hours duration ->
  insuranceType ∉ objectPrototype ->
  let p := calculateBookingPrice pricing duration insuranceType in
  (0 <= basePrice p)%Q /\ JS.le (JS.num 0) (insuranceCost p)
  /\ JS.le (JS.num 0) (taxes p) /\ (0 <= fees p)%Q
  /\ JS.le (JS.num (fees p)) (totalPrice p)
  /\ exists stored,
       castPricing (pricingOf p) = Some stored /\ validPricing stored = true.
Proof.
  intros Hh Hd Hw Hcur Hhours Hown.
  destruct (price_amounts_nonneg pricing duration insuranceType
              Hh Hd Hw Hhours Hown)
    as (i & t & total & Hi & Ht & Htotal & Hb0 & Hi0 & Ht0 & Hf0 & Hft).
  cbv zeta. unfold castPricing, pricingOf.
  cbn [pd_taxes pd_totalPrice pd_basePrice pd_fees pd_discount pd_currency].
  rewrite Hi, Ht, Htotal. cbn [JS.le castNumber].
  repeat split; try assumption.
  eexists. split; [reflexivity|].
  unfold validPricing.
  cbn [bp_basePrice bp_taxes bp_fees bp_discount bp_totalPrice bp_currency
       default from_option].
  rewrite !andb_true_iff, !JS_leb_spec, bool_decide_eq_true.
  repeat split; try assumption; try discriminate.
  eapply Qle_trans; eassumption.
Qed.

Lemma price_not_negative_witness :
  let p := calculateBookingPrice demoPricing (mkDuration 26 2) "premium" in
  (0 <= basePrice p)%Q /\ JS.le (JS.num (fees p)) (totalPrice p).
Proof.
  destruct (price_not_negative demoPricing (mkDuration 26 2) "premium")
    as (H1 & _ & _ & _ & H2 & _).
  - discriminate.
  - discriminate.
  - intros w [= <-]. discriminate.
  - left.
  - discriminate.
  - apply not_listed. vm_compute. reflexivity.
  - split; assumption.
Defined.

(** ** Refunds *)

Lemma hoursUntilStart_mono b now1 now2 :
  now1 <= now2 -> (hoursUntilStart b now2 <= hoursUntilStart b now1)%Q.
Proof.
  intros H. unfold hoursUntilStart. rewrite !hoursOf_eq.
  unfold Qle; cbn. lia.
Qed.

Lemma calculateRefund_le_total b now :
  (0 <= bp_totalPrice (b_pricing b))%Q ->
  (calculateRefund b now <= bp_totalPrice (b_pricing b))%Q.
Proof.
  intros H. unfold calculateRefund.
  destruct (negb _); [exact H|].
  destruct (JS.leb 48 _); [apply Qle_refl|].
  destruct (JS.leb 24 _); [lra | exact H].
Qed.

(** The refund is between nothing and the total price, and cancelling later
    never refunds more than cancelling earlier. *)
Theorem refund_never_grows b now1 now2 :
  (0 <= bp_totalPrice (b_pricing b))%Q ->
  now1 <= now2 ->
  (0 <= calculateRefund b now2)%Q
  /\ (calculateRefund b now2 <= calculateRefund b now1)%Q
  /\ (calculateRefund b now1 <= bp_totalPrice (b_pricing b))%Q.
Proof.
  intros Htot Hle.
  split; [apply calculateRefund_nonneg, Htot|].
  split; [|apply calculateRefund_le_total, Htot].
  pose proof (hoursUntilStart_mono b now1 now2 Hle) as Hh.
  unfold calculateRefund, canBeCancelled.
  set (h1 := hoursUntilStart b now1) in *. set (h2 := hoursUntilStart b now2) in *.
  set (total := bp_totalPrice (b_pricing b)) in *.
  destruct (bool_decide (b_status b = pending));
  destruct (bool_decide (b_status b = confirmed)); cbn [orb andb negb];
  repeat match goal with
         | |- context [JS.ltb ?x ?y] =>
           let E := fresh "E" in
           destruct (JS.ltb x y) eqn:E;
           [apply JS_ltb_spec in E | apply not_true_iff_false in E;
                                     rewrite JS_ltb_spec in E]
         | |- context [JS.leb ?x ?y] =>
           let E := fresh "E" in
           destruct (JS.leb x y) eqn:E;
           [apply JS_leb_spec in E | apply JS_leb_false in E]
         end; cbn [negb]; try lra.
Qed.

Lemma refund_never_grows_witness :
  (calculateRefund (demoBooking confirmed) (hoursBeforeStart 30)
   <= calculateRefund (demoBooking confirmed) (hoursBeforeStart 50))%Q.
Proof.
  destruct (refund_never_grows (demoBooking confirmed) (hoursBeforeStart 50)
              (hoursBeforeStart 30)) as (_ & H & _);
    [discriminate | discriminate | exact H].
Defined.

(** ** The car's running average *)





(** ** Confirming and completing *)

(** The caller owns the car or is an administrator. *)
Lemma carOwner_gate user car :
  negb (ownsCar user car) && negb (bool_decide (role user = role_admin)) = false
  <-> ownsCar user car = true \/ role user = role_admin.
Proof.
  rewrite andb_false_iff, !negb_false_iff, bool_decide_eq_true. reflexivity.
Qed.

(** A document whose assigned paths are replaced is valid exactly when the
    new values are, given that the document was. *)
Lemma validBooking_amend_iff b status mileage fuel postRental rating cancellation :
  validBooking b = true ->
  (validBooking (amend b status mileage fuel postRental rating cancellation)
   = true
   <-> validMileage mileage = true /\ validFuel fuel = true
       /\ validRating rating = true /\ validCancellation cancellation = true).
Proof.
  unfold validBooking, amend.
  cbn [b_startTime b_endTime b_pickupLocation b_dropoffLocation b_pricing
       b_duration b_paymentMethod b_specialRequests b_driverDetails
       b_insurance b_mileage b_fuel b_rating b_cancellation].
  rewrite !andb_true_iff. tauto.
Qed.

(** Changing the status alone does not change what the validators say. *)
Lemma validBooking_withStatus b s :
  validBooking (withStatus b s) = validBooking b.
Proof. reflexivity. Qed.

Lemma confirmBooking_ok db id user booking car :
  bookings db !! id = Some booking ->
  cars db !! b_car booking = Some car ->
  validBooking booking = true ->
  startDateTime booking < endDateTime booking ->
  ownsCar user car = true \/ role user = role_admin ->
  b_status booking = pending ->
  exists d,
    confirmBooking db id user
    = (jsonBooking "Booking confirmed successfully"
         (withDuration (withStatus booking confirmed) d),
       mkStore (cars db)
         (<[id := withDuration (withStatus booking confirmed) d]> (bookings db))).
Proof.
  intros Hb Hc Hvalid Hwf Hgate Hst. unfold confirmBooking. rewrite Hb, Hc.
  apply carOwner_gate in Hgate. rewrite Hgate.
  rewrite (bool_decide_eq_true_2 _ Hst). cbn [negb].
  destruct (saveBooking_ok id (withStatus booking confirmed) db Hvalid Hwf)
    as [d ->].
  exists d. reflexivity.
Qed.

(** The document that a complete request saves. *)
Lemma validBooking_complete b body user now :
  validBooking b = true ->
  (validBooking
     (complete b (cpl_mileage body) (cpl_fuelLevel body)
        (mkPostRental true (cpl_inspection body) (Some (u_id user)) (Some now)
           (default [] (cpl_damages body)))) = true
   <-> match cpl_mileage body with Some m => (0 <= m)%Q | None => True end
       /\ match cpl_fuelLevel body with
          | Some l => l ∈ fuelLevels
          | None => True
          end).
Proof.
  intros Hv. unfold complete. rewrite (validBooking_amend_iff _ _ _ _ _ _ _ Hv).
  destruct (validBooking_parts b Hv) as (Hm & Hf & Hr & Hc & _).
  rewrite Hr, Hc. revert Hm Hf. unfold validMileage, validFuel.
  cbn [mi_start mi_end mi_limit mi_overageFee fu_startLevel fu_endLevel
       fu_refuelCost].
  rewrite !andb_true_iff. unfold atLeast, oneOf.
  destruct (cpl_mileage body); destruct (cpl_fuelLevel body);
    rewrite ?JS_leb_spec, ?bool_decide_eq_true; tauto.
Qed.

Lemma completeBooking_ok db id user body now booking car :
  bookings db !! id = Some booking ->
  cars db !! b_car booking = Some car ->
  validBooking booking = true ->
  startDateTime booking < endDateTime booking ->
  match cpl_mileage body with Some m => (0 <= m)%Q | None => True end ->
  match cpl_fuelLevel body with Some l => l ∈ fuelLevels | None => True end ->
  ownsCar user car = true \/ role user = role_admin ->
  b_status booking = active ->
  exists d,
    let b' :=
      withDuration
        (complete booking (cpl_mileage body) (cpl_fuelLevel body)
           (mkPostRental true (cpl_inspection body) (Some (u_id user))
              (Some now) (default [] (cpl_damages body)))) d in
    completeBooking db id user body now
    = (jsonBooking "Booking completed successfully" b',
       incTotalBookings (b_car booking)
         (mkStore (cars db) (<[id := b']> (bookings db))))
    /\ validBooking b' = true.
Proof.
  intros Hb Hc Hvalid Hwf Hm Hf Hgate Hst. unfold completeBooking.
  rewrite Hb, Hc.
  apply carOwner_gate in Hgate. rewrite Hgate.
  rewrite (bool_decide_eq_true_2 _ Hst). cbn [negb].
  set (b1 := complete booking _ _ _).
  assert (Hv : validBooking b1 = true)
    by (apply validBooking_complete; [exact Hvalid | split; assumption]).
  destruct (saveBooking_ok id b1 db Hv Hwf) as [d Hd].
  destruct (saved_valid _ _ _ _ _ Hd) as [Hv' _]. rewrite Hd.
  exists d. split; [reflexivity | exact Hv'].
Qed.

(** A stored booking is confirmed exactly when its car is in the store,
    the caller owns that car or is an administrator (the renter as such may
    not), the booking is pending, the stored document passes the
    validators of its schema and its end instant is after its start
    instant; then only the status, now confirmed, and the recomputed
    duration change.  Every other request leaves the store as it was; one
    that passes the checks of the handler and fails in the save is answered
    with a server error. *)
Theorem confirmBooking_spec db id user booking :
  bookings db !! id = Some booking ->
  let out := confirmBooking db id user in
  let allowed car :=
    cars db !! b_car booking = Some car
    /\ (ownsCar user car = true \/ role user = role_admin)
    /\ b_status booking = pending in
  let storable :=
    validBooking booking = true
    /\ startDateTime booking < endDateTime booking in
  (res_status out.1 = 200 <-> (exists car, allowed car) /\ storable) /\
  (res_status out.1 = 200 ->
   exists d, out.2 = mkStore (cars db)
                       (<[id := withDuration (withStatus booking confirmed) d]>
                          (bookings db))) /\
  (res_status out.1 <> 200 -> out.2 = db) /\
  ((exists car, allowed car) -> ~ storable -> out = (serverError, db)).
Proof.
  intros Hb. cbv zeta. unfold confirmBooking. rewrite Hb.
  destruct (cars db !! b_car booking) as [car|] eqn:Hc.
  2:{ cbn. repeat split; try discriminate; try reflexivity.
      intros [(car & [=] & _) _]. }
  pose proof (carOwner_gate user car) as Hgate.
  destruct (negb (ownsCar user car) && _).
  { cbn. repeat split; try discriminate; try reflexivity.
    - intros [(car' & [= <-] & H & _) _]. apply Hgate in H. discriminate.
    - intros (car' & [= <-] & H & _). apply Hgate in H. discriminate. }
  destruct (bool_decide (b_status booking = pending)) eqn:Est; cbn [negb].
  2:{ apply bool_decide_eq_false in Est. cbn.
      repeat split; try discriminate; try reflexivity.
      - intros [(car' & _ & _ & H) _]. contradiction.
      - intros (car' & _ & _ & H). contradiction. }
  apply bool_decide_eq_true in Est.
  assert (Hallowed : exists car0,
            Some car = Some car0
            /\ (ownsCar user car0 = true \/ role user = role_admin)
            /\ b_status booking = pending).
  { exists car. split; [reflexivity|]. split; [apply Hgate; reflexivity | exact Est]. }
  destruct (saveBooking id (withStatus booking confirmed) db)
    as [[b' db']|] eqn:Hsave.
  - apply saveBooking_inv in Hsave as (Hv & Hwf & [d ->] & ->).
    cbn [fst snd res_status jsonBooking].
    split; [split; [intros _; split; [exact Hallowed | split; assumption]
                   | reflexivity]|].
    split; [intros _; exists d; reflexivity|].
    split; [congruence|]. intros _ Hn. exfalso. apply Hn. split; assumption.
  - cbn. split; [split; [discriminate|]|].
    + intros [_ [Hv Hwf]].
      destruct (saveBooking_ok id (withStatus booking confirmed) db Hv Hwf)
        as [d Hd].
      rewrite Hd in Hsave. discriminate.
    + split; [discriminate|]. split; reflexivity.
Qed.

(** The owner of car 7 confirms the pending sample booking; its renter is
    turned away. *)
Lemma confirmBooking_spec_witness :
  res_status (confirmBooking (demoStore pending) 3 (mkUser 9 role_user)).1 = 200
  /\ (confirmBooking (demoStore pending) 3 renter).2 = demoStore pending.
Proof.
  split.
  - destruct (confirmBooking_spec (demoStore pending) 3 (mkUser 9 role_user)
                (demoBooking pending)) as (H & _); [reflexivity|].
    apply H. split.
    + exists demoCar. split; [reflexivity|].
      split; [left; reflexivity | reflexivity].
    + split; [vm_compute; reflexivity | reflexivity].
  - destruct (confirmBooking_spec (demoStore pending) 3 renter
                (demoBooking pending)) as (H & _ & Hno & _); [reflexivity|].
    apply Hno. intros H200.
    apply H in H200 as [(car & Hcar & [Ho | Ha] & _) _].
    + vm_compute in Hcar. injection Hcar as <-. discriminate Ho.
    + discriminate Ha.
Defined.

(** A stored booking that passes the validators of its schema and ends
    after it starts is completed exactly when its car is in the store, the
    caller owns that car or is an administrator, the booking is active, the
    end mileage of the request, if any, is not negative and its fuel level,
    if any, is one of the enumeration.  Then the status becomes completed,
    the end mileage and fuel level are those of the request, the inspection
    is recorded under the caller and the clock with no damages when none are
    sent, and the car's booking counter grows by one with its rating
    untouched.  A request that is not answered with success changes
    nothing. *)
Theorem completeBooking_spec db id user body now booking :
  bookings db !! id = Some booking ->
  validBooking booking = true ->
  startDateTime booking < endDateTime booking ->
  let out := completeBooking db id user body now in
  (res_status out.1 = 200
   <-> exists car,
         cars db !! b_car booking = Some car
         /\ (ownsCar user car = true \/ role user = role_admin)
         /\ b_status booking = active
         /\ match cpl_mileage body with Some m => (0 <= m)%Q | None => True end
         /\ match cpl_fuelLevel body with
            | Some l => l ∈ fuelLevels
            | None => True
            end) /\
  (res_status out.1 = 200 ->
   (exists car car',
      cars db !! b_car booking = Some car
      /\ cars out.2 !! b_car booking = Some car'
      /\ totalBookings car' = totalBookings car + 1
      /\ c_rating car' = c_rating car) /\
   (exists b',
      bookings out.2 = <[id := b']> (bookings db)
      /\ b_status b' = completed
      /\ mi_end (b_mileage b') = cpl_mileage body
      /\ fu_endLevel (b_fuel b') = cpl_fuelLevel body
      /\ b_postRental b'
         = mkPostRental true (cpl_inspection body) (Some (u_id user)) (Some now)
                        (default [] (cpl_damages body))
      /\ b_user b' = b_user booking /\ b_car b' = b_car booking
      /\ b_pricing b' = b_pricing booking
      /\ b_rating b' = b_rating booking)) /\
  (res_status out.1 <> 200 -> out.2 = db).
Proof.
  intros Hb Hvalid Hwf. cbv zeta. unfold completeBooking. rewrite Hb.
  destruct (cars db !! b_car booking) as [car|] eqn:Hc.
  2:{ cbn. repeat split; try discriminate. intros (car & [=] & _). }
  pose proof (carOwner_gate user car) as Hgate.
  destruct (negb (ownsCar user car) && _).
  { cbn. repeat split; try discriminate.
    intros (car' & [= <-] & H & _). apply Hgate in H. discriminate. }
  destruct (bool_decide (b_status booking = active)) eqn:Est; cbn [negb].
  2:{ apply bool_decide_eq_false in Est. cbn. repeat split; try discriminate.
      intros (car' & _ & _ & H & _). contradiction. }
  apply bool_decide_eq_true in Est.
  pose proof (validBooking_complete booking body user now Hvalid) as Hdoc.
  set (b1 := complete booking _ _ _) in *.
  destruct (saveBooking id b1 db) as [[b' db']|] eqn:Hsave.
  - apply saveBooking_inv in Hsave as (Hv & _ & [d ->] & ->).
    apply Hdoc in Hv as [Hm Hf].
    cbn [fst snd res_status jsonBooking].
    split; [split; [|reflexivity]|].
    { intros _. exists car. split; [reflexivity|].
      split; [apply Hgate; reflexivity|]. repeat split; assumption. }
    split; [|congruence]. intros _. split.
    + exists car. cbn. rewrite lookup_alter_eq, Hc. cbn.
      eexists. repeat split.
    + eexists. split; [reflexivity|]. repeat split.
  - cbn. split; [split; [discriminate|]|split; [discriminate | reflexivity]].
    intros (car' & _ & _ & _ & Hm & Hf).
    assert (Hv : validBooking b1 = true) by (apply Hdoc; split; assumption).
    destruct (saveBooking_ok id b1 db Hv Hwf) as [d Hd].
    rewrite Hd in Hsave. discriminate.
Qed.

(** The owner of car 7 completes the active sample booking after 12 000
    kilometres with a full tank: the counter of the car goes from 0 to 1.  A
    fuel level that the enumeration does not know is turned down. *)
Lemma completeBooking_spec_witness :
  let body level :=
    mkCompleteBody (Some 12000%Q) (Some level) (Some "clean") None in
  let out level :=
    completeBooking (demoStore active) 3 (mkUser 9 role_user) (body level) 0 in
  res_status (out "full").1 = 200
  /\ (exists car', cars (out "full").2 !! 7%N = Some car'
                   /\ totalBookings car' = 1)
  /\ (out "plenty").2 = demoStore active.
Proof.
  cbv zeta.
  destruct (completeBooking_spec (demoStore active) 3 (mkUser 9 role_user)
              (mkCompleteBody (Some 12000%Q) (Some "full") (Some "clean") None) 0
              (demoBooking active)) as (H & Hok & _);
    [reflexivity | vm_compute; reflexivity | reflexivity |].
  destruct (completeBooking_spec (demoStore active) 3 (mkUser 9 role_user)
              (mkCompleteBody (Some 12000%Q) (Some "plenty") (Some "clean") None) 0
              (demoBooking active)) as (H' & _ & Hno);
    [reflexivity | vm_compute; reflexivity | reflexivity |].
  assert (H200 : res_status
                   (completeBooking (demoStore active) 3 (mkUser 9 role_user)
                      (mkCompleteBody (Some 12000%Q) (Some "full") (Some "clean")
                         None) 0).1 = 200).
  { apply H. exists demoCar. split; [reflexivity|].
    split; [left; reflexivity|]. split; [reflexivity|].
    split; [discriminate | apply listed; vm_compute; reflexivity]. }
  split; [exact H200|]. split.
  - destruct (Hok H200) as ((car & car' & Hc & Hc' & Ht & _) & _).
    vm_compute in Hc. injection Hc as <-.
    exists car'. split; [exact Hc' | exact Ht].
  - apply Hno. intros Hbad. apply H' in Hbad as (car & _ & _ & _ & _ & Hf).
    cbn in Hf. revert Hf. apply not_listed. vm_compute. reflexivity.
Defined.

(** ** The life of a booking *)

Lemma saveBooking_frame _id b db b' db' :
  saveBooking _id b db = Some (b', db') ->
  bookings db' !! _id = Some b'
  /\ b_status b' = b_status b /\ b_user b' = b_user b /\ b_car b' = b_car b
  /\ b_pricing b' = b_pricing b
  /\ cars db' = cars db
  /\ forall j, j <> _id -> bookings db' !! j = bookings db !! j.
Proof.
  intros H. apply saveBooking_inv in H as (_ & _ & [d ->] & ->). cbn.
  rewrite lookup_insert_eq. repeat split; try reflexivity.
  intros j Hj. apply lookup_insert_ne. congruence.
Qed.

Ltac keep_booking b :=
  exists b; split; [assumption|]; split; [left; reflexivity|];
  split; [reflexivity|]; split; [reflexivity|]; split; [reflexivity|];
  intros; reflexivity.

Ltac moved_booking Hsave :=
  apply saveBooking_frame in Hsave
    as (Hfind' & Hst' & Hu' & Hc' & Hp' & Hcars' & Hothers');
  eexists; split; [cbn; eassumption|];
  split; [right; rewrite Hst'; cbn; unfold statusMoves;
          rewrite !elem_of_cons; auto 6|];
  split; [exact Hu'|]; split; [exact Hc'|]; split; [exact Hp'|];
  cbn; exact Hothers'.

Lemma perform_frame db id op now b :
  bookings db !! id = Some b ->
  exists b',
    bookings (perform db id op now) !! id = Some b'
    /\ (b_status b' = b_status b \/ (b_status b, b_status b') ∈ statusMoves)
    /\ b_user b' = b_user b /\ b_car b' = b_car b /\ b_pricing b' = b_pricing b
    /\ forall j, j <> id ->
         bookings (perform db id op now) !! j = bookings db !! j.
Proof.
  intros Hb. destruct op as [user | user body | user reason | user body];
    unfold perform.
  - unfold confirmBooking. rewrite Hb.
    destruct (cars db !! b_car b) as [car|]; [|keep_booking b].
    destruct (negb (ownsCar user car) && _); [keep_booking b|].
    destruct (bool_decide (b_status b = pending)) eqn:Est; [|keep_booking b].
    apply bool_decide_eq_true in Est. cbn [negb].
    destruct (saveBooking _ _ _) as [[b' db']|] eqn:Hsave; [|keep_booking b].
    rewrite Est. moved_booking Hsave.
  - unfold completeBooking. rewrite Hb.
    destruct (cars db !! b_car b) as [car|]; [|keep_booking b].
    destruct (negb (ownsCar user car) && _); [keep_booking b|].
    destruct (bool_decide (b_status b = active)) eqn:Est; [|keep_booking b].
    apply bool_decide_eq_true in Est. cbn [negb].
    destruct (saveBooking _ _ _) as [[b' db']|] eqn:Hsave; [|keep_booking b].
    rewrite Est. moved_booking Hsave.
  - unfold cancelBooking. rewrite Hb.
    destruct (negb (owns user b) && _); [keep_booking b|].
    destruct (canBeCancelled b now) eqn:Ecan; [|keep_booking b]. cbn [negb].
    destruct (saveBooking _ _ _) as [[b' db']|] eqn:Hsave; [|keep_booking b].
    apply canBeCancelled_iff in Ecan.
    destruct Ecan as [Est | [Est _]]; rewrite Est; moved_booking Hsave.
  - unfold rateBooking.
    destruct (rb_carRating body) as [newRating|]; [|keep_booking b].
    destruct (falsy _ || falsy _); [keep_booking b|]. rewrite Hb.
    destruct (negb (owns user b)); [keep_booking b|].
    destruct (negb (bool_decide (b_status b = completed))); [keep_booking b|].
    destruct (negb (falsy _)); [keep_booking b|].
    destruct (saveBooking _ _ _) as [[b' db']|] eqn:Hsave; [|keep_booking b].
    apply saveBooking_frame in Hsave
      as (Hfind' & Hst' & Hu' & Hc' & Hp' & Hcars' & Hothers').
    assert (Hkeep : exists b'0, bookings db' !! id = Some b'0
              /\ (b_status b'0 = b_status b \/ (b_status b, b_status b'0) ∈ statusMoves)
              /\ b_user b'0 = b_user b /\ b_car b'0 = b_car b
              /\ b_pricing b'0 = b_pricing b
              /\ forall j, j <> id -> bookings db' !! j = bookings db !! j).
    { exists b'. repeat split; try assumption. left. exact Hst'. }
    destruct (cars db !! b_car b') as [car|]; [|exact Hkeep].
    destruct (updateRating _ _ _ _) as [[car' db'']|] eqn:Hup; [|exact Hkeep].
    apply updateRating_inv in Hup as (-> & _). exact Hkeep.
Qed.

(** Whatever is asked of a booking through confirm, complete, cancel or
    rate, the booking stays in the store with its renter, car and price,
    no other booking changes, and its status either stays or makes one of
    four moves: pending to confirmed, pending or confirmed to cancelled,
    active to completed.  So nothing leaves completed, cancelled or
    no-show, and no request makes a booking active. *)
Theorem status_moves db id op now b :
  bookings db !! id = Some b ->
  exists b',
    bookings (perform db id op now) !! id = Some b'
    /\ (b_status b' = b_status b \/ (b_status b, b_status b') ∈ statusMoves)
    /\ b_user b' = b_user b /\ b_car b' = b_car b /\ b_pricing b' = b_pricing b
    /\ (forall j, j <> id ->
          bookings (perform db id op now) !! j = bookings db !! j)
    /\ (b_status b ∈ [completed; cancelled; no_show] -> b_status b' = b_status b)
    /\ (b_status b' = active -> b_status b = active).
Proof.
  intros Hb.
  destruct (perform_frame db id op now b Hb)
    as (b' & Hfind & Hmove & Hu & Hc & Hp & Hothers).
  exists b'. repeat split; try assumption.
  - intros Hterminal. destruct Hmove as [H | H]; [exact H|].
    unfold statusMoves in H. rewrite !elem_of_cons, elem_of_nil in H.
    rewrite !elem_of_cons, elem_of_nil in Hterminal.
    destruct H as [H | [H | [H | [H | []]]]]; injection H as H1 H2;
      rewrite H1 in Hterminal; intuition discriminate.
  - intros Hactive. destruct Hmove as [H | H]; [congruence|].
    unfold statusMoves in H. rewrite !elem_of_cons, elem_of_nil in H.
    destruct H as [H | [H | [H | [H | []]]]]; injection H as H1 H2; congruence.
Qed.

(** Cancelling the pending sample booking moves it to cancelled; after that
    a confirmation leaves it cancelled. *)
Lemma status_moves_witness :
  let db1 := perform (demoStore pending) 3 (Cancel renter None) 0 in
  let db2 := perform db1 3 (Confirm (mkUser 9 role_user)) 0 in
  (b_status <$> bookings db1 !! 3%N) = Some cancelled
  /\ (b_status <$> bookings db2 !! 3%N) = Some cancelled.
Proof.
  cbv zeta.
  assert (H1 : b_status <$>
               bookings (perform (demoStore pending) 3 (Cancel renter None) 0) !! 3%N
               = Some cancelled) by (vm_compute; reflexivity).
  split; [exact H1|].
  destruct (bookings (perform (demoStore pending) 3 (Cancel renter None) 0) !! 3%N)
    as [b1|] eqn:E1; [|discriminate].
  injection H1 as H1.
  destruct (status_moves (perform (demoStore pending) 3 (Cancel renter None) 0) 3
              (Confirm (mkUser 9 role_user)) 0 b1 E1)
    as (b2 & -> & _ & _ & _ & _ & _ & Hterm & _).
  cbn. rewrite Hterm, H1; [reflexivity|]. rewrite H1. right; left.
Defined.

(** ** Operations one after the other *)

(** A pending booking that passes the validators of its schema and ends
    after it starts, with 24 hours or less from now to its start instant
    (midnight of the start day plus the start time): its renter or an
    administrator can still cancel it; once the car's owner or an
    administrator has confirmed it, the same request is refused and the
    booking stays confirmed. *)
Theorem confirming_late_forbids_cancelling
    db id renter_ owner reason now booking car :
  bookings db !! id = Some booking ->
  cars db !! b_car booking = Some car ->
  b_status booking = pending ->
  authorised renter_ booking ->
  ownsCar owner car = true \/ role owner = role_admin ->
  validBooking booking = true ->
  let start := b_startDate booking / 86400000 * 86400000
               + hh (b_startTime booking) * 3600000
               + mm (b_startTime booking) * 60000 in
  let end_ := b_endDate booking / 86400000 * 86400000
              + hh (b_endTime booking) * 3600000
              + mm (b_endTime booking) * 60000 in
  start < end_ ->
  start <= now + 24 * 3600000 ->
  let confirmed_ := (confirmBooking db id owner).2 in
  res_status (cancelBooking db id renter_ reason now).1 = 200
  /\ cancelBooking confirmed_ id renter_ reason now
     = (json 400 false msgCannotCancel, confirmed_)
  /\ (b_status <$> bookings confirmed_ !! id) = Some confirmed.
Proof.
  intros Hb Hc Hst Hauth Hgate Hvalid start end_ Hwf Hlate. cbv zeta.
  assert (Hwf' : startDateTime booking < endDateTime booking) by exact Hwf.
  split.
  - destruct (cancelBooking_success db id renter_ reason now booking
                Hb Hauth) as (b' & -> & _); auto.
    apply canBeCancelled_iff. left. exact Hst.
  - destruct (confirmBooking_ok db id owner booking car Hb Hc Hvalid Hwf' Hgate Hst)
      as [d ->]. cbn [snd].
    set (b' := withDuration (withStatus booking confirmed) d).
    assert (Hb' : bookings (mkStore (cars db) (<[id := b']> (bookings db))) !! id
                  = Some b') by (cbn; apply lookup_insert_eq).
    split; [|rewrite Hb'; reflexivity].
    unfold cancelBooking. rewrite Hb'.
    assert (Hauth' : authorised renter_ b') by exact Hauth.
    rewrite (authorised_gate _ _ Hauth').
    assert (Hno : canBeCancelled b' now = false).
    { apply not_true_iff_false. rewrite canBeCancelled_ms.
      intros [H | [_ H]]; [discriminate H|].
      change (startDateTime b') with start in H. lia. }
    rewrite Hno. reflexivity.
Qed.

(** Ten hours before the pending sample booking starts, at the instant
    1 728 856 800 000. *)
Lemma confirming_late_forbids_cancelling_witness :
  let confirmed_ := (confirmBooking (demoStore pending) 3 (mkUser 9 role_user)).2 in
  res_status (cancelBooking (demoStore pending) 3 renter None
                1728856800000).1 = 200
  /\ cancelBooking confirmed_ 3 renter None 1728856800000
     = (json 400 false msgCannotCancel, confirmed_).
Proof.
  destruct (confirming_late_forbids_cancelling (demoStore pending) 3 renter
              (mkUser 9 role_user) None 1728856800000
              (demoBooking pending) demoCar) as (H1 & H2 & _);
    [reflexivity | reflexivity | reflexivity | left; reflexivity
    | left; reflexivity | vm_compute; reflexivity | vm_compute; reflexivity
    | vm_compute; discriminate |].
  split; [exact H1 | exact H2].
Defined.

Lemma updateRating_keeps _id car newRating db car' db' :
  updateRating _id car newRating db = Some (car', db') ->
  totalBookings car' = totalBookings car /\ c_owner car' = c_owner car
  /\ c_status car' = c_status car /\ c_pricing car' = c_pricing car.
Proof.
  unfold updateRating. destruct (negb _ && validCarRating _); [|discriminate].
  intros [= <- _]. repeat split.
Qed.

(** Completing and then rating.  An active booking of a car of the store
    passes the validators of its schema, ends after it starts and has no
    car rating yet; the car passes the validators of its own schema: rates
    and counter of bookings not negative, a currency of the enumeration, the
    rating aggregate within its bounds.  When the car's owner or an
    administrator has completed it,
    with an end mileage that is not negative and a fuel level of the
    enumeration where the request gives them, the renter's rating with both
    marks between 1 and 5 and a comment of at most 1000 characters
    succeeds, and the car ends with one more booking and one more rating in
    its running average. *)
Theorem completed_booking_can_be_rated
    db id owner renter_ body now now' booking car r s c :
  bookings db !! id = Some booking ->
  cars db !! b_car booking = Some car ->
  b_status booking = active ->
  ownsCar owner car = true \/ role owner = role_admin ->
  owns renter_ booking = true ->
  falsy (carRating (b_rating booking)) = true ->
  validBooking booking = true ->
  startDateTime booking < endDateTime booking ->
  match cpl_mileage body with Some m => (0 <= m)%Q | None => True end ->
  match cpl_fuelLevel body with Some l => l ∈ fuelLevels | None => True end ->
  validCarRating (c_rating car) = true ->
  (0 <= hourly (c_pricing car))%Q -> (0 <= daily (c_pricing car))%Q ->
  (forall w, weekly (c_pricing car) = Some w -> (0 <= w)%Q) ->
  (forall m, monthly (c_pricing car) = Some m -> (0 <= m)%Q) ->
  currency (c_pricing car) ∈ currencies ->
  0 <= totalBookings car ->
  (1 <= r)%Q -> (r <= 5)%Q -> (1 <= s)%Q -> (s <= 5)%Q ->
  match c with Some c => (String.length c <= 1000)%nat | None => True end ->
  let completed_ := completeBooking db id owner body now in
  let rated :=
    rateBooking completed_.2 id renter_ (mkRateBody (Some r) (Some s) c) now' in
  res_status completed_.1 = 200
  /\ res_status rated.1 = 200
  /\ exists car',
       cars rated.2 !! b_car booking = Some car'
       /\ totalBookings car' = totalBookings car + 1
       /\ count (c_rating car') = count (c_rating car) + 1
       /\ (average (c_rating car')
           == (average (c_rating car) * inject_Z (count (c_rating car)) + r)
              / inject_Z (count (c_rating car) + 1))%Q.
Proof.
  intros Hb Hc Hst Hgate Hown Hun Hvalid Hwf Hm Hf Hv _ _ _ _ _ _
         Hr1 Hr5 Hs1 Hs5 Hcm.
  cbv zeta.
  destruct (completeBooking_ok db id owner body now booking car
              Hb Hc Hvalid Hwf Hm Hf Hgate Hst) as (d & -> & Hvalid1).
  cbv zeta in Hvalid1. cbn [fst snd].
  split; [reflexivity|].
  set (b1 := withDuration (complete booking _ _ _) d) in *.
  set (car1 := mkCar (c_pricing car) (c_availability car) (c_owner car)
                 (c_status car) (c_rating car) (totalBookings car + 1)).
  set (db1 := incTotalBookings (b_car booking) _).
  assert (Hb1 : bookings db1 !! id = Some b1) by (cbn; apply lookup_insert_eq).
  assert (Hc1 : cars db1 !! b_car b1 = Some car1).
  { cbn. rewrite lookup_alter_eq, Hc. reflexivity. }
  pose proof (rateBooking_success db1 id renter_ now' b1 car1 r s c Hb1 Hown
                eq_refl Hun Hvalid1 Hwf Hc1 Hv Hr1 Hr5 Hs1 Hs5 Hcm) as H200.
  split; [exact H200|].
  destruct (rateBooking db1 id renter_ (mkRateBody (Some r) (Some s) c) now')
    as [resp db2] eqn:Hrate.
  destruct (rateBooking_success_inv _ _ _ _ _ _ _ Hrate H200)
    as (b0 & car0 & q & b2 & car' & Hb0 & _ & _ & _ & Hq & _ & Hcar0 & _ & Hup & _).
  rewrite Hb1 in Hb0. injection Hb0 as <-.
  rewrite Hc1 in Hcar0. injection Hcar0 as <-.
  cbn in Hq. injection Hq as <-.
  destruct (updateRating_keeps _ _ _ _ _ _ Hup) as (Htb & _).
  apply updateRating_inv in Hup as (-> & Havg & Hcnt).
  exists car'. cbn [snd cars]. rewrite lookup_insert_eq.
  split; [reflexivity|]. split; [exact Htb|]. split; [exact Hcnt|].
  rewrite Havg. reflexivity.
Qed.

(** The owner completes the active sample booking and its renter rates the
    car 4: one booking, one rating, average 4. *)
Lemma completed_booking_can_be_rated_witness :
  let completed_ :=
    (completeBooking (demoStore active) 3 (mkUser 9 role_user)
       (mkCompleteBody None None None None) 0).2 in
  let rated := rateBooking completed_ 3 renter
                 (mkRateBody (Some 4%Q) (Some 5%Q) None) 0 in
  res_status rated.1 = 200
  /\ exists car', cars rated.2 !! 7%N = Some car'
                  /\ totalBookings car' = 1 /\ count (c_rating car') = 1
                  /\ (average (c_rating car') == 4)%Q.
Proof.
  destruct (completed_booking_can_be_rated (demoStore active) 3
              (mkUser 9 role_user) renter (mkCompleteBody None None None None)
              0 0 (demoBooking active) demoCar 4%Q 5%Q None)
    as (_ & H200 & car' & Hc & Ht & Hn & Ha);
    [reflexivity | reflexivity | reflexivity | left; reflexivity | reflexivity
    | reflexivity | vm_compute; reflexivity | reflexivity | exact I | exact I
    | reflexivity | discriminate | discriminate
    | intros w [= <-]; discriminate | intros m [=] | left | discriminate
    | discriminate | discriminate | discriminate | discriminate
    | exact I |].
  split; [exact H200|]. exists car'. split; [exact Hc|].
  split; [exact Ht|]. split; [exact Hn|]. rewrite Ha. reflexivity.
Defined.

(** ** More on availability *)

Lemma available_iff db carId sd ed ex :
  isAvailable (checkCarAvailability db carId sd ed ex) = true
  <-> exists car,
        cars db !! carId = Some car /\ c_status car = car_active
        /\ ca_isAvailable (c_availability car) = true
        /\ ~ blackoutConflict car (parseDate sd) (parseDate ed)
        /\ ~ maintenanceConflict car (parseDate sd) (parseDate ed)
        /\ ~ bookingConflict db carId (parseDate sd) (parseDate ed) ex.
Proof.
  unfold blackoutConflict, maintenanceConflict.
  setoid_rewrite <- some_period_iff. setoid_rewrite <- some_booking_iff.
  unfold checkCarAvailability, checkCarAvailabilityAt.
  destruct (cars db !! carId) as [car|];
    [|cbn; split; [discriminate | intros (? & ? & _); discriminate]].
  destruct (bool_decide (c_status car = car_active)) eqn:Est; cbn [negb].
  2:{ apply bool_decide_eq_false in Est. cbn.
      split; [discriminate | intros (? & [= <-] & ? & _); contradiction]. }
  apply bool_decide_eq_true in Est.
  destruct (ca_isAvailable (c_availability car)) eqn:Eflag; cbn [negb].
  2:{ cbn. split; [discriminate | intros (? & [= <-] & _ & ? & _); congruence]. }
  cbv zeta.
  destruct (existsb _ (unavailableDates _)) eqn:Eb.
  { cbn. split; [discriminate | intros (? & [= <-] & _ & _ & H & _); congruence]. }
  destruct (existsb _ (maintenanceSchedule _)) eqn:Em.
  { cbn. split; [discriminate|]. intros (? & [= <-] & _ & _ & _ & H & _); congruence. }
  destruct (0 <? length _)%nat eqn:Ek; cbn.
  - split; [discriminate|]. intros (? & [= <-] & _ & _ & _ & _ & H); congruence.
  - split; [|reflexivity]. intros _. exists car.
    rewrite Eb, Em. repeat split; try assumption; congruence.
Qed.

(** A request inside an available request is available: moving the start
    later or the end earlier never makes a conflict. *)
Theorem narrower_request_stays_available db carId sd ed sd' ed' ex :
  sd <= sd' -> ed' <= ed ->
  isAvailable (checkCarAvailability db carId sd ed ex) = true ->
  isAvailable (checkCarAvailability db carId sd' ed' ex) = true.
Proof.
  intros Hs He. rewrite !available_iff.
  apply parseDate_le in Hs, He.
  intros (car & Hc & Hst & Hflag & Hnb & Hnm & Hnk).
  exists car. repeat split; try assumption.
  - intros (p & Hin & H1 & H2). apply Hnb. exists p. split; [exact Hin | lia].
  - intros (p & Hin & H1 & H2). apply Hnm. exists p. split; [exact Hin | lia].
  - intros (i & b & Hb & Hcar & Hstatus & Hex & H1 & H2). apply Hnk.
    exists i, b. repeat split; try assumption; lia.
Qed.

Lemma narrower_request_stays_available_witness :
  isAvailable (checkCarAvailability busyStore 7 20017 20018 None) = true.
Proof.
  apply (narrower_request_stays_available busyStore 7 20016 20019 20017 20018 None);
    [discriminate | discriminate | reflexivity].
Defined.

Lemma bookingConflict_delete db carId start end_ ex :
  bookingConflict db carId start end_ (Some ex)
  <-> bookingConflict (mkStore (cars db) (delete ex (bookings db)))
                      carId start end_ None.
Proof.
  unfold bookingConflict. cbn [bookings]. split.
  - intros (i & b & Hb & Hrest). exists i, b.
    split; [|intuition discriminate].
    rewrite lookup_delete_ne; [exact Hb|]. intuition congruence.
  - intros (i & b & Hb & Hrest).
    apply lookup_delete_Some in Hb as [Hne Hb]. exists i, b.
    split; [exact Hb|]. intuition congruence.
Qed.

(** Excluding a booking from the check is checking the store without that
    booking: the same verdict and the same reason. *)
Theorem excluding_is_removing db carId sd ed ex :
  let without := mkStore (cars db) (delete ex (bookings db)) in
  isAvailable (checkCarAvailability db carId sd ed (Some ex))
  = isAvailable (checkCarAvailability without carId sd ed None)
  /\ reason (checkCarAvailability db carId sd ed (Some ex))
     = reason (checkCarAvailability without carId sd ed None).
Proof.
  cbv zeta.
  assert (Hk : (0 <? length (find (bookings db)
                   (matchesQuery carId (parseDate sd) (parseDate ed) (Some ex))))%nat
               = (0 <? length (find (delete ex (bookings db))
                   (matchesQuery carId (parseDate sd) (parseDate ed) None)))%nat).
  { apply eq_true_iff_eq.
    rewrite (some_booking_iff db), bookingConflict_delete.
    rewrite <- (some_booking_iff (mkStore (cars db) (delete ex (bookings db)))).
    reflexivity. }
  unfold checkCarAvailability, checkCarAvailabilityAt. cbn [cars bookings].
  destruct (cars db !! carId) as [car|]; [|split; reflexivity].
  destruct (negb (bool_decide _)); [split; reflexivity|].
  destruct (negb (ca_isAvailable _)); [split; reflexivity|].
  cbv zeta.
  destruct (existsb _ (unavailableDates _)); [split; reflexivity|].
  destruct (existsb _ (maintenanceSchedule _)); [split; reflexivity|].
  destruct (0 <? length (find (bookings db) _))%nat;
    destruct (0 <? length (find (delete ex (bookings db)) _))%nat;
    try discriminate Hk; split; reflexivity.
Qed.

(** ** The car's own availability answer *)

Lemma isAvailableForDates_iff car sd ed :
  isAvailableForDates car sd ed = true
  <-> ca_isAvailable (c_availability car) = true
      /\ ~ blackoutConflict car (parseDate sd) (parseDate ed).
Proof.
  unfold isAvailableForDates, blackoutConflict. rewrite <- some_period_iff.
  destruct (ca_isAvailable (c_availability car)); cbn [negb].
  - cbv zeta. destruct (existsb _ _); cbn; intuition congruence.
  - intuition discriminate.
Qed.

(** The car route answers [available] from the car's flag and blackout
    list alone, and lists the overlapping bookings beside it.  The booking
    check finds the car available exactly when that answer is [true] with
    an empty list and, on top of it, the car is active and not in
    maintenance over the days; so a car that the booking check accepts is
    never reported unavailable by the route. *)
Theorem availability_answer_and_check db id sd ed car :
  cars db !! id = Some car ->
  let answer := getCarAvailability db id (Some sd) (Some ed) in
  let check := checkCarAvailability db id sd ed None in
  aa_status answer = 200 /\
  (isAvailable check = true
   <-> aa_available answer = Some true
       /\ aa_conflictingBookings answer = Some []
       /\ c_status car = car_active
       /\ ~ maintenanceConflict car (parseDate sd) (parseDate ed)) /\
  (aa_available answer = Some true
   <-> ca_isAvailable (c_availability car) = true
       /\ ~ blackoutConflict car (parseDate sd) (parseDate ed)) /\
  (aa_conflictingBookings answer = Some []
   <-> ~ bookingConflict db id (parseDate sd) (parseDate ed) None).
Proof.
  intros Hc. cbv zeta. unfold getCarAvailability. rewrite Hc.
  cbn [aa_status aa_available aa_conflictingBookings].
  assert (Hlist : Some (selectOf <$> find (bookings db)
                     (matchesQuery id (parseDate sd) (parseDate ed) None))
                  = Some []
                  <-> ~ bookingConflict db id (parseDate sd) (parseDate ed) None).
  { rewrite <- some_booking_iff.
    destruct (find _ _) as [|x l]; cbn; split; intros; congruence. }
  assert (Havail : Some (isAvailableForDates car sd ed) = Some true
                   <-> ca_isAvailable (c_availability car) = true
                       /\ ~ blackoutConflict car (parseDate sd) (parseDate ed)).
  { rewrite <- isAvailableForDates_iff. split; congruence. }
  split; [reflexivity|]. split; [|split; assumption].
  rewrite available_iff, Havail, Hlist. split.
  - intros (car' & Hc' & Hst & Hflag & Hnb & Hnm & Hnk).
    rewrite Hc in Hc'. injection Hc' as <-. tauto.
  - intros ((Hflag & Hnb) & Hnk & Hst & Hnm). exists car. tauto.
Qed.

(** On the sample store the route reports car 7 available for the days of
    its maintenance, which the booking check refuses. *)
Lemma availability_answer_and_check_witness :
  aa_available (getCarAvailability busyStore 7 (Some 20021) (Some 20021))
  = Some true
  /\ isAvailable (checkCarAvailability busyStore 7 20021 20021 None) = false.
Proof.
  destruct (availability_answer_and_check busyStore 7 20021 20021 busyCar)
    as (_ & Hcheck & Hanswer & _); [reflexivity|].
  split.
  - apply Hanswer. split; [reflexivity|].
    intros (p & Hin & Hlo & Hhi). apply list_elem_of_singleton in Hin. subst p.
    apply Hlo. reflexivity.
  - apply not_true_iff_false. intros H. apply Hcheck in H as (_ & _ & _ & Hnm).
    apply Hnm. exists (mkPeriod (parseDate 20020) (parseDate 20022)).
    split; [left|]. split; discriminate.
Defined.

(** ** Estimates *)

Lemma available_car db carId sd ed ex car :
  checkCarAvailability db carId sd ed ex
  = mkAvailabilityCheck true None None (Some car) ->
  cars db !! carId = Some car.
Proof.
  unfold checkCarAvailability, checkCarAvailabilityAt.
  destruct (cars db !! carId) as [car0|]; [|discriminate].
  repeat match goal with
         | |- context [if ?x then _ else _] => destruct x
         end; cbn; try discriminate.
  intros [= <-]. reflexivity.
Qed.

(** The estimate quotes what a booking costs: whenever a create request is
    handed to the store, the estimate for the same car, dates, times and
    insurance tier answers available, with the duration and the price that
    the created booking carries. *)
Theorem estimate_quotes_the_booking db user body now data :
  createBooking db user body now = Creates data ->
  exists p,
    getBookingEstimate db
      (mkEstimateBody (cb_carId body) (cb_startDate body) (cb_endDate body)
         (cb_startTime body) (cb_endTime body) (cb_insuranceType body)) now
    = mkEstimate 200 true None None (Some true) None (Some p)
                 (Some (bd_duration data))
    /\ bd_pricing data = pricingOf p.
Proof.
  intros H. apply createBooking_creates in H
    as (carId & sd & ed & st & et & car & Hc & Hsd & Hed & Hst & Het & Hv
        & Hav & Hd & Hp).
  pose proof (available_car _ _ _ _ _ _ Hav) as Hcar.
  unfold getBookingEstimate.
  cbn [eb_carId eb_startDate eb_endDate eb_startTime eb_endTime eb_insuranceType].
  rewrite Hc, Hsd, Hed, Hst, Het, Hv, Hcar, Hav. cbn [negb isAvailable reason].
  eexists. split; [rewrite Hd; reflexivity|].
  rewrite Hp, Hd. reflexivity.
Qed.

Lemma estimate_quotes_the_booking_witness :
  let request :=
    demoRequest 20010 20010 (mkTime 10 0) (mkTime 13 0) (Some demoDriver) in
  let db := mkStore (cars (demoStore pending)) ∅ in
  exists p,
    est_pricing (getBookingEstimate db
                   (mkEstimateBody (Some 7%N) (Some 20010) (Some 20010)
                      (Some (mkTime 10 0)) (Some (mkTime 13 0)) None)
                   (parseDate 20000)) = Some p
    /\ JS.equals (totalPrice p) (17515 # 100).
Proof.
  cbv zeta.
  assert (Hcreate : exists data,
             createBooking (mkStore (cars (demoStore pending)) ∅) renter
               (demoRequest 20010 20010 (mkTime 10 0) (mkTime 13 0) (Some demoDriver))
               (parseDate 20000) = Creates data)
    by (eexists; vm_compute; reflexivity).
  destruct Hcreate as [data Hcreate].
  destruct (estimate_quotes_the_booking _ _ _ _ _ Hcreate) as (p & Hest & Hp).
  exists p. split.
  - apply (f_equal est_pricing) in Hest. exact Hest.
  - assert (Htot : JS.equals (pd_totalPrice (bd_pricing data)) (17515 # 100)).
    { revert Hcreate. vm_compute. intros [= <-]. reflexivity. }
    rewrite Hp in Htot. exact Htot.
Defined.

(** ** Deleting a car *)

Lemma activeBookings_iff db carId :
  (0 <? length (find (bookings db) (isActiveBookingOf carId)))%nat = true
  <-> exists i b, bookings db !! i = Some b /\ b_car b = carId
                  /\ b_status b ∈ [pending; confirmed; active].
Proof.
  rewrite nonempty_iff. split.
  - intros [[i b] Hin]. apply find_iff in Hin as [Hb Hq].
    unfold isActiveBookingOf in Hq. cbn in Hq.
    apply andb_true_iff in Hq as [H1 H2].
    apply bool_decide_eq_true in H1, H2. eauto.
  - intros (i & b & Hb & Hc & Hs). exists (i, b). apply find_iff.
    split; [exact Hb|]. unfold isActiveBookingOf. cbn.
    rewrite !bool_decide_eq_true_2 by assumption. reflexivity.
Qed.

(** A car is deleted exactly when it exists, the caller owns it or is an
    administrator, and no pending, confirmed or active booking refers to
    it.  The bookings are never touched, a deleted car is from then on
    reported as not found by the booking check, and if every pending,
    confirmed or active booking had its car before, it has it after. *)
Theorem deleteCar_spec db id user :
  let out := deleteCar db id user in
  (res_status out.1 = 200
   <-> exists car,
         cars db !! id = Some car
         /\ (ownsCar user car = true \/ role user = role_admin)
         /\ ~ exists i b, bookings db !! i = Some b /\ b_car b = id
                          /\ b_status b ∈ [pending; confirmed; active]) /\
  (res_status out.1 = 200 ->
   cars out.2 = delete id (cars db)
   /\ forall sd ed ex,
        checkCarAvailability out.2 id sd ed ex = unavailable reasonNotFound) /\
  (res_status out.1 <> 200 -> out.2 = db) /\
  bookings out.2 = bookings db /\
  (bookedCarsExist db -> bookedCarsExist out.2).
Proof.
  cbv zeta. unfold deleteCar.
  destruct (cars db !! id) as [car|] eqn:Hc.
  2:{ cbn. repeat split; try discriminate; try tauto.
      intros (car & [=] & _). }
  pose proof (carOwner_gate user car) as Hgate.
  destruct (negb (ownsCar user car) && _).
  { cbn. repeat split; try discriminate; try tauto.
    intros (car' & [= <-] & H & _). apply Hgate in H. discriminate. }
  pose proof (activeBookings_iff db id) as Hact.
  destruct (0 <? length _)%nat.
  { cbn. split; [split; [discriminate|]|].
    - intros (car' & _ & _ & H). exfalso. apply H, Hact. reflexivity.
    - split; [discriminate|]. split; [reflexivity|]. split; [reflexivity | tauto]. }
  cbn. repeat split; try congruence.
  - intros _. exists car. split; [reflexivity|].
    split; [apply Hgate; reflexivity|].
    intros H. apply Hact in H. discriminate.
  - intros sd ed ex. unfold checkCarAvailability, checkCarAvailabilityAt. cbn.
    rewrite lookup_delete_eq. reflexivity.
  - intros Hinv i b Hb Hs. cbn in *.
    destruct (decide (b_car b = id)) as [Heq | Hne].
    + exfalso. assert (H : false = true); [|discriminate].
      apply Hact. eauto.
    + rewrite lookup_delete_ne by congruence. eapply Hinv; eassumption.
Qed.

(** The owner of car 7 cannot delete it while the sample booking is pending,
    and can once it is cancelled. *)
Lemma deleteCar_spec_witness :
  (deleteCar (demoStore pending) 7 (mkUser 9 role_user)).2 = demoStore pending
  /\ cars (deleteCar (demoStore cancelled) 7 (mkUser 9 role_user)).2 !! 7%N = None.
Proof.
  split.
  - destruct (deleteCar_spec (demoStore pending) 7 (mkUser 9 role_user))
      as (H & _ & Hno & _).
    apply Hno. intros H200. apply H in H200 as (car & _ & _ & Hnone).
    apply Hnone. exists 3%N, (demoBooking pending).
    split; [reflexivity|]. split; [reflexivity | left].
  - destruct (deleteCar_spec (demoStore cancelled) 7 (mkUser 9 role_user))
      as (H & Hok & _).
    destruct Hok as [-> _]; [|apply lookup_delete_eq].
    apply H. exists demoCar. split; [reflexivity|]. split; [left; reflexivity|].
    intros (i & b & Hb & _ & Hs).
    assert (Hst : b_status b = cancelled).
    { destruct (decide (i = 3%N)) as [-> | Hne].
      - vm_compute in Hb. injection Hb as <-. reflexivity.
      - cbn in Hb. rewrite lookup_singleton_ne in Hb by congruence. discriminate. }
    rewrite Hst, !elem_of_cons, elem_of_nil in Hs. intuition discriminate.
Defined.

(** ** Insurance tiers *)

Lemma tier_rates :
  insuranceRate "basic" = JS.num (5 # 100)
  /\ insuranceRate "comprehensive" = JS.num (10 # 100)
  /\ insuranceRate "premium" = JS.num (15 # 100).
Proof. repeat split. Qed.

(** On the same car and duration, with rates and hours that are not
    negative, comprehensive insurance never costs less than basic and
    premium never less than comprehensive, in insurance, in taxes and in
    total, while the base price and the flat fee are the same. *)
Theorem higher_tier_never_cheaper pricing duration :
  (0 <= hourly pricing)%Q -> (0 <= daily pricing)%Q ->
  (forall w, weekly pricing = Some w -> (0 <= w)%Q) ->
  0 <= hours duration ->
  let basic := calculateBookingPrice pricing duration "basic" in
  let comprehensive := calculateBookingPrice pricing duration "comprehensive" in
  let premium := calculateBookingPrice pricing duration "premium" in
  JS.le (insuranceCost basic) (insuranceCost comprehensive)
  /\ JS.le (insuranceCost comprehensive) (insuranceCost premium)
  /\ JS.le (taxes basic) (taxes comprehensive)
  /\ JS.le (taxes comprehensive) (taxes premium)
  /\ JS.le (totalPrice basic) (totalPrice comprehensive)
  /\ JS.le (totalPrice comprehensive) (totalPrice premium)
  /\ basePrice basic = basePrice premium
  /\ basePrice comprehensive = basePrice premium
  /\ fees basic = fees premium /\ fees comprehensive = fees premium.
Proof.
  intros Hh Hd Hw Hhours.
  pose proof (exactBasePrice_nonneg pricing duration Hh Hd Hw Hhours) as Hb.
  destruct tier_rates as (Hbasic & Hcomprehensive & Hpremium).
  cbv zeta.
  rewrite (price_of_rate _ _ _ _ Hbasic), (price_of_rate _ _ _ _ Hcomprehensive),
    (price_of_rate _ _ _ _ Hpremium).
  cbv zeta. cbn [insuranceCost taxes totalPrice basePrice fees JS.le].
  unfold taxRate.
  set (b := exactBasePrice pricing duration) in *.
  set (f := if 1 <=? days duration then 25%Q else 10%Q).
  repeat split; try (apply round2_mono; lra).
Qed.

Lemma higher_tier_never_cheaper_witness :
  JS.le (totalPrice (calculateBookingPrice demoPricing (mkDuration 26 2) "basic"))
        (totalPrice (calculateBookingPrice demoPricing (mkDuration 26 2) "premium")).
Proof.
  destruct (higher_tier_never_cheaper demoPricing (mkDuration 26 2))
    as (_ & _ & _ & _ & H1 & H2 & _).
  - discriminate.
  - discriminate.
  - intros w [= <-]. discriminate.
  - discriminate.
  - revert H1 H2.
    destruct (totalPrice (calculateBookingPrice demoPricing (mkDuration 26 2)
                            "basic")) as [x|]; [|intros []].
    destruct (totalPrice (calculateBookingPrice demoPricing (mkDuration 26 2)
                            "comprehensive")) as [y|]; [|intros []].
    destruct (totalPrice (calculateBookingPrice demoPricing (mkDuration 26 2)
                            "premium")) as [z|]; [|intros _ []].
    cbn [JS.le]. intros H1 H2. eapply Qle_trans; eassumption.
Defined.

(** ** What a create request needs *)

(** A create request is handed to the store exactly when the car, both
    dates, both times and the payment method are given, the four
    validators accept and the car is available for the dates; the booking
    is then made for the caller and the requested car, with the validated
    duration and, as currency, the currency of the car. *)
Theorem createBooking_accepts_iff db user body now :
  (exists data, createBooking db user body now = Creates data)
  <-> exists carId sd ed st et paymentMethod pickup dropoff,
        cb_carId body = Some carId
        /\ cb_startDate body = Some sd /\ cb_endDate body = Some ed
        /\ cb_startTime body = Some st /\ cb_endTime body = Some et
        /\ cb_paymentMethod body = Some paymentMethod
        /\ cb_pickupLocation body = Some pickup
        /\ cb_dropoffLocation body = Some dropoff
        /\ dv_isValid (validateBookingDates sd ed st et now) = true
        /\ v_isValid (validateDriverLicense
                        (cb_driverDetails body ≫= licenseNumber)
                        (cb_driverDetails body ≫= licenseExpiry) now) = true
        /\ v_isValid (validateLocation pickup "Pickup") = true
        /\ v_isValid (validateLocation dropoff "Dropoff") = true
        /\ isAvailable (checkCarAvailability db carId sd ed None) = true
        /\ forall data, createBooking db user body now = Creates data ->
             bd_user data = u_id user /\ bd_car data = carId
             /\ bd_duration data
                = dv_duration (validateBookingDates sd ed st et now)
             /\ exists car, cars db !! carId = Some car
                            /\ pd_currency (bd_pricing data)
                               = currency (c_pricing car).
Proof.
  unfold createBooking. split.
  - intros [data H].
    destruct (cb_carId body) as [carId|]; [|discriminate].
    destruct (cb_startDate body) as [sd|]; [|discriminate].
    destruct (cb_endDate body) as [ed|]; [|discriminate].
    destruct (cb_startTime body) as [st|]; [|discriminate].
    destruct (cb_endTime body) as [et|]; [|discriminate].
    destruct (cb_paymentMethod body) as [pm|]; [|discriminate].
    destruct (dv_isValid _) eqn:Hv; [|discriminate]. cbn [negb] in H.
    destruct (v_isValid (validateDriverLicense _ _ _)) eqn:Hl; [|discriminate].
    cbn [negb] in H.
    destruct (cb_pickupLocation body) as [p|]; [|discriminate].
    destruct (v_isValid (validateLocation p _)) eqn:Hp; [|discriminate].
    cbn [negb] in H.
    destruct (cb_dropoffLocation body) as [d|]; [|discriminate].
    destruct (v_isValid (validateLocation d _)) eqn:Hd; [|discriminate].
    cbn [negb] in H.
    destruct (checkCarAvailability db carId sd ed None) as [avail why l c] eqn:Hc.
    cbn [isAvailable av_car] in H.
    destruct avail; [|discriminate]. destruct c as [car|]; [|discriminate].
    exists carId, sd, ed, st, et, pm, p, d.
    do 13 (split; [first [reflexivity | assumption | rewrite Hc; reflexivity]|]).
    cbv beta iota zeta.
    cbn [negb isAvailable av_car]. intros data' [= <-]. cbn.
    do 3 (split; [reflexivity|]). exists car.
    split; [|reflexivity].
    assert (why = None /\ l = None) as [-> ->].
    { revert Hc. unfold checkCarAvailability, checkCarAvailabilityAt.
      repeat match goal with
             | |- context [match ?x with _ => _ end] => destruct x
             end; cbn; intros [= <- <- <-] || discriminate. split; reflexivity. }
    eapply available_car, Hc.
  - intros (carId & sd & ed & st & et & pm & p & d & -> & -> & -> & -> & -> & ->
            & -> & -> & -> & -> & -> & -> & Hav & _).
    cbn [negb].
    apply available_iff in Hav as (car & Hc & Hst & Hflag & Hnb & Hnm & Hnk).
    unfold blackoutConflict in Hnb. rewrite <- some_period_iff in Hnb.
    unfold maintenanceConflict in Hnm. rewrite <- some_period_iff in Hnm.
    rewrite <- some_booking_iff in Hnk.
    apply not_true_is_false in Hnb, Hnm, Hnk.
    rewrite (checkCarAvailability_eq _ _ _ _ _ _ Hc Hst Hflag), Hnb, Hnm, Hnk.
    cbn. eexists. reflexivity.
Qed.

Lemma createBooking_accepts_iff_witness :
  isAvailable (checkCarAvailability (mkStore (cars (demoStore pending)) ∅)
                 7 20010 20010 None) = true.
Proof.
  destruct (createBooking_accepts_iff (mkStore (cars (demoStore pending)) ∅) renter
              (demoRequest 20010 20010 (mkTime 10 0) (mkTime 13 0) (Some demoDriver))
              (parseDate 20000)) as [H _].
  destruct H as (carId & sd & ed & st & et & pm & p & d & Hc & Hsd & Hed & _ & _
                 & _ & _ & _ & _ & _ & _ & _ & Hav & _).
  - eexists. vm_compute. reflexivity.
  - injection Hc as <-. injection Hsd as <-. injection Hed as <-. exact Hav.
Defined.

(** ** Rescheduling *)

Lemma tier_not_inherited insuranceType :
  insuranceType ∈ insuranceTypes -> insuranceType ∉ objectPrototype.
Proof.
  unfold insuranceTypes. rewrite !elem_of_cons, elem_of_nil.
  intros [-> | [-> | [-> | []]]]; apply not_listed; vm_compute; reflexivity.
Qed.

(** A request that sets both dates and both times, and nothing else, of a
    booking that its owner or an administrator may still update.  The
    times are times of day, the validator accepts the interval and the car
    is available for the days apart from this booking itself; the car is in
    the store with rates that are not negative and a currency of the
    enumeration, and the stored insurance type is one of the three tiers.
    Then the update succeeds: the new dates, times and validated duration
    are stored, the price and the insurance cost are those of the new
    duration at the insurance type the booking already had, and status,
    renter and car stay.  None of the stored amounts is negative and the
    stored hours are at least 1. *)
Theorem rescheduling_reprices db id user now booking car sd ed st et :
  bookings db !! id = Some booking ->
  authorised user booking ->
  b_status booking ∉ [active; completed; cancelled] ->
  cars db !! b_car booking = Some car ->
  (0 <= hourly (c_pricing car))%Q -> (0 <= daily (c_pricing car))%Q ->
  (forall w, weekly (c_pricing car) = Some w -> (0 <= w)%Q) ->
  currency (c_pricing car) ∈ currencies ->
  ins_type (b_insurance booking) ∈ insuranceTypes ->
  validTime st = true -> validTime et = true ->
  dv_isValid (validateBookingDates sd ed st et now) = true ->
  isAvailable (checkCarAvailability db (b_car booking) sd ed (Some id)) = true ->
  let body := mkUpdateBody (Some sd) (Some ed) (Some st) (Some et) None in
  let duration := dv_duration (validateBookingDates sd ed st et now) in
  let price := calculateBookingPrice (c_pricing car) duration
                 (ins_type (b_insurance booking)) in
  exists b',
    updateBooking db id user body now
    = (jsonBooking "Booking updated successfully" b',
       mkStore (cars db) (<[id := b']> (bookings db)))
    /\ b_startDate b' = parseDate sd /\ b_endDate b' = parseDate ed
    /\ b_startTime b' = st /\ b_endTime b' = et
    /\ b_duration b' = duration
    /\ castPricing (pricingOf price) = Some (b_pricing b')
    /\ ins_type (b_insurance b') = ins_type (b_insurance booking)
    /\ insuranceCost price = JS.num (ins_cost (b_insurance b'))
    /\ b_status b' = b_status booking
    /\ b_user b' = b_user booking /\ b_car b' = b_car booking
    /\ (0 <= bp_basePrice (b_pricing b'))%Q /\ (0 <= bp_taxes (b_pricing b'))%Q
    /\ (0 <= bp_totalPrice (b_pricing b'))%Q
    /\ (0 <= ins_cost (b_insurance b'))%Q
    /\ 1 <= hours (b_duration b').
Proof.
  intros Hb Hauth Hst Hc Hh Hd Hw Hcur Htier Hst_ok Het_ok Hv Hav.
  assert (Hhours : 1 <= hours (dv_duration (validateBookingDates sd ed st et now))).
  { pose proof Hv as Hms. apply dates_valid_iff in Hms. destruct Hms as [_ Hms].
    unfold validateBookingDates. cbn [dv_duration hours].
    apply ceil_pos. rewrite hoursOf_eq. unfold Qlt; cbn.
    unfold msPerHour in Hms. lia. }
  pose proof (validated_days_pos sd ed st et now Hv) as Hdays. cbv zeta in Hdays.
  destruct (price_amounts_nonneg (c_pricing car)
              (dv_duration (validateBookingDates sd ed st et now))
              (ins_type (b_insurance booking)) Hh Hd Hw ltac:(lia)
              (tier_not_inherited _ Htier))
    as (i & t & total & Hi & Ht & Htotal & Hb0 & Hi0 & Ht0 & Hf0 & Hft).
  cbv zeta in Hi, Ht, Htotal, Hb0, Hf0, Hft.
  cbv zeta. unfold updateBooking.
  rewrite Hb, (authorised_gate _ _ Hauth), (bool_decide_eq_false_2 _ Hst).
  set (body := mkUpdateBody (Some sd) (Some ed) (Some st) (Some et) None).
  change (ub_startDate body) with (Some sd).
  change (ub_endDate body) with (Some ed).
  change (ub_startTime body) with (Some st).
  change (ub_endTime body) with (Some et).
  rewrite (bool_decide_eq_true_2 (is_Some (Some sd))) by eauto.
  cbn [orb default from_option Datatypes.id]. cbv beta zeta.
  rewrite Hv, Hav, Hc. cbn [negb]. unfold body.
  set (price := calculateBookingPrice _ _ _) in *.
  unfold findByIdAndUpdate.
  match goal with
  | |- context [validUpdate ?u] => assert (Hvalid : validUpdate u = true)
  end.
  { unfold validUpdate, withRepricing, mkUpdateBody, pricingOf.
    cbn [ub_startTime ub_endTime ub_pickupLocation ub_dropoffLocation
         ub_pricing ub_duration ub_paymentMethod ub_specialRequests
         ub_driverDetails ub_insurance ub_mileage ub_fuel ub_rating
         ub_cancellation provided mbind option_bind].
    unfold castPricing, castInsurance.
    cbn [pd_taxes pd_totalPrice pd_basePrice pd_fees pd_discount pd_currency
         id_cost id_type].
    rewrite Hi, Ht, Htotal.
    cbn [castNumber provided validPaymentMethod requiredString oneOf
         maxLength negb andb default from_option Datatypes.id].
    rewrite Hst_ok, Het_ok. cbn [andb].
    unfold validPricing, validDuration, validInsurance.
    cbn [bp_basePrice bp_taxes bp_fees bp_discount bp_totalPrice bp_currency
         ins_type ins_cost].
    rewrite !andb_true_iff, !JS_leb_spec, !bool_decide_eq_true, !Z.leb_le.
    repeat split; try assumption; try discriminate; try lia.
    eapply Qle_trans; eassumption. }
  rewrite Hvalid. unfold withRepricing, mkUpdateBody, pricingOf.
  cbn [ub_pricing ub_insurance ub_status ub_paymentStatus setPath].
  unfold castPricing, castInsurance.
  cbn [pd_taxes pd_totalPrice pd_basePrice pd_fees pd_discount pd_currency
       id_cost id_type].
  rewrite Hi, Ht, Htotal. cbn [castNumber].
  eexists. split; [reflexivity|].
  cbn [b_startDate b_endDate b_startTime b_endTime b_duration b_pricing
       b_insurance b_status b_user b_car default from_option fmap option_fmap
       option_map ub_startDate ub_endDate ub_startTime ub_endTime ub_duration
       ub_user ub_car].
  cbn [bp_basePrice bp_taxes bp_totalPrice ins_cost ins_type].
  repeat split; try assumption.
  eapply Qle_trans; eassumption.
Qed.

(** The renter moves the pending sample booking to day 20012, 09:00 to
    12:00: three hours, billed as one day and three hours. *)
Lemma rescheduling_reprices_witness :
  exists b',
    (updateBooking (demoStore pending) 3 renter
       (mkUpdateBody (Some 20012) (Some 20012) (Some (mkTime 9 0))
          (Some (mkTime 12 0)) None) (parseDate 20000)).1
    = jsonBooking "Booking updated successfully" b'
    /\ b_duration b' = mkDuration 3 1
    /\ (bp_totalPrice (b_pricing b') == 17515 # 100)%Q.
Proof.
  destruct (rescheduling_reprices (demoStore pending) 3 renter (parseDate 20000)
              (demoBooking pending) demoCar 20012 20012 (mkTime 9 0) (mkTime 12 0))
    as (b' & Hup & _ & _ & _ & _ & Hd & Hp & _).
  - reflexivity.
  - left. reflexivity.
  - rewrite !elem_of_cons, elem_of_nil. intuition discriminate.
  - reflexivity.
  - discriminate.
  - discriminate.
  - intros w [= <-]. discriminate.
  - left.
  - left.
  - reflexivity.
  - reflexivity.
  - reflexivity.
  - reflexivity.
  - exists b'. split; [rewrite Hup; reflexivity|].
    split; [rewrite Hd; reflexivity|].
    destruct (b_pricing b') as [base taxes fees discount total cur].
    vm_compute in Hp. injection Hp as <- <- <- <- <- <-. reflexivity.
Defined.


(** ** What an update hands to the store *)

(** The request body is handed to [findByIdAndUpdate] as it is, so a
    status that the body names is written like any other path.  A request
    to update a booking that is not active, completed or cancelled, from its
    renter or an administrator, whose body holds nothing but the name of one
    of the six statuses, is answered 200 and stores the booking with that
    status and nothing else changed: the renter can confirm or complete
    their own booking this way.  A name outside the six is refused by the
    validator of the enumeration: the answer is 500 and the store is as it
    was. *)
Theorem update_writes_named_status db id user now booking :
  bookings db !! id = Some booking ->
  authorised user booking ->
  b_status booking ∉ [active; completed; cancelled] ->
  let body name :=
    {| ub_user := None; ub_car := None; ub_startDate := None; ub_endDate := None;
       ub_startTime := None; ub_endTime := None;
       ub_pickupLocation := None; ub_dropoffLocation := None;
       ub_pricing := None; ub_duration := None;
       ub_status := Some name; ub_paymentStatus := None;
       ub_paymentMethod := None; ub_specialRequests := None;
       ub_driverDetails := None; ub_insurance := None;
       ub_mileage := None; ub_fuel := None; ub_postRental := None;
       ub_rating := None; ub_cancellation := None |} in
  (forall s,
     let b' := withStatus booking s in
     updateBooking db id user (body (statusName s)) now
     = (jsonBooking "Booking updated successfully" b',
        mkStore (cars db) (<[id := b']> (bookings db)))
     /\ b_status b' = s)
  /\ (forall name,
        name ∉ ["pending"; "confirmed"; "active"; "completed"; "cancelled";
                "no-show"] ->
        updateBooking db id user (body name) now = (serverError, db)).
Proof.
  intros Hfind Hauth Hst body. split.
  - intros s b'. split; [|reflexivity].
    unfold updateBooking.
    rewrite Hfind, (authorised_gate _ _ Hauth), (bool_decide_eq_false_2 _ Hst).
    cbn [body ub_startDate ub_endDate ub_startTime ub_endTime].
    rewrite (bool_decide_eq_false_2 (is_Some (@None Z)))
      by (intros [? ?]; discriminate).
    rewrite (bool_decide_eq_false_2 (is_Some (@None TimeOfDay)))
      by (intros [? ?]; discriminate).
    cbn [orb]. unfold findByIdAndUpdate, validUpdate, body.
    cbn -[named statusName].
    assert (Hs : named statusName
                   [pending; confirmed; active; completed; cancelled; no_show]
                   (statusName s) = Some s) by (destruct s; reflexivity).
    rewrite Hs. reflexivity.
  - intros name Hname. unfold updateBooking.
    rewrite Hfind, (authorised_gate _ _ Hauth), (bool_decide_eq_false_2 _ Hst).
    cbn [body ub_startDate ub_endDate ub_startTime ub_endTime].
    rewrite (bool_decide_eq_false_2 (is_Some (@None Z)))
      by (intros [? ?]; discriminate).
    rewrite (bool_decide_eq_false_2 (is_Some (@None TimeOfDay)))
      by (intros [? ?]; discriminate).
    cbn [orb]. unfold findByIdAndUpdate, body.
    cbn -[named statusName].
    assert (Hs : named statusName
                   [pending; confirmed; active; completed; cancelled; no_show]
                   name = None).
    { rewrite !elem_of_cons, elem_of_nil in Hname.
      unfold named. cbn [List.find statusName].
      repeat (rewrite bool_decide_eq_false_2 by (intros E; apply Hname; auto 10)).
      reflexivity. }
    rewrite Hs. reflexivity.
Qed.

(** The renter of the pending sample booking marks it completed with an
    update; the name [done] is refused. *)
Lemma update_writes_named_status_witness :
  let body name := mkBody None None None None None None None None None None
                     (Some name) None None None None None None None None None
                     None in
  updateBooking (demoStore pending) 3 renter (body "completed") 0
  = (jsonBooking "Booking updated successfully" (demoBooking completed),
     mkStore (cars (demoStore pending))
       (<[3%N := demoBooking completed]> (bookings (demoStore pending))))
  /\ updateBooking (demoStore pending) 3 renter (body "done") 0
     = (serverError, demoStore pending).
Proof.
  cbv zeta.
  assert (Hfind : bookings (demoStore pending) !! 3%N = Some (demoBooking pending))
    by (vm_compute; reflexivity).
  assert (Hauth : authorised renter (demoBooking pending))
    by (left; vm_compute; reflexivity).
  assert (Hst : b_status (demoBooking pending) ∉ [active; completed; cancelled]).
  { rewrite !elem_of_cons, elem_of_nil.
    intros [H | [H | [H | []]]]; discriminate. }
  destruct (update_writes_named_status (demoStore pending) 3 renter 0
              (demoBooking pending) Hfind Hauth Hst) as [Hwrite Hrefuse].
  split.
  - exact (proj1 (Hwrite completed)).
  - apply Hrefuse. rewrite !elem_of_cons, elem_of_nil.
    intros [H | [H | [H | [H | [H | [H | []]]]]]]; discriminate.
Defined.

(** A request to update that names a date or a time but not both dates
    never writes: [booking.startDate] or [booking.endDate], a [Date], takes
    the place of the missing date string, the interval made of it is no
    interval, and the request ends in one of the refusals or, when every
    check lets it through, in the answer 500.  So a time of day cannot be
    changed without sending both dates again. *)
Theorem update_without_both_dates_writes_nothing db id user body now :
  ub_startDate body = None \/ ub_endDate body = None ->
  is_Some (ub_startDate body) \/ is_Some (ub_endDate body)
  \/ is_Some (ub_startTime body) \/ is_Some (ub_endTime body) ->
  let out := updateBooking db id user body now in
  out.2 = db
  /\ res_status out.1 <> 200
  /\ (forall booking,
        bookings db !! id = Some booking ->
        authorised user booking ->
        b_status booking ∉ [active; completed; cancelled] ->
        ub_startDate body = None ->
        isAvailable
          (checkCarAvailabilityAt db (b_car booking) (b_startDate booking)
             (default (b_endDate booking) (parseDate <$> ub_endDate body))
             (Some id)) = true ->
        out = (serverError, db)).
Proof.
  intros Hmissing Hsome out.
  assert (Hgate : bool_decide (is_Some (ub_startDate body))
                  || bool_decide (is_Some (ub_endDate body))
                  || bool_decide (is_Some (ub_startTime body))
                  || bool_decide (is_Some (ub_endTime body)) = true).
  { rewrite !orb_true_iff, !bool_decide_eq_true. tauto. }
  assert (Hshape : forall booking,
            bookings db !! id = Some booking ->
            negb (owns user booking) && negb (bool_decide (role user = role_admin))
            = false ->
            bool_decide (b_status booking ∈ [active; completed; cancelled]) = false ->
            (out.2 = db /\ res_status out.1 <> 200)
            /\ (ub_startDate body = None ->
                isAvailable
                  (checkCarAvailabilityAt db (b_car booking) (b_startDate booking)
                     (default (b_endDate booking) (parseDate <$> ub_endDate body))
                     (Some id)) = true ->
                out = (serverError, db))).
  { intros booking Hfind Hauth Hst. unfold out, updateBooking.
    rewrite Hfind, Hauth, Hst, Hgate.
    destruct (ub_startDate body) as [sd|] eqn:Esd;
      destruct (ub_endDate body) as [ed|] eqn:Eed.
    - destruct Hmissing; discriminate.
    - split; [|discriminate].
      destruct (parseDateTime sd _ <=? now); cbn -[checkCarAvailabilityAt];
        [split; [reflexivity | discriminate]|].
      destruct (isAvailable _); cbn; split; (reflexivity || discriminate).
    - cbn -[checkCarAvailabilityAt]. split.
      + destruct (isAvailable _); cbn; split; (reflexivity || discriminate).
      + intros _ Hav. rewrite Hav. reflexivity.
    - cbn -[checkCarAvailabilityAt]. split.
      + destruct (isAvailable _); cbn; split; (reflexivity || discriminate).
      + intros _ Hav. rewrite Hav. reflexivity. }
  destruct (bookings db !! id) as [booking|] eqn:Hfind.
  - destruct (negb (owns user booking) && negb (bool_decide (role user = role_admin)))
      eqn:Hauth.
    + unfold out, updateBooking. rewrite Hfind, Hauth.
      split; [reflexivity|]. split; [discriminate|].
      intros b [= <-] Ha. rewrite (authorised_gate _ _ Ha) in Hauth. discriminate.
    + destruct (bool_decide (b_status booking ∈ [active; completed; cancelled]))
        eqn:Hst.
      * unfold out, updateBooking. rewrite Hfind, Hauth, Hst.
        split; [reflexivity|]. split; [discriminate|].
        intros b [= <-] _ Hn. apply bool_decide_eq_true in Hst. contradiction.
      * destruct (Hshape booking eq_refl Hauth Hst) as [[H1 H2] H3].
        split; [exact H1|]. split; [exact H2|].
        intros b [= <-] _ _. exact H3.
  - unfold out, updateBooking. rewrite Hfind.
    split; [reflexivity|]. split; [discriminate|]. intros b [=].
Qed.

(** The renter of the pending sample booking asks for another end time
    only: nothing stands in the way, and the answer is 500. *)
Lemma update_without_both_dates_writes_nothing_witness :
  let body := mkUpdateBody None None None (Some (mkTime 12 0)) None in
  updateBooking (demoStore pending) 3 renter body 0
  = (serverError, demoStore pending).
Proof.
  cbv zeta.
  destruct (update_without_both_dates_writes_nothing (demoStore pending) 3 renter
              (mkUpdateBody None None None (Some (mkTime 12 0)) None) 0
              (or_introl eq_refl)
              (or_intror (or_intror (or_intror (ex_intro _ (mkTime 12 0) eq_refl)))))
    as (_ & _ & H).
  apply (H (demoBooking pending)).
  - vm_compute; reflexivity.
  - left; vm_compute; reflexivity.
  - rewrite !elem_of_cons, elem_of_nil.
    intros [H1 | [H1 | [H1 | []]]]; discriminate.
  - reflexivity.
  - vm_compute; reflexivity.
Defined.

(** ** Documents in the store stay fit to be saved *)

Lemma perform_bookings db id op now :
  bookings (perform db id op now) = bookings db
  \/ exists b1 b' db',
       saveBooking id b1 db = Some (b', db')
       /\ bookings (perform db id op now) = <[id := b']> (bookings db).
Proof.
  destruct op as [user | user body | user reason | user body]; unfold perform.
  - unfold confirmBooking.
    destruct (bookings db !! id) as [b|]; [|left; reflexivity].
    destruct (cars db !! b_car b) as [car|]; [|left; reflexivity].
    destruct (negb (ownsCar user car) && _); [left; reflexivity|].
    destruct (negb (bool_decide (b_status b = pending))); [left; reflexivity|].
    destruct (saveBooking _ _ _) as [[b' db']|] eqn:Hsave; [|left; reflexivity].
    right. eexists _, b', db'. split; [exact Hsave|].
    apply saveBooking_inv in Hsave as (_ & _ & _ & ->). reflexivity.
  - unfold completeBooking.
    destruct (bookings db !! id) as [b|]; [|left; reflexivity].
    destruct (cars db !! b_car b) as [car|]; [|left; reflexivity].
    destruct (negb (ownsCar user car) && _); [left; reflexivity|].
    destruct (negb (bool_decide (b_status b = active))); [left; reflexivity|].
    destruct (saveBooking _ _ _) as [[b' db']|] eqn:Hsave; [|left; reflexivity].
    right. eexists _, b', db'. split; [exact Hsave|].
    apply saveBooking_inv in Hsave as (_ & _ & _ & ->). reflexivity.
  - unfold cancelBooking.
    destruct (bookings db !! id) as [b|]; [|left; reflexivity].
    destruct (negb (owns user b) && _); [left; reflexivity|].
    destruct (negb (canBeCancelled b now)); [left; reflexivity|].
    destruct (saveBooking _ _ _) as [[b' db']|] eqn:Hsave; [|left; reflexivity].
    right. eexists _, b', db'. split; [exact Hsave|].
    apply saveBooking_inv in Hsave as (_ & _ & _ & ->). reflexivity.
  - unfold rateBooking.
    destruct (rb_carRating body) as [newRating|]; [|left; reflexivity].
    destruct (falsy _ || falsy _); [left; reflexivity|].
    destruct (bookings db !! id) as [b|]; [|left; reflexivity].
    destruct (negb (owns user b)); [left; reflexivity|].
    destruct (negb (bool_decide (b_status b = completed))); [left; reflexivity|].
    destruct (negb (falsy _)); [left; reflexivity|].
    destruct (saveBooking _ _ _) as [[b' db']|] eqn:Hsave; [|left; reflexivity].
    right. eexists _, b', db'. split; [exact Hsave|].
    apply saveBooking_inv in Hsave as (_ & _ & _ & ->).
    destruct (cars db !! b_car b') as [car|]; [|reflexivity].
    destruct (updateRating _ _ _ _) as [[car' db'']|] eqn:Hup; [|reflexivity].
    apply updateRating_inv in Hup as (-> & _). reflexivity.
Qed.

(** A document can be saved when it passes the validators of the schema and
    its end lies after its start.  When this holds of every booking of the
    store, it holds of every booking of the store after a request to
    confirm, complete, cancel or rate, whatever the request and whoever
    sends it: what these handlers write has been validated, and the hook
    that recomputes the duration leaves at least one hour and one day. *)
Theorem handlers_keep_documents_saveable db id op now :
  (forall j b, bookings db !! j = Some b ->
               validBooking b = true /\ startDateTime b < endDateTime b) ->
  forall j b, bookings (perform db id op now) !! j = Some b ->
              validBooking b = true /\ startDateTime b < endDateTime b.
Proof.
  intros Hall j b.
  destruct (perform_bookings db id op now)
    as [-> | (b1 & b' & db' & Hsave & ->)]; [apply Hall|].
  rewrite lookup_insert_Some. intros [[_ <-] | [_ H]]; [|exact (Hall j b H)].
  destruct (saved_valid _ _ _ _ _ Hsave) as (Hv & Hs & He).
  apply saveBooking_inv in Hsave as (_ & Hwf & _).
  split; [exact Hv|]. rewrite Hs, He. exact Hwf.
Qed.

(** After the pending sample booking has been confirmed and then cancelled,
    the document of the store still passes the validators. *)
Lemma handlers_keep_documents_saveable_witness :
  let db1 := perform (demoStore pending) 3 (Confirm (mkUser 9 role_user)) 0 in
  let db2 := perform db1 3 (Cancel renter None) 0 in
  exists b,
    bookings db2 !! 3%N = Some b
    /\ b_status b = cancelled
    /\ validBooking b = true /\ startDateTime b < endDateTime b.
Proof.
  cbv zeta.
  destruct (bookings
              (perform (perform (demoStore pending) 3
                          (Confirm (mkUser 9 role_user)) 0)
                       3 (Cancel renter None) 0) !! 3%N) as [b|] eqn:E;
    [|vm_compute in E; discriminate].
  exists b. split; [reflexivity|].
  split; [vm_compute in E; injection E as <-; reflexivity|].
  revert E. apply handlers_keep_documents_saveable.
  apply handlers_keep_documents_saveable.
  intros j b0 Hb.
  change (bookings (demoStore pending))
    with ({[3%N := demoBooking pending]} : gmap N Booking) in Hb.
  apply lookup_singleton_Some in Hb as [_ <-].
  split; vm_compute; reflexivity.
Defined.
